(** * coroutine_lib: a shallow embedding of the timer manager, the fd registry,
    the fiber constructor, the scheduler/reactor stop test, the reactor's event
    registration and the [do_io] hook template, with the properties checked
    against the sources.

    One module per translation unit of the library ([timer], [fd_manager],
    [fiber], [scheduler], [ioscheduler], [hook]); definitions keep the names of
    the C++ functions and members they embed.  Conventions:

    - machine integers are [Z]; unsigned 64-bit arithmetic is wrapped with
      [wrap64], unsigned 32-bit with [wrap32];
    - time points of [std::chrono::system_clock] are [Z] ticks since the epoch,
      one tick being a nanosecond ([ticks_per_ms] ticks per millisecond); tick
      arithmetic is exact, theorems that depend on the 64-bit range say so;
    - a [std::function<void()>] is an [option Callback] ([None] is the empty
      function), closures being first-order descriptions of what they captured;
    - a [shared_ptr] to a [Timer] is a handle: an index into the store of timer
      objects kept next to the manager;
    - every reading of the clock, of the kernel or of thread-local state is an
      explicit argument. *)

From Stdlib Require Import ZArith Bool List Sorted Lia.
From stdpp Require Import base option list gmap.
Import ListNotations.

Local Open Scope Z_scope.

(** ** Machine integers and results *)

Definition wrap64 (z : Z) : Z := z mod 2 ^ 64.
Definition wrap32 (z : Z) : Z := z mod 2 ^ 32.

(** [~0ull] *)
Definition UINT64_MAX : Z := 2 ^ 64 - 1.

(** [std::chrono::system_clock::duration] is a count of nanoseconds. *)
Definition ticks_per_ms : Z := 1000000.

(** [std::chrono::milliseconds(ms)] added to a time point. *)
Definition milliseconds (ms : Z) : Z := ms * ticks_per_ms.

(** [duration_cast<std::chrono::milliseconds>(d).count()]: truncation toward
    zero. *)
Definition duration_cast_ms (d : Z) : Z := Z.quot d ticks_per_ms.

(** A time point that fits the clock's signed 64-bit representation and is not
    before the epoch. *)
Definition time_point_ok (t : Z) : Prop := 0 <= t < 2 ^ 63.

(** Outcome of a call: it returns, stops on a failed [assert], leaves the
    language's defined behaviour (an index out of range, an out-of-range
    conversion), or is still waiting when the description of its environment
    ends. *)
Inductive outcome (A : Type) : Type :=
| Ret (a : A)
| AssertFail
| Undefined
| Blocked.
Arguments Ret {A} a.
Arguments AssertFail {A}.
Arguments Undefined {A}.
Arguments Blocked {A}.

#[global] Instance outcome_ret : MRet outcome := fun A a => Ret a.
#[global] Instance outcome_bind : MBind outcome := fun A B k m =>
  match m with
  | Ret a => k a
  | AssertFail => AssertFail
  | Undefined => Undefined
  | Blocked => Blocked
  end.

(** [assert(b);] *)
Definition assert (b : bool) : outcome unit := if b then Ret tt else AssertFail.

(** ** Events and callbacks (ioscheduler.h, hook.cpp) *)

(** [enum IOManager::Event]; registered masks are combinations of the bits. *)
Definition Event := Z.
Definition NONE : Event := 0.
Definition READ : Event := 1.
Definition WRITE : Event := 4.

Definition ETIMEDOUT : Z := 110.
Definition EBADF : Z := 9.
Definition EINTR : Z := 4.
Definition EAGAIN : Z := 11.

(** The closures the library itself builds, and opaque user functions. *)
Inductive Callback : Type :=
| UserCb (id : nat)
    (** a function object supplied by the caller *)
| OnTimerCb (weak_cond : nat) (cb : Callback)
    (** [std::bind(&OnTimer, weak_cond, cb)] of [addConditionTimer] *)
| DoIoTimeoutCb (winfo : nat) (fd : Z) (event : Z).
    (** the lambda [[winfo, fd, iom, event]] armed by [do_io] *)

(** * timer.h, timer.cpp *)
Module timer.

Record Timer : Type := mkTimer {
  m_recurring : bool;
  m_ms : Z;
  m_next : Z;
  m_cb : option Callback
}.

Definition set_m_next (v : Z) (t : Timer) : Timer :=
  mkTimer (m_recurring t) (m_ms t) v (m_cb t).
Definition set_m_cb (v : option Callback) (t : Timer) : Timer :=
  mkTimer (m_recurring t) (m_ms t) (m_next t) v.

(** [Timer::Timer(ms, cb, recurring, manager)] with the clock reading [now]. *)
Definition Timer_new (ms : Z) (cb : option Callback) (recurring : bool)
    (now : Z) : Timer :=
  mkTimer recurring ms (now + milliseconds ms) cb.

(** [Timer::Comparator::operator()] on the two pointees. *)
Definition Comparator (lhs rhs : Timer) : bool := m_next lhs <? m_next rhs.

(** [TimerManager]: the members, and [objs], the timer objects the handles
    point to (handles of cancelled and expired timers stay valid: their
    owners still hold them). *)
Record TimerManager : Type := mkTimerManager {
  objs : list Timer;
  m_timers : list nat;
  m_tickled : bool;
  m_previouseTime : Z
}.

Definition null_timer : Timer := mkTimer false 0 0 None.

(** Dereference of a handle. *)
Definition timer_at (os : list Timer) (h : nat) : Timer :=
  default null_timer (os !! h).

(** The comparator as [std::set] applies it, on handles. *)
Definition less (os : list Timer) (a b : nat) : bool :=
  Comparator (timer_at os a) (timer_at os b).

(** [std::set::insert(x)]: the set in comparator order, the position of the
    returned iterator, and whether [x] was inserted.  An element equivalent
    to [x] (neither is less than the other) blocks the insertion and the
    iterator points to it. *)
Fixpoint set_insert (os : list Timer) (x : nat) (s : list nat)
    : list nat * (nat * bool) :=
  match s with
  | [] => ([x], (0%nat, true))
  | y :: s' =>
      if less os x y then (x :: s, (0%nat, true))
      else if less os y x then
        let '(s'', (i, b)) := set_insert os x s' in (y :: s'', (S i, b))
      else (s, (0%nat, false))
  end.

(** [std::set::find(x)]: position of the element equivalent to [x]. *)
Fixpoint set_find (os : list Timer) (x : nat) (s : list nat) : option nat :=
  match s with
  | [] => None
  | y :: s' =>
      if less os y x then S <$> set_find os x s'
      else if less os x y then None
      else Some 0%nat
  end.

(** [std::set::empty()] and [*std::set::begin()]. *)
Definition empty (s : list nat) : bool :=
  match s with [] => true | _ :: _ => false end.
Definition begin (s : list nat) : nat := hd 0%nat s.

(** [TimerManager::TimerManager()] *)
Definition TimerManager_new (now : Z) : TimerManager :=
  mkTimerManager [] [] false now.

(** [TimerManager::addTimer(std::shared_ptr<Timer>)].  The second component
    is [at_front]: the caller of the virtual [onTimerInsertedAtFront] hook
    runs it when the flag is set. *)
Definition addTimer_ptr (timer : nat) (tm : TimerManager)
    : TimerManager * bool :=
  let '(s, (it, _)) := set_insert (objs tm) timer (m_timers tm) in
  let at_front := (it =? 0)%nat && negb (m_tickled tm) in
  (mkTimerManager (objs tm) s (if at_front then true else m_tickled tm)
     (m_previouseTime tm), at_front).

(** [TimerManager::addTimer(ms, cb, recurring)]: the new handle, the manager
    and [at_front]. *)
Definition addTimer (ms : Z) (cb : option Callback) (recurring : bool)
    (now : Z) (tm : TimerManager) : nat * TimerManager * bool :=
  let timer := length (objs tm) in
  let tm1 := mkTimerManager (objs tm ++ [Timer_new ms cb recurring now])
               (m_timers tm) (m_tickled tm) (m_previouseTime tm) in
  let '(tm2, at_front) := addTimer_ptr timer tm1 in
  (timer, tm2, at_front).

(** [TimerManager::addConditionTimer] *)
Definition addConditionTimer (ms : Z) (cb : Callback) (weak_cond : nat)
    (recurring : bool) (now : Z) (tm : TimerManager)
    : nat * TimerManager * bool :=
  addTimer ms (Some (OnTimerCb weak_cond cb)) recurring now tm.

(** [Timer::cancel()] on the timer behind handle [h]. *)
Definition Timer_cancel (h : nat) (tm : TimerManager) : bool * TimerManager :=
  match m_cb (timer_at (objs tm) h) with
  | None => (false, tm)
  | Some _ =>
      let os := <[h := set_m_cb None (timer_at (objs tm) h)]> (objs tm) in
      let s := match set_find os h (m_timers tm) with
               | Some it => delete it (m_timers tm)
               | None => m_timers tm
               end in
      (true, mkTimerManager os s (m_tickled tm) (m_previouseTime tm))
  end.



(** [TimerManager::getNextTimer()] with the clock reading [now]. *)
Definition getNextTimer (now : Z) (tm : TimerManager) : Z * TimerManager :=
  let tm' := mkTimerManager (objs tm) (m_timers tm) false (m_previouseTime tm) in
  if empty (m_timers tm) then (UINT64_MAX, tm')
  else
    let time := m_next (timer_at (objs tm) (begin (m_timers tm))) in
    if now >=? time then (0, tm')
    else (wrap64 (duration_cast_ms (time - now)), tm').

(** [TimerManager::hasTimer()] *)
Definition hasTimer (tm : TimerManager) : bool := negb (empty (m_timers tm)).

(** [TimerManager::detectClockRollover()] with its own clock reading. *)
Definition detectClockRollover (now : Z) (tm : TimerManager)
    : bool * TimerManager :=
  let rollover := now <? m_previouseTime tm - milliseconds (60 * 60 * 1000) in
  (rollover, mkTimerManager (objs tm) (m_timers tm) (m_tickled tm) now).

(** The condition of the [while] of [listExpiredCb]; [&&] guards the
    dereference of [begin()]. *)
Definition expired_cond (now : Z) (rollover : bool) (tm : TimerManager) : bool :=
  (negb (empty (m_timers tm)) && rollover)
  || (negb (empty (m_timers tm))
      && (m_next (timer_at (objs tm) (begin (m_timers tm))) <=? now)).

(** One run of the body of the [while]: pop the first timer, collect its
    callback, re-arm it when recurring and clear its callback otherwise. *)
Definition expired_step (now : Z) (tm : TimerManager)
    (cbs : list (option Callback)) : TimerManager * list (option Callback) :=
  match m_timers tm with
  | [] => (tm, cbs)
  | temp :: rest =>
      let t := timer_at (objs tm) temp in
      let cbs' := cbs ++ [m_cb t] in
      if m_recurring t then
        let os := <[temp := set_m_next (now + milliseconds (m_ms t)) t]> (objs tm) in
        (mkTimerManager os (fst (set_insert os temp rest)) (m_tickled tm)
           (m_previouseTime tm), cbs')
      else
        (mkTimerManager (<[temp := set_m_cb None t]> (objs tm)) rest
           (m_tickled tm) (m_previouseTime tm), cbs')
  end.

(** The [while] loop; [None] when [fuel] iterations did not reach its exit. *)
Fixpoint expired_loop (fuel : nat) (now : Z) (rollover : bool)
    (tm : TimerManager) (cbs : list (option Callback))
    : option (TimerManager * list (option Callback)) :=
  if expired_cond now rollover tm then
    match fuel with
    | O => None
    | S fuel' =>
        let '(tm', cbs') := expired_step now tm cbs in
        expired_loop fuel' now rollover tm' cbs'
    end
  else Some (tm, cbs).

(** [TimerManager::listExpiredCb(cbs)]: [now] is the reading taken on entry,
    [now'] the one [detectClockRollover] takes. *)
Definition listExpiredCb (fuel : nat) (now now' : Z) (tm : TimerManager)
    (cbs : list (option Callback))
    : option (TimerManager * list (option Callback)) :=
  let '(rollover, tm1) := detectClockRollover now' tm in
  expired_loop fuel now rollover tm1 cbs.

End timer.

(** The argument [fd * 1.5] of the two [resize] calls: the product is exact in
    [double] for every [int]; its conversion to [size_t] truncates, and is
    undefined for a negative value. *)
Definition times_1_5 (fd : Z) : outcome Z :=
  if fd <? 0 then Undefined else Ret (Z.quot (3 * fd) 2).

(** * fd_manager.h, fd_manager.cpp *)
Module fd_manager.

Record FdCtx : Type := mkFdCtx {
  m_isInit : bool;
  m_isSocket : bool;
  m_sysNonblock : bool;
  m_userNonblock : bool;
  m_isClosed : bool;
  m_fd : Z;
  m_recvTimeout : Z;
  m_sendTimeout : Z
}.

Definition SO_RCVTIMEO : Z := 20.
Definition SO_SNDTIMEO : Z := 21.

(** What [fstat] answers for a descriptor. *)
Inductive fd_stat : Type := StatFails | StatNotSocket | StatSocket.

(** [FdCtx::FdCtx(fd)] running [FdCtx::init()] on the fresh object, [st]
    being the answer of [fstat]; the [fcntl] calls act on the kernel only. *)
Definition FdCtx_new (st : fd_stat) (fd : Z) : FdCtx :=
  let '(isInit, isSocket) :=
    match st with
    | StatFails => (false, false)
    | StatNotSocket => (true, false)
    | StatSocket => (true, true)
    end in
  mkFdCtx isInit isSocket (if isSocket then true else false) false false fd
    UINT64_MAX UINT64_MAX.

(** [FdCtx::setTimeout] *)
Definition setTimeout (type : Z) (v : Z) (c : FdCtx) : FdCtx :=
  if type =? SO_RCVTIMEO then
    mkFdCtx (m_isInit c) (m_isSocket c) (m_sysNonblock c) (m_userNonblock c)
      (m_isClosed c) (m_fd c) v (m_sendTimeout c)
  else
    mkFdCtx (m_isInit c) (m_isSocket c) (m_sysNonblock c) (m_userNonblock c)
      (m_isClosed c) (m_fd c) (m_recvTimeout c) v.

(** [FdCtx::getTimeout] *)
Definition getTimeout (type : Z) (c : FdCtx) : Z :=
  if type =? SO_RCVTIMEO then m_recvTimeout c else m_sendTimeout c.

(** [FdManager]: [m_datas], a null pointer being [None]. *)
Record FdManager : Type := mkFdManager {
  m_datas : list (option FdCtx)
}.

(** What a call does to [m_mutex] and to the array, in program order. *)
Inductive step : Type :=
| LockShared | UnlockShared | LockUnique | UnlockUnique
| Resize (n : Z)
| Store (i : Z).

(** [FdManager::FdManager()] *)
Definition FdManager_new : FdManager := mkFdManager (replicate 64 None).

(** [m_datas.size()] *)
Definition size (m : FdManager) : Z := Z.of_nat (length (m_datas m)).

(** [std::vector::resize(n)] *)
Definition resize {A : Type} (n : nat) (d : A) (l : list A) : list A :=
  take n l ++ replicate (n - length l) d.

(** The end of [FdManager::get], from [read_lock.unlock()] on: under the
    write lock, grow the array if it is still too short, then build and store
    the context.  [st] is what [fstat] answers when the context is built.  The
    comparison [m_datas.size() <= fd] converts [fd] to [size_t]. *)
Definition get_create (st : fd_stat) (fd : Z) (m : FdManager)
    : outcome (option FdCtx * FdManager * list step) :=
  '(datas, grown) ←
    (if size m <=? wrap64 fd then
       n ← times_1_5 fd;
       Ret (resize (Z.to_nat n) None (m_datas m), [Resize n])
     else Ret (m_datas m, []));
  if (0 <=? fd) && (fd <? Z.of_nat (length datas)) then
    let c := FdCtx_new st fd in
    Ret (Some c, mkFdManager (<[Z.to_nat fd := Some c]> datas),
         [LockShared; UnlockShared; LockUnique] ++ grown
         ++ [Store fd; UnlockUnique])
  else Undefined.

(** [FdManager::get(fd, auto_create)]: the returned pointer, the manager and
    the steps taken. *)
Definition get (st : fd_stat) (fd : Z) (auto_create : bool) (m : FdManager)
    : outcome (option FdCtx * FdManager * list step) :=
  if fd =? -1 then Ret (None, m, [])
  else if size m <=? wrap64 fd then
    if negb auto_create then Ret (None, m, [LockShared; UnlockShared])
    else get_create st fd m
  else
    match m_datas m !! Z.to_nat fd with
    | None => Undefined
    | Some p =>
        if bool_decide (is_Some p) || negb auto_create
        then Ret (p, m, [LockShared; UnlockShared])
        else get_create st fd m
    end.

(** [FdManager::del(fd)] *)
Definition del (fd : Z) (m : FdManager) : FdManager :=
  if size m <=? wrap64 fd then m
  else mkFdManager (<[Z.to_nat fd := None]> (m_datas m)).

(** [FdCtx::setUserNonblock] and [FdCtx::setSysNonblock] *)
Definition setUserNonblock (v : bool) (c : FdCtx) : FdCtx :=
  mkFdCtx (m_isInit c) (m_isSocket c) (m_sysNonblock c) v (m_isClosed c)
    (m_fd c) (m_recvTimeout c) (m_sendTimeout c).
Definition setSysNonblock (v : bool) (c : FdCtx) : FdCtx :=
  mkFdCtx (m_isInit c) (m_isSocket c) v (m_userNonblock c) (m_isClosed c)
    (m_fd c) (m_recvTimeout c) (m_sendTimeout c).

End fd_manager.

(** * fiber.h, fiber.cpp *)
Module fiber.

Inductive State : Type := READY | RUNNING | TERM.

#[global] Instance State_eq_dec : EqDecision State.
Proof. solve_decision. Defined.

(** [m_stack] is the size of the region [malloc] returned, [None] for the
    main fiber, which has no stack of its own; [ss_size] is
    [m_ctx.uc_stack.ss_size]. *)
Record Fiber : Type := mkFiber {
  m_id : Z;
  m_stacksize : Z;
  m_state : State;
  m_stack : option Z;
  ss_size : Z;
  m_cb : option Callback;
  m_runInScheduler : bool
}.

(** [s_fiber_id] and [s_fiber_count] *)
Record counters : Type := mkCounters {
  s_fiber_id : Z;
  s_fiber_count : Z
}.

(** [Fiber::Fiber(cb, stacksize, run_in_scheduler)]; the member [m_stacksize]
    is a [uint32_t].  [None] when [getcontext] fails and the thread exits. *)
Definition Fiber_new (getcontext_ok : bool) (cb : option Callback)
    (stacksize : Z) (run_in_scheduler : bool) (g : counters)
    : option (Fiber * counters) :=
  let m_stacksize := wrap32 (if stacksize =? 0 then 128000 else stacksize) in
  let m_stack := Some m_stacksize in
  if getcontext_ok then
    Some (mkFiber (s_fiber_id g) m_stacksize READY m_stack m_stacksize cb
            run_in_scheduler,
          mkCounters (wrap64 (s_fiber_id g + 1)) (wrap64 (s_fiber_count g + 1)))
  else None.

(** The default argument [stacksize = 0] of the declaration in fiber.h. *)
Definition default_stacksize : Z := 0.

(** The fibers a thread can reach, by handle, with its thread-local pointers
    [t_fiber], [t_thread_fiber] and [t_scheduler_fiber], and the two global
    counters. *)
Record thread_state : Type := mkThread {
  fibers : list Fiber;
  t_fiber : option nat;
  t_thread_fiber : option nat;
  t_scheduler_fiber : option nat;
  ids : counters
}.

Definition set_state (v : State) (f : Fiber) : Fiber :=
  mkFiber (m_id f) (m_stacksize f) v (m_stack f) (ss_size f) (m_cb f)
    (m_runInScheduler f).

(** [Fiber::SetThis(f)] and [Fiber::SetSchedulerFiber(f)] *)
Definition SetThis (f : option nat) (ts : thread_state) : thread_state :=
  mkThread (fibers ts) f (t_thread_fiber ts) (t_scheduler_fiber ts) (ids ts).
Definition SetSchedulerFiber (f : option nat) (ts : thread_state)
    : thread_state :=
  mkThread (fibers ts) (t_fiber ts) (t_thread_fiber ts) f (ids ts).

Definition set_fiber (h : nat) (f : Fiber) (ts : thread_state) : thread_state :=
  mkThread (<[h := f]> (fibers ts)) (t_fiber ts) (t_thread_fiber ts)
    (t_scheduler_fiber ts) (ids ts).

(** [Fiber::GetFiberId()] *)
Definition GetFiberId (ts : thread_state) : Z :=
  match t_fiber ts with
  | Some h =>
      match fibers ts !! h with
      | Some f => m_id f
      | None => UINT64_MAX
      end
  | None => UINT64_MAX
  end.

(** The context a fiber switches from in [resume] and back to in [yield]:
    that of the scheduler fiber when it runs in the scheduler, that of the
    thread's main fiber otherwise. *)
Definition return_target (f : Fiber) (ts : thread_state) : option nat :=
  if m_runInScheduler f then t_scheduler_fiber ts else t_thread_fiber ts.

(** [Fiber::resume()] on the fiber behind [h], up to the switch of stacks:
    the states and pointers the fiber then runs with.  The target of the
    switch back is dereferenced. *)
Definition resume (h : nat) (ts : thread_state) : outcome thread_state :=
  match fibers ts !! h with
  | None => Undefined
  | Some f =>
      _ ← assert (bool_decide (m_state f = READY));
      let ts1 := SetThis (Some h) (set_fiber h (set_state RUNNING f) ts) in
      match return_target f ts with
      | None => Undefined
      | Some _ => Ret ts1
      end
  end.

(** [Fiber::yield()] on the fiber behind [h], up to the switch of stacks. *)
Definition yield (h : nat) (ts : thread_state) : outcome thread_state :=
  match fibers ts !! h with
  | None => Undefined
  | Some f =>
      _ ← assert (bool_decide (m_state f = RUNNING)
                  || bool_decide (m_state f = TERM));
      let f1 := if bool_decide (m_state f = TERM) then f
                else set_state READY f in
      let ts1 := SetThis (return_target f ts) (set_fiber h f1 ts) in
      match return_target f ts with
      | None => Undefined
      | Some _ => Ret ts1
      end
  end.

(** [Fiber::reset(cb)]; [None] when [getcontext] fails and the thread
    exits. *)
Definition reset (getcontext_ok : bool) (h : nat) (cb : option Callback)
    (ts : thread_state) : outcome (option thread_state) :=
  match fibers ts !! h with
  | None => Undefined
  | Some f =>
      _ ← assert (bool_decide (is_Some (m_stack f))
                  && bool_decide (m_state f = TERM));
      if getcontext_ok then
        Ret (Some (set_fiber h
                     (mkFiber (m_id f) (m_stacksize f) READY (m_stack f)
                        (m_stacksize f) cb (m_runInScheduler f)) ts))
      else Ret None
  end.

(** The end of [Fiber::MainFunc()], once the callback of the running fiber
    has returned: clear the callback, mark the fiber terminated, yield. *)
Definition MainFunc_return (ts : thread_state) : outcome thread_state :=
  match t_fiber ts with
  | None => Undefined
  | Some h =>
      match fibers ts !! h with
      | None => Undefined
      | Some f =>
          let f1 := mkFiber (m_id f) (m_stacksize f) TERM (m_stack f)
                      (ss_size f) None (m_runInScheduler f) in
          yield h (set_fiber h f1 ts)
      end
  end.

End fiber.

(** * scheduler.h, scheduler.cpp *)
Module scheduler.

(** [Scheduler::ScheduleTask]; fibers are named by their handle. *)
Record ScheduleTask : Type := mkScheduleTask {
  fiber : option nat;
  cb : option Callback;
  thread : Z
}.

Record Scheduler : Type := mkScheduler {
  m_tasks : list ScheduleTask;
  m_threadCount : Z;
  m_activeThreadCount : Z;
  m_idleThreadCount : Z;
  m_stopping : bool
}.

Definition set_m_tasks (v : list ScheduleTask) (s : Scheduler) : Scheduler :=
  mkScheduler v (m_threadCount s) (m_activeThreadCount s)
    (m_idleThreadCount s) (m_stopping s).

(** [std::vector::empty()] *)
Definition empty {A : Type} (l : list A) : bool :=
  match l with [] => true | _ :: _ => false end.

(** [Scheduler::scheduleLock(fc, thread)] for a task built from a fiber or a
    function: the scheduler and [need_tickle]; the caller runs the virtual
    [tickle] when the flag is set. *)
Definition scheduleLock (task : ScheduleTask) (s : Scheduler)
    : Scheduler * bool :=
  let need_tickle := empty (m_tasks s) in
  let s' := if bool_decide (is_Some (fiber task)) || bool_decide (is_Some (cb task))
            then set_m_tasks (m_tasks s ++ [task]) s
            else s in
  (s', need_tickle).

(** [Scheduler::hasIdleThreads()] *)
Definition hasIdleThreads (s : Scheduler) : bool := m_idleThreadCount s >? 0.

(** [Scheduler::stopping()] *)
Definition stopping (s : Scheduler) : bool :=
  m_stopping s && empty (m_tasks s) && (m_activeThreadCount s =? 0).

(** The scan of the queue in [Scheduler::run] by the thread [thread_id]: the
    task taken if any, the queue left, and [tickle_me].  Tasks bound to
    another thread are skipped; the first other task is taken and erased.  The
    iterator compared with [end()] after the [erase] stands where the erased
    task stood. *)
Fixpoint take (thread_id : Z) (tasks : list ScheduleTask)
    : outcome (option ScheduleTask * list ScheduleTask * bool) :=
  match tasks with
  | [] => Ret (None, [], false)
  | t :: rest =>
      if negb (thread t =? -1) && negb (thread t =? thread_id) then
        '(r, rest', _) ← take thread_id rest;
        Ret (r, t :: rest', true)
      else
        _ ← assert (bool_decide (is_Some (fiber t))
                    || bool_decide (is_Some (cb t)));
        Ret (Some t, rest, negb (empty rest))
  end.

(** The locked block of the loop of [Scheduler::run]. *)
Definition run_take (thread_id : Z) (s : Scheduler)
    : outcome (option ScheduleTask * Scheduler * bool) :=
  '(r, rest, tickle_me) ← take thread_id (m_tasks s);
  match r with
  | Some t =>
      Ret (Some t,
           mkScheduler rest (m_threadCount s)
             (wrap64 (m_activeThreadCount s + 1)) (m_idleThreadCount s)
             (m_stopping s),
           tickle_me)
  | None => Ret (None, set_m_tasks rest s, tickle_me)
  end.

End scheduler.

(** * The kernel's side of an epoll instance, as epoll_ctl(2) specifies it *)
Module epoll.

(** [pollable]: the descriptors that are open and can be polled;
    [interest]: the interest list, descriptor to event mask. *)
Record instance : Type := mkInstance {
  pollable : gset Z;
  interest : gmap Z Z
}.

Inductive op : Type := EPOLL_CTL_ADD | EPOLL_CTL_DEL | EPOLL_CTL_MOD.

Definition EPOLLET : Z := 2 ^ 31.

(** [epoll_ctl(epfd, op, fd, &ev)]: [None] is the return value -1. *)
Definition epoll_ctl (o : op) (fd : Z) (events : Z) (e : instance)
    : option instance :=
  if bool_decide (fd ∈ pollable e) then
    match o, interest e !! fd with
    | EPOLL_CTL_ADD, None =>
        Some (mkInstance (pollable e) (<[fd := events]> (interest e)))
    | EPOLL_CTL_MOD, Some _ =>
        Some (mkInstance (pollable e) (<[fd := events]> (interest e)))
    | EPOLL_CTL_DEL, Some _ =>
        Some (mkInstance (pollable e) (delete fd (interest e)))
    | _, _ => None
    end
  else None.

Definition EPOLLIN : Z := 1.
Definition EPOLLOUT : Z := 4.
Definition EPOLLERR : Z := 8.
Definition EPOLLHUP : Z := 16.

End epoll.

(** * ioscheduler.h, ioscheduler.cpp *)
Module ioscheduler.

Import epoll.

(** [IOManager::FdContext::EventContext]; the scheduler is named by an
    identifier, the fiber by its handle. *)
Record EventContext : Type := mkEventContext {
  scheduler : option nat;
  fiber : option nat;
  cb : option Callback
}.

Record FdContext : Type := mkFdContext {
  read : EventContext;
  write : EventContext;
  fd : Z;
  events : Event
}.

(** [IOManager]: the two bases, the kernel's epoll instance behind
    [m_epfd], the bytes waiting in the tickle pipe, and the members. *)
Record IOManager : Type := mkIOManager {
  base_Scheduler : scheduler.Scheduler;
  base_TimerManager : timer.TimerManager;
  m_epfd : epoll.instance;
  m_tickleFds : Z;
  m_pendingEventCount : Z;
  m_fdContexts : list FdContext
}.

Definition set_Scheduler (v : scheduler.Scheduler) (m : IOManager) : IOManager :=
  mkIOManager v (base_TimerManager m) (m_epfd m) (m_tickleFds m)
    (m_pendingEventCount m) (m_fdContexts m).
Definition set_TimerManager (v : timer.TimerManager) (m : IOManager) : IOManager :=
  mkIOManager (base_Scheduler m) v (m_epfd m) (m_tickleFds m)
    (m_pendingEventCount m) (m_fdContexts m).
Definition set_m_epfd (v : epoll.instance) (m : IOManager) : IOManager :=
  mkIOManager (base_Scheduler m) (base_TimerManager m) v (m_tickleFds m)
    (m_pendingEventCount m) (m_fdContexts m).
Definition set_m_tickleFds (v : Z) (m : IOManager) : IOManager :=
  mkIOManager (base_Scheduler m) (base_TimerManager m) (m_epfd m) v
    (m_pendingEventCount m) (m_fdContexts m).
Definition set_m_pendingEventCount (v : Z) (m : IOManager) : IOManager :=
  mkIOManager (base_Scheduler m) (base_TimerManager m) (m_epfd m)
    (m_tickleFds m) v (m_fdContexts m).
Definition set_m_fdContexts (v : list FdContext) (m : IOManager) : IOManager :=
  mkIOManager (base_Scheduler m) (base_TimerManager m) (m_epfd m)
    (m_tickleFds m) (m_pendingEventCount m) v.

(** A default-constructed [EventContext]. *)
Definition empty_ctx : EventContext := mkEventContext None None None.

(** [!ctx.scheduler && !ctx.fiber && !ctx.cb] *)
Definition unset (e : EventContext) : bool :=
  negb (bool_decide (is_Some (scheduler e)))
  && negb (bool_decide (is_Some (fiber e)))
  && negb (bool_decide (is_Some (cb e))).

(** [new FdContext()] followed by [fd = i]. *)
Definition FdContext_new (i : Z) : FdContext :=
  mkFdContext empty_ctx empty_ctx i NONE.

(** [FdContext::getEventContext(event)], reading. *)
Definition getEventContext (event : Event) (c : FdContext)
    : outcome EventContext :=
  _ ← assert ((event =? READ) || (event =? WRITE));
  if event =? READ then Ret (read c) else Ret (write c).

(** Assignment through the reference [getEventContext] returns. *)
Definition setEventContext (event : Event) (e : EventContext) (c : FdContext)
    : FdContext :=
  if event =? READ then mkFdContext e (write c) (fd c) (events c)
  else mkFdContext (read c) e (fd c) (events c).

Definition set_events (v : Event) (c : FdContext) : FdContext :=
  mkFdContext (read c) (write c) (fd c) v.

(** [FdContext::resetEventContext(ctx)] *)
Definition resetEventContext (e : EventContext) : EventContext := empty_ctx.

(** [IOManager::tickle()] *)
Definition tickle (m : IOManager) : IOManager :=
  if negb (scheduler.hasIdleThreads (base_Scheduler m)) then m
  else set_m_tickleFds (m_tickleFds m + 1) m.

(** [scheduleLock] on the [Scheduler] base, with the virtual [tickle]. *)
Definition scheduleLock (task : scheduler.ScheduleTask) (m : IOManager)
    : IOManager :=
  let '(s, need_tickle) := scheduler.scheduleLock task (base_Scheduler m) in
  let m' := set_Scheduler s m in
  if need_tickle then tickle m' else m'.

(** [FdContext::triggerEvent(event)] on the context at index [i]; the slot's
    scheduler is this reactor.  A slot without scheduler is a null
    dereference. *)
Definition triggerEvent (i : nat) (event : Event) (m : IOManager)
    : outcome IOManager :=
  match m_fdContexts m !! i with
  | None => Undefined
  | Some c =>
      _ ← assert (negb (Z.land (events c) event =? 0));
      let c1 := set_events (Z.land (events c) (Z.lnot event)) c in
      ctx ← getEventContext event c1;
      match scheduler ctx with
      | None => Undefined
      | Some _ =>
          let task :=
            match cb ctx with
            | Some f => scheduler.mkScheduleTask None (Some f) (-1)
            | None => scheduler.mkScheduleTask (fiber ctx) None (-1)
            end in
          let m1 := scheduleLock task m in
          let c2 := setEventContext event (resetEventContext ctx) c1 in
          Ret (set_m_fdContexts (<[i := c2]> (m_fdContexts m1)) m1)
      end
  end.

(** [IOManager::contextResize(size)] *)
Definition contextResize (size : nat) (m : IOManager) : IOManager :=
  let old := m_fdContexts m in
  set_m_fdContexts
    (take size old
     ++ map (fun i => FdContext_new (Z.of_nat i))
            (seq (length old) (size - length old))) m.

(** The lookup of the context that opens [delEvent], [cancelEvent] and
    [cancelAll]: [None] when the table is too short. *)
Definition find_ctx (fd : Z) (m : IOManager) : outcome (option FdContext) :=
  if Z.of_nat (length (m_fdContexts m)) >? fd then
    match (if fd <? 0 then None else m_fdContexts m !! Z.to_nat fd) with
    | Some c => Ret (Some c)
    | None => Undefined
    end
  else Ret None.

(** [IOManager::addEvent(fd, event, cb)].  [this_sched] is
    [Scheduler::GetThis()], [this_fiber] is [Fiber::GetThis()] with its
    state. *)
Definition addEvent (this_sched : nat) (this_fiber : nat * fiber.State)
    (fd : Z) (event : Event) (cb : option Callback) (m : IOManager)
    : outcome (Z * IOManager) :=
  m0 ← (if Z.of_nat (length (m_fdContexts m)) >? fd then Ret m
        else n ← times_1_5 fd; Ret (contextResize (Z.to_nat n) m));
  match (if fd <? 0 then None else m_fdContexts m0 !! Z.to_nat fd) with
  | None => Undefined
  | Some fd_ctx =>
      if negb (Z.land (events fd_ctx) event =? 0) then Ret (-1, m0)
      else
        let o := if negb (events fd_ctx =? 0) then EPOLL_CTL_MOD
                 else EPOLL_CTL_ADD in
        match epoll_ctl o fd (Z.lor (Z.lor EPOLLET (events fd_ctx)) event)
                (m_epfd m0) with
        | None => Ret (-1, m0)
        | Some ep =>
            let m1 := set_m_pendingEventCount
                        (wrap64 (m_pendingEventCount m0 + 1))
                        (set_m_epfd ep m0) in
            let c1 := set_events (Z.lor (events fd_ctx) event) fd_ctx in
            event_ctx ← getEventContext event c1;
            _ ← assert (unset event_ctx);
            e ← match cb with
                | Some f => Ret (mkEventContext (Some this_sched) None (Some f))
                | None =>
                    _ ← assert (bool_decide (snd this_fiber = fiber.RUNNING));
                    Ret (mkEventContext (Some this_sched)
                           (Some (fst this_fiber)) None)
                end;
            Ret (0, set_m_fdContexts
                      (<[Z.to_nat fd := setEventContext event e c1]>
                         (m_fdContexts m1)) m1)
        end
  end.

(** [IOManager::delEvent(fd, event)]; the [return -1] of the failure branch
    converts to [true]. *)
Definition delEvent (fd : Z) (event : Event) (m : IOManager)
    : outcome (bool * IOManager) :=
  o ← find_ctx fd m;
  match o with
  | None => Ret (false, m)
  | Some fd_ctx =>
      if Z.land (events fd_ctx) event =? 0 then Ret (false, m)
      else
        let new_events := Z.land (events fd_ctx) (Z.lnot event) in
        let o := if negb (new_events =? 0) then EPOLL_CTL_MOD
                 else EPOLL_CTL_DEL in
        match epoll_ctl o fd (Z.lor EPOLLET new_events) (m_epfd m) with
        | None => Ret (true, m)
        | Some ep =>
            let m1 := set_m_pendingEventCount
                        (wrap64 (m_pendingEventCount m - 1))
                        (set_m_epfd ep m) in
            let c1 := set_events new_events fd_ctx in
            event_ctx ← getEventContext event c1;
            Ret (true, set_m_fdContexts
                         (<[Z.to_nat fd :=
                              setEventContext event
                                (resetEventContext event_ctx) c1]>
                            (m_fdContexts m1)) m1)
        end
  end.

(** [IOManager::cancelEvent(fd, event)] *)
Definition cancelEvent (fd : Z) (event : Event) (m : IOManager)
    : outcome (bool * IOManager) :=
  o ← find_ctx fd m;
  match o with
  | None => Ret (false, m)
  | Some fd_ctx =>
      if Z.land (events fd_ctx) event =? 0 then Ret (false, m)
      else
        let new_events := Z.land (events fd_ctx) (Z.lnot event) in
        let o := if negb (new_events =? 0) then EPOLL_CTL_MOD
                 else EPOLL_CTL_DEL in
        match epoll_ctl o fd (Z.lor EPOLLET new_events) (m_epfd m) with
        | None => Ret (true, m)
        | Some ep =>
            let m1 := set_m_pendingEventCount
                        (wrap64 (m_pendingEventCount m - 1))
                        (set_m_epfd ep m) in
            m2 ← triggerEvent (Z.to_nat fd) event m1;
            Ret (true, m2)
        end
  end.

(** [IOManager::stopping()] with the clock reading of [getNextTimer]. *)
Definition stopping (now : Z) (m : IOManager) : bool * IOManager :=
  let '(timeout, tm) := timer.getNextTimer now (base_TimerManager m) in
  ((timeout =? UINT64_MAX) && (m_pendingEventCount m =? 0)
   && scheduler.stopping (base_Scheduler m),
   set_TimerManager tm m).

(** [TimerManager::addConditionTimer] called on the reactor:
    [onTimerInsertedAtFront] is [tickle]. *)
Definition addConditionTimer (ms : Z) (f : Callback) (weak_cond : nat)
    (recurring : bool) (now : Z) (m : IOManager) : nat * IOManager :=
  let '(h, tm, at_front) :=
    timer.addConditionTimer ms f weak_cond recurring now (base_TimerManager m) in
  let m' := set_TimerManager tm m in
  (h, if at_front then tickle m' else m').

(** [Timer::cancel()] on a timer of the reactor. *)
Definition Timer_cancel (h : nat) (m : IOManager) : bool * IOManager :=
  let '(r, tm) := timer.Timer_cancel h (base_TimerManager m) in
  (r, set_TimerManager tm m).

(** [--m_pendingEventCount] *)
Definition dec_pending (m : IOManager) : IOManager :=
  set_m_pendingEventCount (wrap64 (m_pendingEventCount m - 1)) m.

(** [if (fd_ctx->events & event) { fd_ctx->triggerEvent(event);
    --m_pendingEventCount; }] on the context at index [i]. *)
Definition trigger_if (i : nat) (event : Event) (m : IOManager)
    : outcome IOManager :=
  match m_fdContexts m !! i with
  | None => Undefined
  | Some c =>
      if negb (Z.land (events c) event =? 0) then
        m' ← triggerEvent i event m; Ret (dec_pending m')
      else Ret m
  end.

(** [IOManager::cancelAll(fd)] *)
Definition cancelAll (fd : Z) (m : IOManager) : outcome (bool * IOManager) :=
  o ← find_ctx fd m;
  match o with
  | None => Ret (false, m)
  | Some fd_ctx =>
      if events fd_ctx =? 0 then Ret (false, m)
      else
        match epoll_ctl EPOLL_CTL_DEL fd 0 (m_epfd m) with
        | None => Ret (true, m)
        | Some ep =>
            m1 ← trigger_if (Z.to_nat fd) READ (set_m_epfd ep m);
            m2 ← trigger_if (Z.to_nat fd) WRITE m1;
            match m_fdContexts m2 !! Z.to_nat fd with
            | None => Undefined
            | Some c =>
                _ ← assert (events c =? 0);
                Ret (true, m2)
            end
        end
  end.

(** The body of the loop of [IOManager::idle] over the ready events, for an
    event that is not the tickle pipe's: [i] is the context [data.ptr] points
    to, [revents] the reported [events]. *)
Definition idle_event (i : nat) (revents : Z) (m : IOManager)
    : outcome IOManager :=
  match m_fdContexts m !! i with
  | None => Undefined
  | Some fd_ctx =>
      let ev := if negb (Z.land revents (Z.lor EPOLLERR EPOLLHUP) =? 0)
                then Z.lor revents
                       (Z.land (Z.lor EPOLLIN EPOLLOUT) (events fd_ctx))
                else revents in
      let real0 := if negb (Z.land ev EPOLLIN =? 0) then Z.lor NONE READ
                   else NONE in
      let real_events := if negb (Z.land ev EPOLLOUT =? 0)
                         then Z.lor real0 WRITE else real0 in
      if Z.land (events fd_ctx) real_events =? NONE then Ret m
      else
        let left_events := Z.land (events fd_ctx) (Z.lnot real_events) in
        let o := if negb (left_events =? 0) then EPOLL_CTL_MOD
                 else EPOLL_CTL_DEL in
        match epoll_ctl o (fd fd_ctx) (Z.lor EPOLLET left_events) (m_epfd m) with
        | None => Ret m
        | Some ep =>
            m1 ← (if negb (Z.land real_events READ =? 0)
                  then m' ← triggerEvent i READ (set_m_epfd ep m);
                       Ret (dec_pending m')
                  else Ret (set_m_epfd ep m));
            if negb (Z.land real_events WRITE =? 0)
            then m' ← triggerEvent i WRITE m1; Ret (dec_pending m')
            else Ret m1
        end
  end.

End ioscheduler.

(** * hook.cpp *)
Module hook.

Import ioscheduler.

(** [struct timer_info] *)
Record timer_info : Type := mk_timer_info {
  cancelled : Z
}.

(** What [do_io] and the closures it arms can reach: the thread-local hook
    flag, [errno], the clock, the [FdMgr] singleton, the reactor
    [IOManager::GetThis()], and the [timer_info] objects ([None] once the
    last [shared_ptr] is gone, so that a [weak_ptr::lock] fails). *)
Record World : Type := mkWorld {
  t_hook_enable : bool;
  errno : Z;
  clock : Z;
  FdMgr : fd_manager.FdManager;
  iom : IOManager;
  tinfos : list (option timer_info)
}.

Definition set_errno (v : Z) (w : World) : World :=
  mkWorld (t_hook_enable w) v (clock w) (FdMgr w) (iom w) (tinfos w).
Definition set_clock (v : Z) (w : World) : World :=
  mkWorld (t_hook_enable w) (errno w) v (FdMgr w) (iom w) (tinfos w).
Definition set_iom (v : IOManager) (w : World) : World :=
  mkWorld (t_hook_enable w) (errno w) (clock w) (FdMgr w) v (tinfos w).
Definition set_tinfos (v : list (option timer_info)) (w : World) : World :=
  mkWorld (t_hook_enable w) (errno w) (clock w) (FdMgr w) (iom w) v.

(** [weak_ptr<timer_info>::lock()] *)
Definition lock (winfo : nat) (w : World) : option timer_info :=
  mjoin (tinfos w !! winfo).

(** [std::shared_ptr<timer_info> tinfo(new timer_info)] *)
Definition new_tinfo (w : World) : nat * World :=
  (length (tinfos w), set_tinfos (tinfos w ++ [Some (mk_timer_info 0)]) w).

(** The end of the lifetime of [tinfo], at each [return] of [do_io]. *)
Definition release (tinfo : nat) (w : World) : World :=
  set_tinfos (<[tinfo := None]> (tinfos w)) w.

(** Running a function object.  [user] gives the effect of the functions
    supplied from outside the library. *)
Fixpoint run_callback (user : nat -> World -> outcome World) (c : Callback)
    (w : World) : outcome World :=
  match c with
  | UserCb id => user id w
  | OnTimerCb weak_cond cb =>
      match lock weak_cond w with
      | Some _ => run_callback user cb w
      | None => Ret w
      end
  | DoIoTimeoutCb winfo fd event =>
      match lock winfo w with
      | None => Ret w
      | Some t =>
          if negb (cancelled t =? 0) then Ret w
          else
            let w1 := set_tinfos
                        (<[winfo := Some (mk_timer_info ETIMEDOUT)]> (tinfos w))
                        w in
            '(_, m) ← cancelEvent fd event (iom w1);
            Ret (set_iom m w1)
      end
  end.

(** One answer of the original function [fun]: its return value and the
    value of [errno] after the call. *)
Record raw_result : Type := mk_raw {
  ret : Z;
  err : Z
}.

(** [n = fun(fd, args...)]: the next answer of the environment. *)
Definition call_fun (calls : list raw_result) (w : World)
    : outcome (Z * World * list raw_result) :=
  match calls with
  | [] => Blocked
  | r :: calls' => Ret (ret r, set_errno (err r) w, calls')
  end.

(** [while(n == -1 && errno == EINTR) n = fun(fd, args...);] *)
Fixpoint while_EINTR (calls : list raw_result) (n : Z) (w : World)
    : outcome (Z * World * list raw_result) :=
  if (n =? -1) && (errno w =? EINTR) then
    match calls with
    | [] => Blocked
    | r :: calls' => while_EINTR calls' (ret r) (set_errno (err r) w)
    end
  else Ret (n, w, calls).

(** [if(timeout != (uint64_t)-1) timer = iom->addConditionTimer(...)] *)
Definition arm_timer (timeout : Z) (tinfo : nat) (fd : Z) (event : Z)
    (w : World) : option nat * World :=
  if negb (timeout =? UINT64_MAX) then
    let '(timer, m) :=
      addConditionTimer timeout (DoIoTimeoutCb tinfo fd event) tinfo false
        (clock w) (iom w) in
    (Some timer, set_iom m w)
  else (None, w).

(** [if(timer) timer->cancel();] *)
Definition cancel_if_armed (timer : option nat) (w : World) : World :=
  match timer with
  | Some h => set_iom (snd (Timer_cancel h (iom w))) w
  | None => w
  end.

(** The part of [do_io] from the label [retry] on.  [self] is the calling
    fiber, which is running; [this_sched] its scheduler.  Each element of
    [resumes] is what the rest of the program does to the world between one
    [yield] of the fiber and its resumption. *)
Fixpoint do_io_retry (this_sched self : nat) (resumes : list (World -> World))
    (calls : list raw_result) (fd : Z) (event : Z) (timeout : Z)
    (tinfo : nat) (w : World) {struct resumes} : outcome (Z * World) :=
  '(n0, w0, calls0) ← call_fun calls w;
  '(n, w1, calls1) ← while_EINTR calls0 n0 w0;
  if (n =? -1) && (errno w1 =? EAGAIN) then
    let '(timer, w2) := arm_timer timeout tinfo fd event w1 in
    '(rt, m) ← addEvent this_sched (self, fiber.RUNNING) fd event None (iom w2);
    let w3 := set_iom m w2 in
    if negb (rt =? 0) then
      Ret (-1, release tinfo (cancel_if_armed timer w3))
    else
      match resumes with
      | [] => Blocked
      | resume :: resumes' =>
          let w4 := cancel_if_armed timer (resume w3) in
          match lock tinfo w4 with
          | None => Undefined
          | Some t =>
              if cancelled t =? ETIMEDOUT then
                Ret (-1, release tinfo (set_errno (cancelled t) w4))
              else
                do_io_retry this_sched self resumes' calls1 fd event timeout
                  tinfo w4
          end
      end
  else Ret (n, release tinfo w1).

(** [do_io(fd, fun, hook_fun_name, event, timeout_so, args...)] *)
Definition do_io (this_sched self : nat) (resumes : list (World -> World))
    (calls : list raw_result) (fd : Z) (event : Z) (timeout_so : Z)
    (w : World) : outcome (Z * World) :=
  let original :=
    '(n, w', _) ← call_fun calls w; Ret (n, w') in
  if negb (t_hook_enable w) then original
  else
    '(ctx, _, _) ← fd_manager.get fd_manager.StatFails fd false (FdMgr w);
    match ctx with
    | None => original
    | Some c =>
        if fd_manager.m_isClosed c then Ret (-1, set_errno EBADF w)
        else if negb (fd_manager.m_isSocket c) || fd_manager.m_userNonblock c
        then original
        else
          let timeout := fd_manager.getTimeout timeout_so c in
          let '(tinfo, w1) := new_tinfo w in
          do_io_retry this_sched self resumes calls fd event timeout tinfo w1
    end.

(** ** The other hooked functions *)

Definition set_FdMgr (v : fd_manager.FdManager) (w : World) : World :=
  mkWorld (t_hook_enable w) (errno w) (clock w) v (iom w) (tinfos w).

(** A write through the [shared_ptr<FdCtx>] that [FdMgr::get(fd)] returned:
    the registry holds the same object. *)
Definition update_ctx (fd : Z) (c : fd_manager.FdCtx) (w : World) : World :=
  set_FdMgr
    (fd_manager.mkFdManager
       (<[Z.to_nat fd := Some c]> (fd_manager.m_datas (FdMgr w)))) w.

(** [return name_f(args...)]: the next answer of the environment. *)
Definition original (calls : list raw_result) (w : World)
    : outcome (Z * World) :=
  '(n, w', _) ← call_fun calls w; Ret (n, w').

Definition SOL_SOCKET : Z := 1.
Definition O_NONBLOCK : Z := 2048.

(** [v->tv_sec * 1000 + v->tv_usec / 1000], computed in [long] (an overflow
    is undefined) and converted to [uint64_t]. *)
Definition timeval_ms (tv_sec tv_usec : Z) : outcome Z :=
  let in_long z := (- 2 ^ 63 <=? z) && (z <? 2 ^ 63) in
  let p := tv_sec * 1000 in
  let s := p + Z.quot tv_usec 1000 in
  if in_long p && in_long s then Ret (wrap64 s) else Undefined.

(** [setsockopt(sockfd, level, optname, optval, optlen)], [optval] pointing
    to the [timeval] with the fields [tv_sec] and [tv_usec]. *)
Definition setsockopt (calls : list raw_result) (sockfd level optname : Z)
    (tv_sec tv_usec : Z) (w : World) : outcome (Z * World) :=
  if negb (t_hook_enable w) then original calls w
  else if (level =? SOL_SOCKET)
          && ((optname =? fd_manager.SO_RCVTIMEO)
              || (optname =? fd_manager.SO_SNDTIMEO)) then
    '(ctx, _, _) ← fd_manager.get fd_manager.StatFails sockfd false (FdMgr w);
    match ctx with
    | Some c =>
        v ← timeval_ms tv_sec tv_usec;
        original calls (update_ctx sockfd (fd_manager.setTimeout optname v c) w)
    | None => original calls w
    end
  else original calls w.

(** [fcntl(fd, F_SETFL, arg)]: the flags handed to [fcntl_f], its answer and
    the world. *)
Definition fcntl_F_SETFL (calls : list raw_result) (fd arg : Z) (w : World)
    : outcome (Z * Z * World) :=
  '(ctx, _, _) ← fd_manager.get fd_manager.StatFails fd false (FdMgr w);
  let pass (a : Z) (w0 : World) : outcome (Z * Z * World) :=
    '(n, w') ← original calls w0; Ret (a, n, w') in
  match ctx with
  | None => pass arg w
  | Some c =>
      if fd_manager.m_isClosed c || negb (fd_manager.m_isSocket c)
      then pass arg w
      else
        let c' := fd_manager.setUserNonblock
                    (negb (Z.land arg O_NONBLOCK =? 0)) c in
        let arg' := if fd_manager.m_sysNonblock c' then Z.lor arg O_NONBLOCK
                    else Z.land arg (Z.lnot O_NONBLOCK) in
        pass arg' (update_ctx fd c' w)
  end.

(** [fcntl(fd, F_GETFL)] *)
Definition fcntl_F_GETFL (calls : list raw_result) (fd : Z) (w : World)
    : outcome (Z * World) :=
  '(arg, w1) ← original calls w;
  '(ctx, _, _) ← fd_manager.get fd_manager.StatFails fd false (FdMgr w1);
  match ctx with
  | None => Ret (arg, w1)
  | Some c =>
      if fd_manager.m_isClosed c || negb (fd_manager.m_isSocket c)
      then Ret (arg, w1)
      else if fd_manager.m_userNonblock c then Ret (Z.lor arg O_NONBLOCK, w1)
      else Ret (Z.land arg (Z.lnot O_NONBLOCK), w1)
  end.

(** [close(fd)], in a thread that has a reactor. *)
Definition close (calls : list raw_result) (fd : Z) (w : World)
    : outcome (Z * World) :=
  if negb (t_hook_enable w) then original calls w
  else
    '(ctx, _, _) ← fd_manager.get fd_manager.StatFails fd false (FdMgr w);
    match ctx with
    | Some _ =>
        '(_, m) ← cancelAll fd (iom w);
        original calls
          (set_FdMgr (fd_manager.del fd (FdMgr w)) (set_iom m w))
    | None => original calls w
    end.

(** [socket(domain, type, protocol)]; [st] is what [fstat] answers for the
    new descriptor when its context is built. *)
Definition socket (st : fd_manager.fd_stat) (calls : list raw_result)
    (w : World) : outcome (Z * World) :=
  if negb (t_hook_enable w) then original calls w
  else
    '(fd, w1) ← original calls w;
    if fd =? -1 then Ret (fd, w1)
    else
      '(_, mgr, _) ← fd_manager.get st fd true (FdMgr w1);
      Ret (fd, set_FdMgr mgr w1).

Definition EINPROGRESS : Z := 115.

(** The end of [connect_with_timeout]: [getsockopt(fd, SOL_SOCKET, SO_ERROR,
    &error, &len)], whose next answer in [errs] comes with the value it
    stores in [error]. *)
Definition check_SO_ERROR (errs : list (raw_result * Z)) (tinfo : nat)
    (w : World) : outcome (Z * World) :=
  match errs with
  | [] => Blocked
  | (r, error) :: _ =>
      let w' := set_errno (err r) w in
      if ret r =? -1 then Ret (-1, release tinfo w')
      else if error =? 0 then Ret (0, release tinfo w')
      else Ret (-1, release tinfo (set_errno error w'))
  end.

(** [connect_with_timeout(fd, addr, addrlen, timeout_ms)].  The function
    object it arms its timer with does what the one of [do_io] does for the
    event [WRITE]. *)
Definition connect_with_timeout (this_sched self : nat)
    (resumes : list (World -> World)) (calls : list raw_result)
    (errs : list (raw_result * Z)) (fd : Z) (timeout_ms : Z) (w : World)
    : outcome (Z * World) :=
  if negb (t_hook_enable w) then original calls w
  else
    '(ctx, _, _) ← fd_manager.get fd_manager.StatFails fd false (FdMgr w);
    match ctx with
    | None => Ret (-1, set_errno EBADF w)
    | Some c =>
        if fd_manager.m_isClosed c then Ret (-1, set_errno EBADF w)
        else if negb (fd_manager.m_isSocket c) then original calls w
        else if fd_manager.m_userNonblock c then original calls w
        else
          '(n, w1) ← original calls w;
          if n =? 0 then Ret (0, w1)
          else if negb (n =? -1) || negb (errno w1 =? EINPROGRESS)
          then Ret (n, w1)
          else
            let '(tinfo, w2) := new_tinfo w1 in
            let '(timer, w3) := arm_timer timeout_ms tinfo fd WRITE w2 in
            '(rt, m) ← addEvent this_sched (self, fiber.RUNNING) fd WRITE None
                         (iom w3);
            let w4 := set_iom m w3 in
            if rt =? 0 then
              match resumes with
              | [] => Blocked
              | resume :: _ =>
                  let w5 := cancel_if_armed timer (resume w4) in
                  match lock tinfo w5 with
                  | None => Undefined
                  | Some t =>
                      if negb (cancelled t =? 0)
                      then Ret (-1, release tinfo
                                      (set_errno (cancelled t) w5))
                      else check_SO_ERROR errs tinfo w5
                  end
              end
            else check_SO_ERROR errs tinfo (cancel_if_armed timer w4)
    end.

End hook.

(** * Vocabulary of the statements *)

Import timer.

(** The order [std::set] keeps its elements in: strictly increasing for the
    comparator, which reads the deadlines behind the handles. *)
Definition set_ok (tm : TimerManager) : Prop :=
  StronglySorted (fun a b => less (objs tm) a b = true) (m_timers tm).

(** The deadlines of the timers in the set fit the clock's representation. *)
Definition deadlines_ok (tm : TimerManager) : Prop :=
  Forall (fun h => time_point_ok (m_next (timer_at (objs tm) h))) (m_timers tm).

(** The handles in the set point to timer objects. *)
Definition handles_ok (tm : TimerManager) : Prop :=
  Forall (fun h => (h < length (objs tm))%nat) (m_timers tm).

(** [h] is a timer of the set with the least deadline. *)
Definition earliest (tm : TimerManager) (h : nat) : Prop :=
  h ∈ m_timers tm /\
  forall h', h' ∈ m_timers tm ->
    m_next (timer_at (objs tm) h) <= m_next (timer_at (objs tm) h').

(** A timer is live when its callback is set. *)
Definition live (tm : TimerManager) (h : nat) : Prop :=
  is_Some (m_cb (timer_at (objs tm) h)).

(** The state a clock set back by two hours leaves [listExpiredCb] in: the
    last check was at hour 10, a timer recurring every second is due at hour
    9, and the clock now reads hour 8. *)
Definition hour : Z := milliseconds (60 * 60 * 1000).
Definition rolled_back : TimerManager :=
  mkTimerManager [mkTimer true 1000 (9 * hour) (Some (UserCb 0))] [0%nat]
    false (10 * hour).

(** [ceil(fd*1.5)], the growth the policy is worded with. *)
Definition ceil_times_1_5 (fd : Z) : Z := (3 * fd + 1) / 2.

(** [INT_MAX] *)
Definition INT_MAX : Z := 2 ^ 31 - 1.

(** ** Sample states *)

(** A manager whose only timer, a one-shot, is due at millisecond 7. *)
Definition one_pending : TimerManager :=
  mkTimerManager [mkTimer false 5 (milliseconds 7) (Some (UserCb 0))] [0%nat]
    true 0.

(** A scheduler that was told to stop and has nothing left to run. *)
Definition drained : scheduler.Scheduler := scheduler.mkScheduler [] 1 0 0 true.

(** A reactor over [drained] with no timer, no registered event and an empty
    table. *)
Definition idle_reactor : ioscheduler.IOManager :=
  ioscheduler.mkIOManager drained (TimerManager_new 0)
    (epoll.mkInstance ∅ ∅) 0 0 [].

(** A reactor as its constructor leaves it (32 contexts, nothing registered),
    descriptor 3 being an open socket. *)
Definition reactor32 : ioscheduler.IOManager :=
  ioscheduler.contextResize 32
    (ioscheduler.mkIOManager (scheduler.mkScheduler [] 1 0 0 false)
       (TimerManager_new 0) (epoll.mkInstance {[3]} ∅) 0 0 []).

(** [reactor32] after fiber 7 registered [READ] on descriptor 3. *)
Definition reading3 : ioscheduler.IOManager :=
  match ioscheduler.addEvent 0 (7%nat, fiber.RUNNING) 3 READ None reactor32 with
  | Ret (_, m) => m
  | _ => reactor32
  end.

(** [reactor32] after fiber 7 registered [WRITE] on descriptor 3. *)
Definition writing3 : ioscheduler.IOManager :=
  match ioscheduler.addEvent 0 (7%nat, fiber.RUNNING) 3 WRITE None reactor32 with
  | Ret (_, m) => m
  | _ => reactor32
  end.

(** A world in which a hooked call on descriptor 3 has just created its
    witness, number 0: the hook is on, the reactor is [reactor32]. *)
Definition waiting3 : hook.World :=
  hook.mkWorld true 0 0 fd_manager.FdManager_new reactor32
    [Some (hook.mk_timer_info 0)].

(** User functions that do nothing. *)
Definition no_user (id : nat) (w : hook.World) : outcome hook.World := Ret w.

(** The rest of the program between a [yield] and the resumption, when all
    that happens is that the function object [c] is run. *)
Definition runs (c : Callback) (w : hook.World) : hook.World :=
  match hook.run_callback no_user c w with
  | Ret w' => w'
  | _ => w
  end.

(** The rest of the program between a [yield] and the resumption, when all
    that happens is that the clock reaches [now] and the reactor collects the
    expired timers and has their callbacks run. *)
Definition timers_fire (now : Z) (w : hook.World) : hook.World :=
  match listExpiredCb 8 now now
          (ioscheduler.base_TimerManager (hook.iom w)) [] with
  | Some (tm, cbs) =>
      foldl (fun w' c => match c with Some f => runs f w' | None => w' end)
        (hook.set_clock now
           (hook.set_iom (ioscheduler.set_TimerManager tm (hook.iom w)) w))
        cbs
  | None => w
  end.

(** The reactor of [waiting3] once [do_io] armed a 50 ms timer and registered
    [READ] for fiber 7. *)
Definition registered3 : ioscheduler.IOManager :=
  match ioscheduler.addEvent 0 (7%nat, fiber.RUNNING) 3 READ None
          (hook.iom (snd (hook.arm_timer 50 0 3 READ
                            (hook.set_errno EAGAIN waiting3)))) with
  | Ret (_, m) => m
  | _ => reactor32
  end.

(** A world before a hooked [recv] on descriptor 3, a socket with a receive
    timeout of 50 ms; no witness exists yet. *)
Definition before_recv3 : hook.World :=
  hook.mkWorld true 0 0
    (fd_manager.mkFdManager
       (<[3%nat := Some (fd_manager.setTimeout fd_manager.SO_RCVTIMEO 50
                           (fd_manager.FdCtx_new fd_manager.StatSocket 3))]>
          (fd_manager.m_datas fd_manager.FdManager_new)))
    reactor32 [].



(** A manager with two one-shot timers and a recurring one, due at
    milliseconds 3, 5 and 9. *)
Definition three_timers : TimerManager :=
  mkTimerManager
    [mkTimer false 3 (milliseconds 3) (Some (UserCb 0));
     mkTimer true 4 (milliseconds 5) (Some (UserCb 1));
     mkTimer false 9 (milliseconds 9) (Some (UserCb 2))]
    [0%nat; 1%nat; 2%nat] false 0.

(** A registry in which descriptor 70 got a context. *)
Definition with70 : fd_manager.FdManager :=
  match fd_manager.get fd_manager.StatSocket 70 true fd_manager.FdManager_new with
  | Ret (_, m, _) => m
  | _ => fd_manager.FdManager_new
  end.

(** A thread whose main fiber (handle 0) is also its scheduler fiber and is
    running, with a ready worker fiber (handle 1) that runs in the
    scheduler. *)
Definition two_fibers : fiber.thread_state :=
  fiber.mkThread
    [fiber.mkFiber 0 0 fiber.RUNNING None 0 None false;
     fiber.mkFiber 1 128000 fiber.READY (Some 128000) 128000
       (Some (UserCb 0)) true]
    (Some 0%nat) (Some 0%nat) (Some 0%nat) (fiber.mkCounters 2 2).

(** [two_fibers] while the worker fiber runs. *)
Definition worker_running : fiber.thread_state :=
  match fiber.resume 1 two_fibers with
  | Ret ts => ts
  | _ => two_fibers
  end.

(** A task is eligible for a thread when it is bound to no thread or to that
    one. *)
Definition eligible (thread_id : Z) (t : scheduler.ScheduleTask) : Prop :=
  scheduler.thread t = -1 \/ scheduler.thread t = thread_id.

(** A task holds a fiber or a function. *)
Definition task_ok (t : scheduler.ScheduleTask) : Prop :=
  is_Some (scheduler.fiber t) \/ is_Some (scheduler.cb t).

(** A queue with a task bound to thread 9, then a free task, then a task
    bound to thread 4. *)
Definition mixed_queue : scheduler.Scheduler :=
  scheduler.mkScheduler
    [scheduler.mkScheduleTask (Some 11%nat) None 9;
     scheduler.mkScheduleTask None (Some (UserCb 5)) (-1);
     scheduler.mkScheduleTask (Some 12%nat) None 4]
    2 0 0 false.

(** The slot of [event] in a context, and the task [triggerEvent] builds
    from a slot. *)
Definition slot (event : Event) (c : ioscheduler.FdContext)
    : ioscheduler.EventContext :=
  if event =? READ then ioscheduler.read c else ioscheduler.write c.

Definition task_of (e : ioscheduler.EventContext) : scheduler.ScheduleTask :=
  match ioscheduler.cb e with
  | Some f => scheduler.mkScheduleTask None (Some f) (-1)
  | None => scheduler.mkScheduleTask (ioscheduler.fiber e) None (-1)
  end.

(** The slot [addEvent] fills for a caller. *)
Definition waiter (this_sched : nat) (this_fiber : nat * fiber.State)
    (cb : option Callback) : ioscheduler.EventContext :=
  match cb with
  | Some f => ioscheduler.mkEventContext (Some this_sched) None (Some f)
  | None => ioscheduler.mkEventContext (Some this_sched)
              (Some (fst this_fiber)) None
  end.

(** A mask made of the two event bits. *)
Definition mask_ok (e : Z) : Prop := e = 0 \/ e = 1 \/ e = 4 \/ e = 5.

(** A context is consistent when its mask is made of the two event bits, the
    slot of an event that is not registered is empty, and the slot of a
    registered event has a scheduler. *)
Definition ctx_ok (c : ioscheduler.FdContext) : Prop :=
  mask_ok (ioscheduler.events c) /\
  forall event, event = READ \/ event = WRITE ->
    (Z.land (ioscheduler.events c) event = 0 ->
     slot event c = ioscheduler.empty_ctx) /\
    (Z.land (ioscheduler.events c) event <> 0 ->
     is_Some (ioscheduler.scheduler (slot event c))).

(** The number of events registered in a context, in a table. *)
Definition registered (c : ioscheduler.FdContext) : Z :=
  (if Z.land (ioscheduler.events c) READ =? 0 then 0 else 1)
  + (if Z.land (ioscheduler.events c) WRITE =? 0 then 0 else 1).

Definition total (l : list ioscheduler.FdContext) : Z :=
  foldr (fun c n => registered c + n) 0 l.

(** A reactor is consistent when its contexts are, and its count of pending
    events is the number of registered events. *)
Definition reactor_ok (m : ioscheduler.IOManager) : Prop :=
  Forall ctx_ok (ioscheduler.m_fdContexts m) /\
  ioscheduler.m_pendingEventCount m
    = wrap64 (total (ioscheduler.m_fdContexts m)).

(** [reactor32] after fiber 7 registered [READ] and a function registered
    [WRITE] on descriptor 3. *)
Definition both3 : ioscheduler.IOManager :=
  match ioscheduler.addEvent 0 (7%nat, fiber.RUNNING) 3 WRITE
          (Some (UserCb 8)) reading3 with
  | Ret (_, m) => m
  | _ => reactor32
  end.

(** A slot somebody waits in. *)
Definition waited (e : ioscheduler.EventContext) : Prop :=
  is_Some (ioscheduler.fiber e) \/ is_Some (ioscheduler.cb e).

(** The task of [event] on a context, if the event is registered. *)
Definition woken (event : Event) (c : ioscheduler.FdContext)
    : list scheduler.ScheduleTask :=
  if Z.land (ioscheduler.events c) event =? 0 then []
  else [task_of (slot event c)].

(** No context of the registry is marked closed. *)
Definition never_closed (m : fd_manager.FdManager) : Prop :=
  forall i c, fd_manager.m_datas m !! i = Some (Some c) ->
              fd_manager.m_isClosed c = false.

(** An answer of the original function that makes [do_io] neither call it
    again nor wait. *)
Definition final (r : hook.raw_result) : Prop :=
  ~ (hook.ret r = -1 /\ (hook.err r = EINTR \/ hook.err r = EAGAIN)).

(** [k] interrupted calls. *)
Definition interrupted (k : nat) : list hook.raw_result :=
  replicate k (hook.mk_raw (-1) EINTR).

(** A world before a hooked call on descriptor 3, a socket the user set
    non-blocking. *)
Definition user_nonblock3 : hook.World :=
  hook.mkWorld true 0 0
    (fd_manager.mkFdManager
       (<[3%nat := Some (fd_manager.setUserNonblock true
                           (fd_manager.FdCtx_new fd_manager.StatSocket 3))]>
          (fd_manager.m_datas fd_manager.FdManager_new)))
    reactor32 [].

(** [before_recv3] when fiber 7 already waits for [READ] on descriptor 3. *)
Definition busy_recv3 : hook.World :=
  hook.set_iom reading3 before_recv3.

(** * timer: the set and the comparator *)

Lemma Comparator_equal_deadlines (a b : Timer) :
  m_next a = m_next b -> Comparator a b = false /\ Comparator b a = false.
Proof.
  intros E. unfold Comparator. rewrite E. split; apply Z.ltb_irrefl.
Qed.

Lemma set_insert_equivalent_head (os : list Timer) (x y : nat) (s : list nat) :
  m_next (timer_at os x) = m_next (timer_at os y) ->
  set_insert os x (y :: s) = (y :: s, (0%nat, false)).
Proof.
  intros E. apply Comparator_equal_deadlines in E as [E1 E2].
  simpl. unfold less. now rewrite E1, E2.
Qed.

Lemma timer_at_insert_eq (os : list Timer) (h : nat) (t : Timer) :
  (h < length os)%nat -> timer_at (<[h := t]> os) h = t.
Proof.
  intros H. unfold timer_at. now rewrite list_lookup_insert_eq.
Qed.

Lemma timer_at_insert_ne (os : list Timer) (h h' : nat) (t : Timer) :
  h <> h' -> timer_at (<[h := t]> os) h' = timer_at os h'.
Proof.
  intros H. unfold timer_at. now rewrite list_lookup_insert_ne.
Qed.

(** C1. Two timers armed for the same instant: the comparator orders neither
    before the other, and the set refuses the second one.  Both are live and
    distinct, only the first is a member. *)
Theorem addTimer_equal_deadline_dropped :
  let '(a, tm1, _) := addTimer 10 (Some (UserCb 1)) false 1000
                        (TimerManager_new 1000) in
  let '(b, tm2, _) := addTimer 10 (Some (UserCb 2)) false 1000 tm1 in
  a <> b /\ live tm2 a /\ live tm2 b /\
  m_next (timer_at (objs tm2) a) = m_next (timer_at (objs tm2) b) /\
  less (objs tm2) a b = false /\ less (objs tm2) b a = false /\
  m_timers tm2 = [a] /\ b ∉ m_timers tm2.
Proof.
  vm_compute. repeat split; try (eexists; reflexivity); try discriminate.
  intros H. apply list_elem_of_In in H. destruct H as [H | []]. discriminate.
Qed.

(** * timer: [listExpiredCb] *)

Lemma expired_loop_sole_recurring (fuel : nat) (now : Z) (h : nat) :
  forall (tm : TimerManager) (cbs : list (option Callback)),
    m_timers tm = [h] ->
    (h < length (objs tm))%nat ->
    m_recurring (timer_at (objs tm) h) = true ->
    expired_loop fuel now true tm cbs = None.
Proof.
  induction fuel as [| fuel IH]; intros tm cbs Hs Hh Hr.
  - simpl. unfold expired_cond. rewrite Hs. reflexivity.
  - simpl. unfold expired_cond, expired_step. rewrite Hs. simpl. rewrite Hr.
    apply IH; simpl.
    + reflexivity.
    + now rewrite length_insert.
    + rewrite timer_at_insert_eq by assumption. exact Hr.
Qed.

(** The same without any rollover, for a recurring timer of period 0 that
    is due. *)
Lemma expired_loop_zero_period (fuel : nat) (now : Z) (h : nat) :
  forall (tm : TimerManager) (cbs : list (option Callback)),
    m_timers tm = [h] ->
    (h < length (objs tm))%nat ->
    m_recurring (timer_at (objs tm) h) = true ->
    m_ms (timer_at (objs tm) h) = 0 ->
    m_next (timer_at (objs tm) h) <= now ->
    expired_loop fuel now false tm cbs = None.
Proof.
  induction fuel as [| fuel IH]; intros tm cbs Hs Hh Hr Hms Hdue;
    simpl; unfold expired_cond; rewrite Hs; simpl;
    (destruct (Z.leb_spec (m_next (timer_at (objs tm) h)) now); [| lia]).
  - reflexivity.
  - unfold expired_step. rewrite Hs. simpl. rewrite Hr.
    apply IH; simpl; rewrite ?length_insert, ?timer_at_insert_eq by assumption;
      simpl; auto.
    rewrite Hms. unfold milliseconds. lia.
Qed.

(** C5. After the clock was set back, with one recurring timer in the set,
    the loop of [listExpiredCb] does not reach its exit, whatever the number
    of iterations allowed: each round pops the timer and puts it back. *)
Theorem listExpiredCb_rollover_recurring_no_exit :
  forall fuel : nat,
    fst (detectClockRollover (8 * hour) rolled_back) = true /\
    listExpiredCb fuel (8 * hour) (8 * hour) rolled_back [] = None.
Proof.
  intros fuel. split; [reflexivity |].
  unfold listExpiredCb.
  change (detectClockRollover (8 * hour) rolled_back)
    with (true, mkTimerManager (objs rolled_back) (m_timers rolled_back)
                  (m_tickled rolled_back) (8 * hour)).
  apply expired_loop_sole_recurring with (h := 0%nat); simpl; auto.
Qed.

(** * timer: the order of the set *)

Lemma less_lt (os : list Timer) (a b : nat) :
  less os a b = true <-> m_next (timer_at os a) < m_next (timer_at os b).
Proof. unfold less, Comparator. apply Z.ltb_lt. Qed.




(** An ordered set refuses every timer whose deadline is that of a member,
    whichever handle it has. *)
Lemma set_insert_equal_deadline (os : list Timer) (x y : nat) (s : list nat) :
  StronglySorted (fun a b => less os a b = true) s ->
  y ∈ s ->
  m_next (timer_at os x) = m_next (timer_at os y) ->
  fst (set_insert os x s) = s /\ snd (snd (set_insert os x s)) = false.
Proof.
  intros Hs Hy E. induction Hs as [| z s Hs IH Hz].
  - apply elem_of_nil in Hy. contradiction.
  - apply elem_of_cons in Hy as [-> | Hy].
    + rewrite set_insert_equivalent_head by assumption. auto.
    + rewrite Forall_forall in Hz. pose proof (Hz y Hy) as Hzy.
      apply less_lt in Hzy. simpl.
      assert (Hxz : less os x z = false)
        by (unfold less, Comparator; apply Z.ltb_ge; lia).
      assert (Hzx : less os z x = true) by (apply less_lt; lia).
      rewrite Hxz, Hzx. destruct (IH Hy) as [E1 E2].
      destruct (set_insert os x s) as [s'' [i b]]. simpl in *.
      now subst.
Qed.

(** [erase] keeps the set in order. *)
Lemma delete_sorted (os : list Timer) (i : nat) (s : list nat) :
  StronglySorted (fun a b => less os a b = true) s ->
  StronglySorted (fun a b => less os a b = true) (delete i s).
Proof.
  intros H. revert i. induction H as [| z s Hs IH Hz]; intros [| i]; simpl;
    try constructor; auto.
  apply Forall_forall. intros c Hc. rewrite Forall_forall in Hz. apply Hz.
  eapply list_elem_of_delete_inv. exact Hc.
Qed.

(** The first element of the set has the least deadline. *)
Lemma begin_earliest (tm : TimerManager) :
  set_ok tm -> m_timers tm <> [] -> earliest tm (begin (m_timers tm)).
Proof.
  unfold set_ok, earliest, begin. intros Hok Hne.
  destruct (m_timers tm) as [| h s]; [congruence |]. simpl.
  apply StronglySorted_inv in Hok as [_ Hh]. split; [left |].
  intros h' Hin. apply elem_of_cons in Hin as [-> | Hin]; [lia |].
  rewrite Forall_forall in Hh. specialize (Hh h' Hin).
  apply less_lt in Hh. lia.
Qed.

Lemma earliest_deadline (tm : TimerManager) (h h' : nat) :
  earliest tm h -> earliest tm h' ->
  m_next (timer_at (objs tm) h) = m_next (timer_at (objs tm) h').
Proof.
  intros [Hin H] [Hin' H']. specialize (H h' Hin'). specialize (H' h Hin). lia.
Qed.

Lemma duration_cast_ms_range (d : Z) :
  0 <= d < 2 ^ 63 ->
  duration_cast_ms d = d / ticks_per_ms /\
  0 <= duration_cast_ms d < 2 ^ 63.
Proof.
  intros Hd. unfold duration_cast_ms, ticks_per_ms.
  rewrite Z.quot_div_nonneg by lia. split; [reflexivity |].
  split; [apply Z.div_pos; lia |].
  apply Z.div_lt_upper_bound; lia.
Qed.

(** The value [getNextTimer] returns for a set that is not empty is not the
    sentinel. *)
Lemma getNextTimer_sentinel (now : Z) (tm : TimerManager) :
  time_point_ok now -> deadlines_ok tm ->
  (fst (getNextTimer now tm) = UINT64_MAX <-> m_timers tm = []).
Proof.
  unfold time_point_ok, deadlines_ok, getNextTimer. intros Hnow Hd.
  destruct (m_timers tm) as [| h s]; simpl; [tauto |].
  apply Forall_inv in Hd. unfold time_point_ok in Hd.
  destruct (Z.geb_spec now (m_next (timer_at (objs tm) h))); simpl.
  - split; [discriminate | discriminate].
  - destruct (duration_cast_ms_range (m_next (timer_at (objs tm) h) - now))
      as [_ Hr]; [lia |].
    unfold wrap64. rewrite Z.mod_small by lia.
    split; [| discriminate]. unfold UINT64_MAX. lia.
Qed.

(** C7. [getNextTimer] clears [m_tickled] and leaves the rest of the manager
    as it is; it returns the sentinel for an empty set, 0 when the earliest
    deadline is not after the clock reading, and otherwise the whole
    milliseconds between the reading and the earliest deadline. *)
Theorem getNextTimer_spec (now : Z) (tm : TimerManager) :
  set_ok tm -> deadlines_ok tm -> time_point_ok now ->
  snd (getNextTimer now tm)
    = mkTimerManager (objs tm) (m_timers tm) false (m_previouseTime tm) /\
  m_tickled (snd (getNextTimer now tm)) = false /\
  (m_timers tm = [] -> fst (getNextTimer now tm) = UINT64_MAX) /\
  (forall h, earliest tm h ->
     let deadline := m_next (timer_at (objs tm) h) in
     (deadline <= now -> fst (getNextTimer now tm) = 0) /\
     (now < deadline ->
      fst (getNextTimer now tm) = (deadline - now) / ticks_per_ms)).
Proof.
  intros Hok Hd Hnow.
  assert (Hsnd : snd (getNextTimer now tm)
    = mkTimerManager (objs tm) (m_timers tm) false (m_previouseTime tm)).
  { unfold getNextTimer. destruct (empty (m_timers tm)); [reflexivity |].
    destruct (now >=? _); reflexivity. }
  split; [exact Hsnd |]. split; [now rewrite Hsnd |].
  split.
  - intros E. unfold getNextTimer. now rewrite E.
  - intros h Hh deadline.
    assert (Hne : m_timers tm <> []).
    { destruct Hh as [Hin _]. intros E. rewrite E in Hin.
      apply elem_of_nil in Hin. exact Hin. }
    pose proof (earliest_deadline tm _ _ Hh (begin_earliest tm Hok Hne)) as E.
    fold deadline in E.
    unfold getNextTimer.
    destruct (m_timers tm) as [| h0 s] eqn:Es; [congruence |].
    unfold begin in *. simpl in *. rewrite <- E.
    unfold deadlines_ok in Hd. rewrite Es in Hd. apply Forall_inv in Hd.
    rewrite <- E in Hd. unfold time_point_ok in *.
    destruct (Z.geb_spec now deadline); simpl; split; intros; try lia.
    destruct (duration_cast_ms_range (deadline - now)) as [Hq Hr]; [lia |].
    unfold wrap64. rewrite Z.mod_small by lia. exact Hq.
Qed.

Lemma getNextTimer_spec_witness :
  (set_ok one_pending /\ deadlines_ok one_pending
   /\ time_point_ok (milliseconds 2)) /\
  fst (getNextTimer (milliseconds 2) one_pending) = 5 /\
  m_tickled (snd (getNextTimer (milliseconds 2) one_pending)) = false.
Proof.
  assert (H1 : set_ok one_pending) by (repeat constructor).
  assert (H2 : deadlines_ok one_pending)
    by (repeat constructor; vm_compute; congruence).
  assert (H3 : time_point_ok (milliseconds 2))
    by (split; vm_compute; congruence).
  split; [auto |].
  destruct (getNextTimer_spec (milliseconds 2) one_pending H1 H2 H3)
    as (_ & Ht & _ & Hh).
  split; [| exact Ht].
  destruct (Hh 0%nat) as [_ Hlate].
  - apply (begin_earliest one_pending H1). discriminate.
  - rewrite Hlate; [reflexivity | reflexivity].
Defined.

(** * timer: the order of the set is kept by the operations *)

Lemma sorted_ext (os os' : list Timer) (s : list nat) :
  (forall h, h ∈ s -> m_next (timer_at os' h) = m_next (timer_at os h)) ->
  StronglySorted (fun a b => less os a b = true) s ->
  StronglySorted (fun a b => less os' a b = true) s.
Proof.
  intros Hext Hs. induction Hs as [| z s Hs IH Hz]; constructor.
  - apply IH. intros h Hh. apply Hext. now right.
  - rewrite Forall_forall in *. intros c Hc. specialize (Hz c Hc).
    apply less_lt. apply less_lt in Hz.
    rewrite (Hext z), (Hext c); [exact Hz | now right | now left].
Qed.

(** In an ordered set no handle occurs after itself. *)
Lemma sorted_head_not_in (os : list Timer) (h : nat) (s : list nat) :
  StronglySorted (fun a b => less os a b = true) (h :: s) -> h ∉ s.
Proof.
  intros Hs Hin. apply StronglySorted_inv in Hs as [_ Hh].
  rewrite Forall_forall in Hh. specialize (Hh h Hin).
  apply less_lt in Hh. lia.
Qed.

Lemma TimerManager_new_ok (now : Z) :
  set_ok (TimerManager_new now) /\ handles_ok (TimerManager_new now).
Proof. split; constructor. Qed.



Lemma Timer_cancel_ok (h : nat) (tm : TimerManager) :
  set_ok tm -> handles_ok tm ->
  set_ok (snd (Timer_cancel h tm)) /\ handles_ok (snd (Timer_cancel h tm)).
Proof.
  unfold set_ok, handles_ok, Timer_cancel. intros Hok Hv.
  destruct (m_cb (timer_at (objs tm) h)); [| auto]. simpl.
  set (os := <[h := set_m_cb None (timer_at (objs tm) h)]> (objs tm)).
  assert (Hs : StronglySorted (fun a b => less os a b = true) (m_timers tm)).
  { apply (sorted_ext (objs tm)); [| exact Hok]. intros x Hx. unfold os.
    destruct (decide (h = x)) as [<- | Hne].
    - rewrite Forall_forall in Hv. rewrite timer_at_insert_eq by auto.
      reflexivity.
    - now rewrite timer_at_insert_ne. }
  assert (Hl : Forall (fun x => (x < length os)%nat) (m_timers tm)).
  { unfold os. eapply Forall_impl; [exact Hv |]. intros x Hx. simpl in Hx.
    now rewrite length_insert. }
  destruct (set_find os h (m_timers tm)) as [it |]; [| auto].
  split; [now apply delete_sorted |].
  rewrite Forall_forall in *. intros x Hx.
  apply Hl. eapply list_elem_of_delete_inv. exact Hx.
Qed.


(** With the clock set back and one-shot timers only, the loop runs once per
    timer and exits: every callback is collected in the order of the set, the
    set ends up empty and the callbacks of the timers are cleared. *)
Lemma expired_loop_one_shots (now : Z) (tk : bool) (pt : Z) :
  forall (s : list nat) (os : list Timer) (cbs : list (option Callback)),
    NoDup s ->
    Forall (fun h => (h < length os)%nat
                     /\ m_recurring (timer_at os h) = false) s ->
    exists os',
      expired_loop (length s) now true (mkTimerManager os s tk pt) cbs
        = Some (mkTimerManager os' [] tk pt,
                cbs ++ map (fun h => m_cb (timer_at os h)) s) /\
      length os' = length os /\
      (forall h, h ∈ s -> m_cb (timer_at os' h) = None) /\
      (forall h, h ∉ s -> timer_at os' h = timer_at os h).
Proof.
  induction s as [| h s IH]; intros os cbs Hnd Hall.
  - exists os. simpl. rewrite app_nil_r. repeat split; auto.
    intros h Hh. apply elem_of_nil in Hh. contradiction.
  - apply NoDup_cons in Hnd as [Hnin Hnd].
    apply Forall_cons in Hall as [[Hlt Hrec] Hall].
    set (os1 := <[h := set_m_cb None (timer_at os h)]> os).
    assert (Hsame : forall x, x <> h -> timer_at os1 x = timer_at os x)
      by (intros x Hx; unfold os1; now rewrite timer_at_insert_ne).
    destruct (IH os1 (cbs ++ [m_cb (timer_at os h)]) Hnd) as (os' & Hrun & Hlen & Hnone & Hkeep).
    { rewrite Forall_forall in *. intros x Hx. unfold os1 at 1.
      rewrite length_insert. rewrite Hsame by (intros ->; contradiction).
      now apply Hall. }
    exists os'. split; [| split; [| split]].
    + simpl. unfold expired_cond, expired_step. simpl. rewrite Hrec.
      fold os1. rewrite Hrun. f_equal. f_equal.
      rewrite <- app_assoc. simpl. f_equal. f_equal.
      apply map_ext_in. intros x Hx. rewrite Hsame; [reflexivity |].
      intros ->. apply Hnin. now apply list_elem_of_In.
    + rewrite Hlen. unfold os1. now rewrite length_insert.
    + intros x Hx. apply elem_of_cons in Hx as [-> | Hx]; [| now apply Hnone].
      rewrite Hkeep by assumption. unfold os1.
      rewrite timer_at_insert_eq by assumption. reflexivity.
    + intros x Hx. apply not_elem_of_cons in Hx as [Hne Hx].
      rewrite Hkeep by assumption. now apply Hsame.
Qed.

(** * scheduler, ioscheduler: the stop test *)

Lemma scheduler_empty_nil {A : Type} (l : list A) :
  scheduler.empty l = true <-> l = [].
Proof. destruct l; simpl; split; congruence. Qed.

(** C6. [Scheduler::stopping] holds exactly when the stop flag is set, the
    task queue is empty and no thread is active; [IOManager::stopping] holds
    exactly when, besides, no event is pending and the timer set is empty. *)
Theorem stopping_spec (now : Z) (m : ioscheduler.IOManager) :
  time_point_ok now -> deadlines_ok (ioscheduler.base_TimerManager m) ->
  (forall s : scheduler.Scheduler,
     scheduler.stopping s = true <->
     scheduler.m_stopping s = true /\ scheduler.m_tasks s = []
     /\ scheduler.m_activeThreadCount s = 0) /\
  (fst (ioscheduler.stopping now m) = true <->
   (scheduler.m_stopping (ioscheduler.base_Scheduler m) = true
    /\ scheduler.m_tasks (ioscheduler.base_Scheduler m) = []
    /\ scheduler.m_activeThreadCount (ioscheduler.base_Scheduler m) = 0)
   /\ ioscheduler.m_pendingEventCount m = 0
   /\ m_timers (ioscheduler.base_TimerManager m) = []).
Proof.
  intros Hnow Hd.
  assert (Hs : forall s : scheduler.Scheduler,
     scheduler.stopping s = true <->
     scheduler.m_stopping s = true /\ scheduler.m_tasks s = []
     /\ scheduler.m_activeThreadCount s = 0).
  { intros s. unfold scheduler.stopping.
    rewrite !andb_true_iff, scheduler_empty_nil, Z.eqb_eq. tauto. }
  split; [exact Hs |].
  unfold ioscheduler.stopping.
  pose proof (getNextTimer_sentinel now _ Hnow Hd) as Hsent.
  destruct (getNextTimer now (ioscheduler.base_TimerManager m)) as [timeout tm'].
  simpl in *.
  rewrite !andb_true_iff, !Z.eqb_eq, Hs, Hsent. tauto.
Qed.

Lemma stopping_spec_witness :
  (time_point_ok 0 /\ deadlines_ok (ioscheduler.base_TimerManager idle_reactor))
  /\ scheduler.stopping drained = true
  /\ fst (ioscheduler.stopping 0 idle_reactor) = true.
Proof.
  assert (H1 : time_point_ok 0) by (split; vm_compute; congruence).
  assert (H2 : deadlines_ok (ioscheduler.base_TimerManager idle_reactor))
    by constructor.
  split; [auto |].
  destruct (stopping_spec 0 idle_reactor H1 H2) as [Hs Hio].
  split.
  - apply Hs. repeat split.
  - apply Hio. repeat split.
Defined.

(** * fd_manager: [FdManager::get] *)

Lemma length_resize {A : Type} (n : nat) (d : A) (l : list A) :
  length (fd_manager.resize n d l) = n.
Proof.
  unfold fd_manager.resize.
  rewrite length_app, length_take, length_replicate. lia.
Qed.

Lemma wrap64_small (z : Z) : 0 <= z <= INT_MAX -> wrap64 z = z.
Proof.
  unfold wrap64, INT_MAX. intros H. apply Z.mod_small. lia.
Qed.

(** C10. [get] on the descriptor -1 returns the null pointer, takes no lock
    and leaves the array as it is, whatever [auto_create]. *)
Theorem get_minus_one (st : fd_manager.fd_stat) (auto_create : bool)
    (m : fd_manager.FdManager) :
  fd_manager.get st (-1) auto_create m = Ret (None, m, []).
Proof. reflexivity. Qed.

(** C8, as stated, fails: asked for descriptor 65, the fresh manager grows to
    97 entries, one less than [ceil(65*1.5)]. *)
Lemma get_growth_not_ceil :
  fd_manager.size fd_manager.FdManager_new <= 65 /\
  exists c m' tr,
    fd_manager.get fd_manager.StatSocket 65 true fd_manager.FdManager_new
      = Ret (Some c, m', tr) /\
    fd_manager.size m' = 97 /\
    fd_manager.size m' <> ceil_times_1_5 65.
Proof.
  split; [vm_compute; congruence |].
  eexists _, _, _. split; [vm_compute; reflexivity |].
  split; vm_compute; congruence.
Qed.

(** C8, amended. The array starts with 64 entries; for a descriptor at or
    beyond the size, [get] with [auto_create] takes the write lock, grows the
    array to [fd*1.5] truncated toward zero, stores a new context at index
    [fd] and returns it; the new size is greater than [fd]. *)
Theorem get_grows (st : fd_manager.fd_stat) (fd : Z) (m : fd_manager.FdManager) :
  64 <= fd_manager.size m -> fd_manager.size m <= fd -> fd <= INT_MAX ->
  fd_manager.size fd_manager.FdManager_new = 64 /\
  exists m',
    fd_manager.get st fd true m
      = Ret (Some (fd_manager.FdCtx_new st fd), m',
             [fd_manager.LockShared; fd_manager.UnlockShared;
              fd_manager.LockUnique; fd_manager.Resize (Z.quot (3 * fd) 2);
              fd_manager.Store fd; fd_manager.UnlockUnique]) /\
    fd_manager.size m' = Z.quot (3 * fd) 2 /\
    fd < fd_manager.size m' /\
    fd_manager.m_datas m' !! Z.to_nat fd
      = Some (Some (fd_manager.FdCtx_new st fd)).
Proof.
  intros Hcap Hfd Hint. split; [reflexivity |].
  assert (Hq : fd < Z.quot (3 * fd) 2).
  { rewrite Z.quot_div_nonneg by lia.
    assert (fd + 1 <= 3 * fd / 2) by (apply Z.div_le_lower_bound; lia).
    lia. }
  unfold fd_manager.get, fd_manager.get_create.
  destruct (Z.eqb_spec fd (-1)) as [E | _]; [lia |].
  rewrite wrap64_small by lia.
  destruct (Z.leb_spec (fd_manager.size m) fd) as [_ | H]; [| lia].
  simpl negb. cbv iota. unfold times_1_5.
  destruct (Z.ltb_spec fd 0) as [H | _]; [lia |].
  simpl. rewrite length_resize.
  destruct (Z.leb_spec 0 fd) as [_ | H]; [| lia].
  destruct (Z.ltb_spec fd (Z.of_nat (Z.to_nat (Z.quot (3 * fd) 2))))
    as [_ | H]; [| lia].
  simpl. eexists. split; [reflexivity |].
  unfold fd_manager.size. simpl. rewrite length_insert, length_resize.
  split; [lia |]. split; [lia |].
  apply list_lookup_insert_eq. rewrite length_resize. lia.
Qed.

Lemma get_grows_witness :
  (64 <= fd_manager.size fd_manager.FdManager_new
   /\ fd_manager.size fd_manager.FdManager_new <= 65 /\ 65 <= INT_MAX) /\
  exists m',
    fd_manager.get fd_manager.StatSocket 65 true fd_manager.FdManager_new
      = Ret (Some (fd_manager.FdCtx_new fd_manager.StatSocket 65), m',
             [fd_manager.LockShared; fd_manager.UnlockShared;
              fd_manager.LockUnique; fd_manager.Resize 97;
              fd_manager.Store 65; fd_manager.UnlockUnique]) /\
    fd_manager.size m' = 97.
Proof.
  assert (H1 : 64 <= fd_manager.size fd_manager.FdManager_new)
    by (vm_compute; congruence).
  assert (H2 : fd_manager.size fd_manager.FdManager_new <= 65)
    by (vm_compute; congruence).
  assert (H3 : 65 <= INT_MAX) by (vm_compute; congruence).
  split; [auto |].
  destruct (get_grows fd_manager.StatSocket 65 fd_manager.FdManager_new
              H1 H2 H3) as (_ & m' & Hget & Hsize & _).
  exists m'. split; [exact Hget | exact Hsize].
Defined.

(** The array never gets shorter than its initial 64 entries. *)
Lemma get_create_keeps_capacity (st : fd_manager.fd_stat) (fd : Z)
    (m m' : fd_manager.FdManager) (p : option fd_manager.FdCtx)
    (tr : list fd_manager.step) :
  fd_manager.get_create st fd m = Ret (p, m', tr) ->
  fd_manager.size m <= fd_manager.size m'.
Proof.
  unfold fd_manager.get_create, fd_manager.size.
  destruct (Z.leb_spec (Z.of_nat (length (fd_manager.m_datas m))) (wrap64 fd))
    as [Hle | Hgt].
  - unfold times_1_5. destruct (Z.ltb_spec fd 0) as [| Hpos]; [discriminate |].
    simpl. rewrite length_resize.
    destruct (Z.leb_spec 0 fd); [| discriminate].
    destruct (Z.ltb_spec fd (Z.of_nat (Z.to_nat (Z.quot (3 * fd) 2))));
      [| discriminate].
    simpl. intros [= _ <- _]. simpl. rewrite length_insert, length_resize.
    assert (wrap64 fd <= fd)
      by (unfold wrap64; apply Z.mod_le; [lia | reflexivity]).
    lia.
  - simpl.
    destruct ((0 <=? fd) && (fd <? Z.of_nat (length (fd_manager.m_datas m))));
      [| discriminate].
    intros [= _ <- _]. simpl. rewrite length_insert. lia.
Qed.

Lemma get_keeps_capacity (st : fd_manager.fd_stat) (fd : Z) (auto_create : bool)
    (m m' : fd_manager.FdManager) (p : option fd_manager.FdCtx)
    (tr : list fd_manager.step) :
  fd_manager.get st fd auto_create m = Ret (p, m', tr) ->
  fd_manager.size m <= fd_manager.size m'.
Proof.
  unfold fd_manager.get.
  destruct (fd =? -1); [intros [= _ <- _]; lia |].
  destruct (fd_manager.size m <=? wrap64 fd).
  - destruct (negb auto_create); [intros [= _ <- _]; lia |].
    apply get_create_keeps_capacity.
  - destruct (fd_manager.m_datas m !! Z.to_nat fd) as [q |]; [| discriminate].
    destruct (bool_decide (is_Some q) || negb auto_create).
    + intros [= _ <- _]. lia.
    + apply get_create_keeps_capacity.
Qed.

Lemma del_keeps_capacity (fd : Z) (m : fd_manager.FdManager) :
  fd_manager.size (fd_manager.del fd m) = fd_manager.size m.
Proof.
  unfold fd_manager.del, fd_manager.size.
  destruct (_ <=? _); [reflexivity |]. simpl. now rewrite length_insert.
Qed.

(** * fiber: the default stack *)

(** C9, as stated, fails: the stack of a fiber built with the default
    [stacksize] is not 131072 bytes long. *)
Lemma Fiber_default_stack_not_131072 :
  exists f g',
    fiber.Fiber_new true (Some (UserCb 0)) fiber.default_stacksize true
      (fiber.mkCounters 0 0) = Some (f, g') /\
    fiber.m_stack f <> Some 131072.
Proof.
  eexists _, _. split; [reflexivity |]. simpl. discriminate.
Qed.

(** C9, amended. A fiber built with [stacksize] 0, the default, gets a stack
    region of 128000 bytes, which is also the size recorded in the fiber and
    in its context. *)
Theorem Fiber_default_stack (cb : option Callback) (run_in_scheduler : bool)
    (g : fiber.counters) :
  fiber.default_stacksize = 0 /\
  exists f g',
    fiber.Fiber_new true cb 0 run_in_scheduler g = Some (f, g') /\
    fiber.m_stack f = Some 128000 /\
    fiber.m_stacksize f = 128000 /\
    fiber.ss_size f = 128000 /\
    fiber.m_state f = fiber.READY.
Proof.
  split; [reflexivity |]. eexists _, _. split; [reflexivity |].
  repeat split.
Qed.

(** * ioscheduler: registering and removing events *)

Lemma land_lor_lnot (a e : Z) :
  Z.land a e = 0 -> Z.land (Z.lor a e) (Z.lnot e) = a.
Proof.
  intros H. apply Z.bits_inj'. intros n Hn.
  rewrite Z.land_spec, Z.lor_spec, Z.lnot_spec by assumption.
  assert (Hb : Z.testbit (Z.land a e) n = false) by (rewrite H; apply Z.bits_0).
  rewrite Z.land_spec in Hb.
  destruct (Z.testbit a n), (Z.testbit e n); simpl in *; congruence.
Qed.

Lemma land_lor_same (a e : Z) :
  Z.land a e = 0 -> Z.land (Z.lor a e) e = e.
Proof.
  intros H. apply Z.bits_inj'. intros n Hn.
  rewrite Z.land_spec, Z.lor_spec.
  destruct (Z.testbit a n), (Z.testbit e n); reflexivity.
Qed.

(** The slot of [event] in a context. *)
Lemma getEventContext_slot (event : Event) (c : ioscheduler.FdContext) :
  event = READ \/ event = WRITE ->
  ioscheduler.getEventContext event c
    = Ret (if event =? READ then ioscheduler.read c else ioscheduler.write c).
Proof. intros [-> | ->]; reflexivity. Qed.

(** C3. Registering an event whose bit is already in the context's mask
    returns -1 and changes nothing: the reactor after the call is the reactor
    before it, so the mask, both slots and the pending count are the same. *)
Theorem addEvent_duplicate (this_sched : nat) (this_fiber : nat * fiber.State)
    (fd : Z) (event : Event) (cb : option Callback)
    (m : ioscheduler.IOManager) (c : ioscheduler.FdContext) :
  event = READ \/ event = WRITE ->
  0 <= fd ->
  ioscheduler.m_fdContexts m !! Z.to_nat fd = Some c ->
  Z.land (ioscheduler.events c) event <> 0 ->
  exists m',
    ioscheduler.addEvent this_sched this_fiber fd event cb m = Ret (-1, m') /\
    m' = m /\
    ioscheduler.m_fdContexts m' !! Z.to_nat fd = Some c /\
    ioscheduler.m_pendingEventCount m' = ioscheduler.m_pendingEventCount m.
Proof.
  intros Hev Hfd Hc Hdup. exists m.
  split; [| auto].
  unfold ioscheduler.addEvent.
  assert (Hlen : Z.of_nat (length (ioscheduler.m_fdContexts m)) > fd).
  { apply lookup_lt_Some in Hc. lia. }
  destruct (Z.gtb_spec (Z.of_nat (length (ioscheduler.m_fdContexts m))) fd)
    as [_ | H]; [| lia].
  simpl.
  destruct (Z.ltb_spec fd 0); [lia |]. rewrite Hc.
  destruct (Z.eqb_spec (Z.land (ioscheduler.events c) event) 0); [contradiction |].
  reflexivity.
Qed.

(** After a successful [EPOLL_CTL_ADD] or [EPOLL_CTL_MOD] the descriptor is in
    the interest list, so that a [MOD] or a [DEL] succeeds. *)
Lemma epoll_ctl_then (o o' : epoll.op) (fd ev ev' : Z) (e ep : epoll.instance) :
  o <> epoll.EPOLL_CTL_DEL -> o' <> epoll.EPOLL_CTL_ADD ->
  epoll.epoll_ctl o fd ev e = Some ep ->
  is_Some (epoll.epoll_ctl o' fd ev' ep).
Proof.
  intros Ho Ho'. unfold epoll.epoll_ctl.
  destruct (bool_decide (fd ∈ epoll.pollable e)) eqn:Hp; [| discriminate].
  assert (Hin : forall i, bool_decide (fd ∈ epoll.pollable
                 (epoll.mkInstance (epoll.pollable e) i)) = true) by (intros; exact Hp).
  destruct o, (epoll.interest e !! fd); try discriminate; try congruence;
    intros [= <-]; rewrite Hin; simpl; rewrite lookup_insert_eq;
    destruct o'; try congruence; eauto.
Qed.

Lemma wrap64_succ_pred (p : Z) :
  0 <= p < 2 ^ 64 -> wrap64 (wrap64 (p + 1) - 1) = p.
Proof.
  intros H. unfold wrap64.
  rewrite Zminus_mod_idemp_l. replace (p + 1 - 1) with p by lia.
  apply Z.mod_small. lia.
Qed.

(** C4. On a context where [event] is not registered (and, as [addEvent]
    asserts, its slot is empty), [addEvent] followed by [delEvent] leaves the
    table of contexts and the pending count as they were: the mask is
    restored and the slot of [event] is empty again. *)
Theorem addEvent_delEvent (this_sched : nat) (this_fiber : nat * fiber.State)
    (fd : Z) (event : Event) (cb : option Callback)
    (m : ioscheduler.IOManager) (c : ioscheduler.FdContext) :
  event = READ \/ event = WRITE ->
  0 <= fd ->
  ioscheduler.m_fdContexts m !! Z.to_nat fd = Some c ->
  Z.land (ioscheduler.events c) event = 0 ->
  ioscheduler.getEventContext event c = Ret ioscheduler.empty_ctx ->
  0 <= ioscheduler.m_pendingEventCount m < 2 ^ 64 ->
  is_Some cb \/ snd this_fiber = fiber.RUNNING ->
  exists rt m1 r m2,
    ioscheduler.addEvent this_sched this_fiber fd event cb m = Ret (rt, m1) /\
    ioscheduler.delEvent fd event m1 = Ret (r, m2) /\
    (rt = 0 -> r = true /\
       exists c1, ioscheduler.m_fdContexts m1 !! Z.to_nat fd = Some c1 /\
                  ioscheduler.events c1 = Z.lor (ioscheduler.events c) event) /\
    ioscheduler.m_fdContexts m2 = ioscheduler.m_fdContexts m /\
    ioscheduler.m_fdContexts m2 !! Z.to_nat fd = Some c /\
    ioscheduler.m_pendingEventCount m2 = ioscheduler.m_pendingEventCount m.
Proof.
  intros Hev Hfd Hc Hbit Hslot Hcnt Hrun.
  assert (Hlen : (Z.to_nat fd < length (ioscheduler.m_fdContexts m))%nat)
    by (eapply lookup_lt_Some; eassumption).
  assert (Hne : event <> 0) by (destruct Hev as [-> | ->]; discriminate).
  unfold ioscheduler.addEvent.
  destruct (Z.gtb_spec (Z.of_nat (length (ioscheduler.m_fdContexts m))) fd)
    as [_ | H]; [| lia].
  simpl. destruct (Z.ltb_spec fd 0) as [H | _]; [lia |]. rewrite Hc.
  rewrite Hbit. simpl.
  set (o := if negb (ioscheduler.events c =? 0) then epoll.EPOLL_CTL_MOD
            else epoll.EPOLL_CTL_ADD).
  assert (Ho : o <> epoll.EPOLL_CTL_DEL) by (unfold o; destruct (negb _); discriminate).
  destruct (epoll.epoll_ctl o fd _ (ioscheduler.m_epfd m)) as [ep |] eqn:Hep.
  - (* the poller accepted the registration *)
    rewrite getEventContext_slot by assumption.
    rewrite getEventContext_slot in Hslot by assumption.
    injection Hslot as Hslot. simpl. rewrite Hslot. simpl.
    set (e := match cb with
              | Some f => ioscheduler.mkEventContext (Some this_sched) None (Some f)
              | None => ioscheduler.mkEventContext (Some this_sched)
                          (Some (fst this_fiber)) None
              end).
    assert (He : match cb with
              | Some f => Ret (ioscheduler.mkEventContext (Some this_sched) None (Some f))
              | None =>
                  mbind (M := outcome)
                    (fun _ => Ret (ioscheduler.mkEventContext (Some this_sched)
                                     (Some (fst this_fiber)) None))
                    (assert (bool_decide (snd this_fiber = fiber.RUNNING)))
              end = Ret e).
    { unfold e. destruct cb as [f |]; [reflexivity |].
      destruct Hrun as [[f Hf] | Hr]; [discriminate |].
      rewrite bool_decide_eq_true_2 by assumption. reflexivity. }
    rewrite He. simpl.
    destruct (epoll_ctl_then o
                (if negb (ioscheduler.events c =? 0) then epoll.EPOLL_CTL_MOD
                 else epoll.EPOLL_CTL_DEL)
                fd _ (Z.lor epoll.EPOLLET (ioscheduler.events c)) _ _ Ho
                ltac:(destruct (negb _); discriminate) Hep) as [ep' Hep'].
    eexists 0, _, true, _. split; [reflexivity |].
    unfold ioscheduler.delEvent, ioscheduler.find_ctx. simpl.
    rewrite length_insert.
    destruct (Z.gtb_spec (Z.of_nat (length (ioscheduler.m_fdContexts m))) fd)
      as [_ | H]; [| lia].
    destruct (Z.ltb_spec fd 0) as [H | _]; [lia |].
    rewrite list_lookup_insert_eq by assumption. simpl.
    assert (Hset : forall e0 c0, ioscheduler.events
              (ioscheduler.setEventContext event e0 c0) = ioscheduler.events c0)
      by (intros; unfold ioscheduler.setEventContext; destruct (event =? READ); reflexivity).
    rewrite Hset. simpl. rewrite land_lor_same, land_lor_lnot by assumption.
    destruct (Z.eqb_spec event 0) as [| _]; [contradiction |].
    unfold o in *. rewrite Hep'.
    rewrite getEventContext_slot by assumption. simpl.
    rewrite list_insert_insert_eq.
    match goal with
    | |- context [<[Z.to_nat fd := ?x]> (ioscheduler.m_fdContexts m)] =>
        assert (Hback : x = c)
    end.
    { unfold ioscheduler.resetEventContext, ioscheduler.setEventContext,
        ioscheduler.set_events.
      destruct c as [rd wr f ev]. simpl in *.
      destruct (event =? READ); simpl in *; congruence. }
    rewrite Hback. rewrite list_insert_id by assumption.
    split; [reflexivity |]. split.
    { intros _. split; [reflexivity |]. eexists. split; [reflexivity |].
      rewrite Hset. reflexivity. }
    split; [reflexivity |]. split; [assumption |].
    simpl. apply wrap64_succ_pred. assumption.
  - (* the poller refused: nothing was registered, nothing to remove *)
    eexists (-1), m, false, m. split; [reflexivity |].
    unfold ioscheduler.delEvent, ioscheduler.find_ctx.
    destruct (Z.gtb_spec (Z.of_nat (length (ioscheduler.m_fdContexts m))) fd)
      as [_ | H]; [| lia].
    destruct (Z.ltb_spec fd 0) as [H | _]; [lia |].
    rewrite Hc. simpl. rewrite Hbit. simpl.
    split; [reflexivity |]. split; [discriminate |]. auto.
Qed.

Lemma addEvent_duplicate_witness :
  (ioscheduler.m_fdContexts reading3 !! Z.to_nat 3
     = Some (ioscheduler.mkFdContext
               (ioscheduler.mkEventContext (Some 0%nat) (Some 7%nat) None)
               ioscheduler.empty_ctx 3 READ)) /\
  ioscheduler.addEvent 0 (7%nat, fiber.RUNNING) 3 READ None reading3
    = Ret (-1, reading3).
Proof.
  assert (H3 : ioscheduler.m_fdContexts reading3 !! Z.to_nat 3
     = Some (ioscheduler.mkFdContext
               (ioscheduler.mkEventContext (Some 0%nat) (Some 7%nat) None)
               ioscheduler.empty_ctx 3 READ)) by (vm_compute; reflexivity).
  split; [exact H3 |].
  destruct (addEvent_duplicate 0 (7%nat, fiber.RUNNING) 3 READ None reading3 _
              (or_introl eq_refl) ltac:(vm_compute; congruence) H3
              ltac:(vm_compute; congruence))
    as (m' & Hadd & Hm & _).
  rewrite Hadd, Hm. reflexivity.
Defined.

Lemma addEvent_delEvent_witness :
  (ioscheduler.m_fdContexts reactor32 !! Z.to_nat 3
     = Some (ioscheduler.FdContext_new 3)) /\
  exists m1 m2,
    ioscheduler.addEvent 0 (7%nat, fiber.RUNNING) 3 WRITE None reactor32
      = Ret (0, m1) /\
    ioscheduler.delEvent 3 WRITE m1 = Ret (true, m2) /\
    ioscheduler.m_fdContexts m2 = ioscheduler.m_fdContexts reactor32 /\
    ioscheduler.m_pendingEventCount m2 = 0.
Proof.
  assert (H3 : ioscheduler.m_fdContexts reactor32 !! Z.to_nat 3
     = Some (ioscheduler.FdContext_new 3)) by (vm_compute; reflexivity).
  split; [exact H3 |].
  destruct (addEvent_delEvent 0 (7%nat, fiber.RUNNING) 3 WRITE None reactor32 _
              (or_intror eq_refl) ltac:(vm_compute; congruence) H3
              eq_refl eq_refl
              ltac:(split; vm_compute; congruence) (or_intror eq_refl))
    as (rt & m1 & r & m2 & Hadd & Hdel & Hrt & Htab & _ & Hcnt).
  assert (Ert : rt = 0).
  { assert (E : ioscheduler.addEvent 0 (7%nat, fiber.RUNNING) 3 WRITE None reactor32
              = Ret (0, writing3)) by (vm_compute; reflexivity).
    congruence. }
  destruct (Hrt Ert) as [-> _]. subst rt.
  exists m1, m2. auto.
Defined.

(** * hook: [do_io] on a call that would block *)

(** The timer object behind the handle [addTimer] returns is the one it
    built. *)
Lemma addTimer_object (ms : Z) (cb : option Callback) (recurring : bool)
    (now : Z) (tm : TimerManager) :
  let '(h, tm', _) := addTimer ms cb recurring now tm in
  h = length (objs tm) /\
  timer_at (objs tm') h = Timer_new ms cb recurring now.
Proof.
  unfold addTimer, addTimer_ptr. simpl.
  destruct (set_insert _ _ _) as [s [it b]]. simpl.
  split; [reflexivity |].
  unfold timer_at. rewrite lookup_app_r by lia.
  now rewrite Nat.sub_diag.
Qed.

Lemma tickle_TimerManager (m : ioscheduler.IOManager) :
  ioscheduler.base_TimerManager (ioscheduler.tickle m)
    = ioscheduler.base_TimerManager m.
Proof. unfold ioscheduler.tickle. now destruct (negb _). Qed.

(** The [while] on [EINTR] is left at once by any other answer. *)
Lemma while_EINTR_exit (calls : list hook.raw_result) (n : Z) (w : hook.World) :
  (n =? -1) && (hook.errno w =? EINTR) = false ->
  hook.while_EINTR calls n w = Ret (n, w, calls).
Proof. intros H. destruct calls; simpl; now rewrite H. Qed.

(** One round of [do_io] from the label [retry], for a first answer that is
    not an interruption. *)
Lemma do_io_retry_step (this_sched self : nat)
    (resumes : list (hook.World -> hook.World)) (r : hook.raw_result)
    (calls : list hook.raw_result) (fd event timeout : Z) (tinfo : nat)
    (w : hook.World) :
  hook.ret r = -1 -> hook.err r = EAGAIN ->
  hook.do_io_retry this_sched self resumes (r :: calls) fd event timeout tinfo w
  = let w1 := hook.set_errno EAGAIN w in
    let '(timer, w2) := hook.arm_timer timeout tinfo fd event w1 in
    mbind (M := outcome)
      (fun '(rt, m) =>
         let w3 := hook.set_iom m w2 in
         if negb (rt =? 0)
         then Ret (-1, hook.release tinfo (hook.cancel_if_armed timer w3))
         else
           match resumes with
           | [] => Blocked
           | resume :: resumes' =>
               let w4 := hook.cancel_if_armed timer (resume w3) in
               match hook.lock tinfo w4 with
               | None => Undefined
               | Some t =>
                   if hook.cancelled t =? ETIMEDOUT
                   then Ret (-1, hook.release tinfo
                                   (hook.set_errno (hook.cancelled t) w4))
                   else hook.do_io_retry this_sched self resumes' calls fd event
                          timeout tinfo w4
               end
           end)
      (ioscheduler.addEvent this_sched (self, fiber.RUNNING) fd event None
         (hook.iom w2)).
Proof.
  intros Hret Herr.
  destruct resumes as [| resume resumes']; simpl;
    rewrite Hret, Herr, while_EINTR_exit by reflexivity; simpl;
    destruct (hook.arm_timer _ _ _ _ _) as [timer w2]; reflexivity.
Qed.

Lemma lock_cancel_if_armed (timer : option nat) (tinfo : nat) (w : hook.World) :
  hook.lock tinfo (hook.cancel_if_armed timer w) = hook.lock tinfo w.
Proof. destruct timer; reflexivity. Qed.

(** C2. [do_io] at the label [retry], holding a witness that is alive and not
    cancelled, when the original call answers -1 with [EAGAIN] and the timeout
    is finite: (1) it arms a condition timer on the witness whose body is the
    timeout closure, and cancels that timer after the resumption; (2) the
    witness is still untouched when the fiber yields, and the body, run on
    such a witness, sets its [cancelled] field to [ETIMEDOUT] and calls
    [cancelEvent(fd, event)]; (3) after the resumption [do_io] returns -1 with
    [errno = ETIMEDOUT] if the witness says so, and (4) goes back to [retry]
    otherwise. *)
Theorem do_io_timeout (this_sched self : nat)
    (resume : hook.World -> hook.World)
    (resumes : list (hook.World -> hook.World)) (r : hook.raw_result)
    (calls : list hook.raw_result) (fd event timeout : Z) (tinfo : nat)
    (w : hook.World) (m : ioscheduler.IOManager) (t : hook.timer_info) :
  hook.ret r = -1 -> hook.err r = EAGAIN ->
  timeout <> UINT64_MAX ->
  hook.lock tinfo w = Some (hook.mk_timer_info 0) ->
  let w1 := hook.set_errno EAGAIN w in
  let armed := hook.arm_timer timeout tinfo fd event w1 in
  ioscheduler.addEvent this_sched (self, fiber.RUNNING) fd event None
    (hook.iom (snd armed)) = Ret (0, m) ->
  let w3 := hook.set_iom m (snd armed) in
  let w4 := hook.cancel_if_armed (fst armed) (resume w3) in
  hook.lock tinfo (resume w3) = Some t ->
  (exists h,
     fst armed = Some h /\
     timer_at (objs (ioscheduler.base_TimerManager (hook.iom (snd armed)))) h
       = Timer_new timeout
           (Some (OnTimerCb tinfo (DoIoTimeoutCb tinfo fd event))) false
           (hook.clock w1) /\
     hook.iom w4 = snd (ioscheduler.Timer_cancel h (hook.iom (resume w3)))) /\
  (hook.lock tinfo w3 = Some (hook.mk_timer_info 0) /\
   forall user w',
     hook.lock tinfo w' = Some (hook.mk_timer_info 0) ->
     hook.run_callback user (OnTimerCb tinfo (DoIoTimeoutCb tinfo fd event)) w'
     = let w'' := hook.set_tinfos
                    (<[tinfo := Some (hook.mk_timer_info ETIMEDOUT)]>
                       (hook.tinfos w')) w' in
       mbind (M := outcome) (fun '(_, m') => Ret (hook.set_iom m' w''))
         (ioscheduler.cancelEvent fd event (hook.iom w''))) /\
  (hook.cancelled t = ETIMEDOUT ->
   hook.do_io_retry this_sched self (resume :: resumes) (r :: calls) fd event
     timeout tinfo w
   = Ret (-1, hook.release tinfo (hook.set_errno ETIMEDOUT w4))) /\
  (hook.cancelled t <> ETIMEDOUT ->
   hook.do_io_retry this_sched self (resume :: resumes) (r :: calls) fd event
     timeout tinfo w
   = hook.do_io_retry this_sched self resumes calls fd event timeout tinfo w4).
Proof.
  intros Hret Herr Hfin Hw w1 armed.
  assert (Harm : exists h,
     armed = (Some h, snd armed) /\
     hook.tinfos (snd armed) = hook.tinfos w /\
     timer_at (objs (ioscheduler.base_TimerManager (hook.iom (snd armed)))) h
       = Timer_new timeout
           (Some (OnTimerCb tinfo (DoIoTimeoutCb tinfo fd event))) false
           (hook.clock w1)).
  { unfold armed, hook.arm_timer.
    destruct (Z.eqb_spec timeout UINT64_MAX) as [| _]; [contradiction |].
    simpl. unfold ioscheduler.addConditionTimer, addConditionTimer.
    pose proof (addTimer_object timeout
                  (Some (OnTimerCb tinfo (DoIoTimeoutCb tinfo fd event))) false
                  (hook.clock w1)
                  (ioscheduler.base_TimerManager (hook.iom w1))) as Hobj.
    destruct (addTimer _ _ _ _ _) as [[h tm'] at_front].
    destruct Hobj as [_ Hobj]. exists h. simpl.
    split; [reflexivity |]. split; [reflexivity |].
    destruct at_front; [rewrite tickle_TimerManager |]; exact Hobj. }
  destruct Harm as (h & Earmed & Htin & Hobj).
  assert (Earm : hook.arm_timer timeout tinfo fd event
                   (hook.set_errno EAGAIN w) = armed) by reflexivity.
  clearbody armed. destruct armed as [timer w2]. cbn [fst snd] in *.
  injection Earmed as ->.
  intros Hadd Hlock.
  split; [| split].
  - exists h. split; [reflexivity |]. split; [exact Hobj | reflexivity].
  - split.
    + unfold hook.lock in *. simpl. now rewrite Htin.
    + intros user w' Hl. cbn [hook.run_callback]. rewrite Hl. reflexivity.
  - rewrite do_io_retry_step by assumption.
    cbv zeta. rewrite Earm, Hadd.
    change (mbind (M := outcome) ?f (Ret ?x)) with (f x). cbv beta iota zeta.
    change (negb (0 =? 0)) with false. cbv iota.
    rewrite (lock_cancel_if_armed (Some h)), Hlock.
    split; intros Hc.
    + rewrite Hc. reflexivity.
    + destruct (Z.eqb_spec (hook.cancelled t) ETIMEDOUT); [contradiction |].
      reflexivity.
Qed.

Lemma do_io_timeout_witness :
  (hook.lock 0 waiting3 = Some (hook.mk_timer_info 0) /\
   hook.lock 0 (timers_fire (milliseconds 50)
                  (hook.set_iom registered3
                     (snd (hook.arm_timer 50 0 3 READ
                             (hook.set_errno EAGAIN waiting3)))))
   = Some (hook.mk_timer_info ETIMEDOUT)) /\
  exists w',
    hook.do_io_retry 0 7 [timers_fire (milliseconds 50)] [hook.mk_raw (-1) EAGAIN] 3 READ 50 0
      waiting3 = Ret (-1, w') /\
    hook.errno w' = ETIMEDOUT /\
    hook.lock 0 w' = None.
Proof.
  assert (Hl : hook.lock 0 (timers_fire (milliseconds 50)
                  (hook.set_iom registered3
                     (snd (hook.arm_timer 50 0 3 READ
                             (hook.set_errno EAGAIN waiting3)))))
   = Some (hook.mk_timer_info ETIMEDOUT)) by (vm_compute; reflexivity).
  split; [split; [reflexivity | exact Hl] |].
  destruct (do_io_timeout 0 7 (timers_fire (milliseconds 50)) [] (hook.mk_raw (-1) EAGAIN) []
              3 READ 50 0 waiting3 registered3 (hook.mk_timer_info ETIMEDOUT)
              eq_refl eq_refl ltac:(vm_compute; congruence) eq_refl
              ltac:(vm_compute; reflexivity) Hl)
    as (_ & _ & Hfail & _).
  eexists. split; [apply Hfail; reflexivity |].
  split; vm_compute; reflexivity.
Defined.

(** [do_io] reaches the label [retry] with a fresh witness, alive and not
    cancelled, and with the timeout of the descriptor's context, when the hook
    is on and the context is that of an open socket the user did not make
    non-blocking. *)
Lemma do_io_reaches_retry (this_sched self : nat)
    (resumes : list (hook.World -> hook.World))
    (calls : list hook.raw_result) (fd event timeout_so : Z) (w : hook.World)
    (c : fd_manager.FdCtx) :
  hook.t_hook_enable w = true ->
  0 <= fd ->
  fd_manager.m_datas (hook.FdMgr w) !! Z.to_nat fd = Some (Some c) ->
  fd_manager.m_isClosed c = false ->
  fd_manager.m_isSocket c = true ->
  fd_manager.m_userNonblock c = false ->
  let tinfo := length (hook.tinfos w) in
  hook.lock tinfo (snd (hook.new_tinfo w)) = Some (hook.mk_timer_info 0) /\
  hook.do_io this_sched self resumes calls fd event timeout_so w
  = hook.do_io_retry this_sched self resumes calls fd event
      (fd_manager.getTimeout timeout_so c) tinfo (snd (hook.new_tinfo w)).
Proof.
  intros Hen Hfd Hc Hcl Hso Hnb tinfo. split.
  - unfold hook.lock, hook.new_tinfo, tinfo. simpl.
    rewrite lookup_app_r by lia. now rewrite Nat.sub_diag.
  - unfold hook.do_io. rewrite Hen. simpl.
    unfold fd_manager.get.
    destruct (Z.eqb_spec fd (-1)); [lia |].
    assert (Hlt : (Z.to_nat fd < length (fd_manager.m_datas (hook.FdMgr w)))%nat)
      by (eapply lookup_lt_Some; eassumption).
    assert (Hw : wrap64 fd <= fd)
      by (unfold wrap64; apply Z.mod_le; [lia | reflexivity]).
    destruct (Z.leb_spec (fd_manager.size (hook.FdMgr w)) (wrap64 fd)) as [H | _];
      [unfold fd_manager.size in H; lia |].
    rewrite Hc. simpl. rewrite Hcl, Hso, Hnb. reflexivity.
Qed.

(** A hooked [recv] on a socket with a 50 ms receive timeout: the call would
    block, nothing arrives, the timer fires while the fiber is suspended; the
    call returns -1 with [errno = ETIMEDOUT], the event is no longer registered
    and the timer is out of the set. *)
Example do_io_recv_times_out :
  exists w',
    hook.do_io 0 7 [timers_fire (milliseconds 50)] [hook.mk_raw (-1) EAGAIN] 3 READ
      fd_manager.SO_RCVTIMEO before_recv3 = Ret (-1, w') /\
    hook.errno w' = ETIMEDOUT /\
    ioscheduler.events <$> (ioscheduler.m_fdContexts (hook.iom w') !! 3%nat)
      = Some NONE /\
    ioscheduler.m_pendingEventCount (hook.iom w') = 0 /\
    m_timers (ioscheduler.base_TimerManager (hook.iom w')) = [].
Proof.
  eexists. split; [vm_compute; reflexivity |].
  repeat split; vm_compute; reflexivity.
Qed.

(** * timer: lookups in the set *)

Lemma less_irrefl_eq (os : list Timer) (x y : nat) :
  less os x y = false -> less os y x = false ->
  m_next (timer_at os y) = m_next (timer_at os x).
Proof.
  unfold less, Comparator. rewrite !Z.ltb_ge. lia.
Qed.

(** [find] returns the position of a timer with the deadline asked for. *)
Lemma set_find_Some (os : list Timer) (x : nat) (s : list nat) :
  forall i, set_find os x s = Some i ->
    exists y, s !! i = Some y /\
              m_next (timer_at os y) = m_next (timer_at os x).
Proof.
  induction s as [| z s IH]; intros i; simpl; [discriminate |].
  destruct (less os z x) eqn:Ezx.
  - destruct (set_find os x s) as [j |]; [| discriminate].
    intros [= <-]. simpl. apply IH. reflexivity.
  - destruct (less os x z) eqn:Exz; [discriminate |].
    intros [= <-]. exists z. split; [reflexivity |].
    now apply less_irrefl_eq.
Qed.

(** In an ordered set, what [find] returns for a member is the member. *)
Lemma set_find_member (os : list Timer) (x : nat) (s : list nat) :
  StronglySorted (fun a b => less os a b = true) s ->
  x ∈ s ->
  exists i, set_find os x s = Some i /\ s !! i = Some x.
Proof.
  induction 1 as [| z s Hs IH Hz]; intros Hx.
  - apply elem_of_nil in Hx. contradiction.
  - simpl. apply elem_of_cons in Hx as [-> | Hx].
    + assert (E : less os z z = false)
        by (unfold less, Comparator; apply Z.ltb_irrefl).
      rewrite E. exists 0%nat. auto.
    + rewrite Forall_forall in Hz. rewrite (Hz x Hx).
      destruct (IH Hx) as (i & Hi & Hl). rewrite Hi. exists (S i). auto.
Qed.

(** Erasing what [find] returned removes the timer asked for from an ordered
    set, whether it was a member or not. *)
Lemma set_find_erase (os : list Timer) (x : nat) (s : list nat) (i : nat) :
  StronglySorted (fun a b => less os a b = true) s ->
  set_find os x s = Some i ->
  x ∉ delete i s.
Proof.
  intros Hs Hf Hin.
  assert (Hx : x ∈ s) by (eapply list_elem_of_delete_inv; eassumption).
  destruct (set_find_member os x s Hs Hx) as (j & Hj & Hl).
  assert (j = i) by congruence. subst j. clear Hj.
  revert i Hf Hl Hin. induction Hs as [| z s Hs IH Hz]; intros i Hf Hl Hin.
  - discriminate.
  - destruct i as [| i]; simpl in *.
    + injection Hl as ->. eapply sorted_head_not_in; [| exact Hin].
      constructor; eassumption.
    + apply elem_of_cons in Hin as [-> | Hin].
      * rewrite Forall_forall in Hz.
        assert (Hzz : z ∈ s) by (eapply list_elem_of_lookup_2; eassumption).
        specialize (Hz z Hzz). apply less_lt in Hz. lia.
      * destruct (less os z x) eqn:E.
        -- destruct (set_find os x s) as [j |] eqn:Ej; [| discriminate].
           simpl in Hf. injection Hf as ->.
           apply (IH (list_elem_of_delete_inv _ _ _ Hin) i eq_refl Hl Hin).
        -- destruct (less os x z); discriminate.
Qed.

(** A timer [find] does not find is not in the ordered set. *)
Lemma set_find_None (os : list Timer) (x : nat) (s : list nat) :
  StronglySorted (fun a b => less os a b = true) s ->
  set_find os x s = None -> x ∉ s.
Proof.
  intros Hs Hf Hx. destruct (set_find_member os x s Hs Hx) as (i & Hi & _).
  congruence.
Qed.







(** * timer: [Timer::cancel], [addTimer], [Timer::refresh], [Timer::reset] *)

(** X1. Cancelling a live timer returns [true], clears its callback and
    leaves it out of the set; cancelling it again returns [false] and changes
    nothing. *)
Theorem Timer_cancel_twice (h : nat) (tm : TimerManager) :
  set_ok tm -> (h < length (objs tm))%nat -> live tm h ->
  exists tm',
    Timer_cancel h tm = (true, tm') /\
    (h ∉ m_timers tm') /\
    m_cb (timer_at (objs tm') h) = None /\
    (forall h', h' <> h -> timer_at (objs tm') h' = timer_at (objs tm) h') /\
    set_ok tm' /\
    Timer_cancel h tm' = (false, tm').
Proof.
  unfold set_ok, live. intros Hok Hh [c Hc].
  unfold Timer_cancel at 1. rewrite Hc.
  set (os := <[h := set_m_cb None (timer_at (objs tm) h)]> (objs tm)).
  assert (Hs : StronglySorted (fun a b => less os a b = true) (m_timers tm)).
  { apply (sorted_ext (objs tm)); [| exact Hok]. intros x Hx. unfold os.
    destruct (decide (h = x)) as [<- | Hne].
    - now rewrite timer_at_insert_eq.
    - now rewrite timer_at_insert_ne. }
  assert (Hnone : m_cb (timer_at os h) = None)
    by (unfold os; now rewrite timer_at_insert_eq).
  eexists. split; [reflexivity |]. simpl.
  split; [| split; [exact Hnone | split; [| split]]].
  - destruct (set_find os h (m_timers tm)) as [i |] eqn:Ef.
    + now apply (set_find_erase os).
    + now apply (set_find_None os).
  - intros h' Hne. unfold os. now rewrite timer_at_insert_ne.
  - destruct (set_find os h (m_timers tm)); [now apply delete_sorted | exact Hs].
  - unfold Timer_cancel. simpl. fold os. now rewrite Hnone.
Qed.

Lemma Timer_cancel_twice_witness :
  (set_ok three_timers /\ (1 < length (objs three_timers))%nat
   /\ live three_timers 1) /\
  exists tm',
    Timer_cancel 1 three_timers = (true, tm') /\
    m_timers tm' = [0%nat; 2%nat] /\
    Timer_cancel 1 tm' = (false, tm').
Proof.
  assert (H1 : set_ok three_timers) by (repeat constructor).
  assert (H2 : (1 < length (objs three_timers))%nat) by (simpl; lia).
  assert (H3 : live three_timers 1) by (eexists; reflexivity).
  split; [auto |].
  destruct (Timer_cancel_twice 1 three_timers H1 H2 H3)
    as (tm' & Hc & _ & _ & _ & _ & Hagain).
  exists tm'. split; [exact Hc |]. split; [| exact Hagain].
  assert (E : Timer_cancel 1 three_timers
              = (true, snd (Timer_cancel 1 three_timers))) by reflexivity.
  rewrite E in Hc. injection Hc as <-. reflexivity.
Defined.











(** * timer: [listExpiredCb] when the clock did not go back *)











(** * fd_manager: lookups after [get] and [del] *)

Lemma wrap64_le (z : Z) : 0 <= z -> wrap64 z <= z.
Proof. intros H. unfold wrap64. apply Z.mod_le; [exact H | reflexivity]. Qed.

Lemma lookup_resize_old {A : Type} (n : nat) (d : A) (l : list A) (i : nat) :
  (length l <= n)%nat -> (i < length l)%nat ->
  fd_manager.resize n d l !! i = l !! i.
Proof.
  intros Hn Hi. unfold fd_manager.resize.
  rewrite take_ge by lia. now rewrite lookup_app_l.
Qed.

(** What [get_create] returns and stores. *)
Lemma get_create_stores (st : fd_manager.fd_stat) (fd : Z)
    (m m' : fd_manager.FdManager) (p : option fd_manager.FdCtx)
    (tr : list fd_manager.step) :
  fd_manager.get_create st fd m = Ret (p, m', tr) ->
  0 <= fd < fd_manager.size m' /\
  p = Some (fd_manager.FdCtx_new st fd) /\
  fd_manager.m_datas m' !! Z.to_nat fd = Some p /\
  forall i, i <> Z.to_nat fd -> (i < length (fd_manager.m_datas m))%nat ->
    fd_manager.m_datas m' !! i = fd_manager.m_datas m !! i.
Proof.
  unfold fd_manager.get_create, fd_manager.size.
  destruct (Z.leb_spec (Z.of_nat (length (fd_manager.m_datas m))) (wrap64 fd))
    as [Hle | Hgt].
  - unfold times_1_5. destruct (Z.ltb_spec fd 0) as [| Hpos]; [discriminate |].
    simpl. rewrite length_resize.
    destruct (Z.leb_spec 0 fd); [| discriminate].
    destruct (Z.ltb_spec fd (Z.of_nat (Z.to_nat (Z.quot (3 * fd) 2))));
      [| discriminate].
    simpl. intros [= <- <- _]. simpl. rewrite length_insert, length_resize.
    split; [lia |]. split; [reflexivity |].
    split; [apply list_lookup_insert_eq; rewrite length_resize; lia |].
    intros i Hne Hi. rewrite list_lookup_insert_ne by auto.
    apply lookup_resize_old; [| exact Hi].
    pose proof (wrap64_le fd Hpos). lia.
  - simpl.
    destruct (Z.leb_spec 0 fd); [| discriminate].
    destruct (Z.ltb_spec fd (Z.of_nat (length (fd_manager.m_datas m))));
      [| discriminate].
    simpl. intros [= <- <- _]. simpl. rewrite length_insert.
    split; [lia |]. split; [reflexivity |].
    split; [apply list_lookup_insert_eq; lia |].
    intros i Hne Hi. now rewrite list_lookup_insert_ne.
Qed.

(** A lookup of a descriptor that has a context returns it and touches
    nothing. *)
Lemma get_found (st : fd_manager.fd_stat) (fd : Z) (auto_create : bool)
    (m : fd_manager.FdManager) (c : fd_manager.FdCtx) :
  0 <= fd ->
  fd_manager.m_datas m !! Z.to_nat fd = Some (Some c) ->
  fd_manager.get st fd auto_create m
    = Ret (Some c, m, [fd_manager.LockShared; fd_manager.UnlockShared]).
Proof.
  intros Hfd Hc. unfold fd_manager.get.
  destruct (Z.eqb_spec fd (-1)); [lia |].
  assert (Hlt : (Z.to_nat fd < length (fd_manager.m_datas m))%nat)
    by (eapply lookup_lt_Some; eassumption).
  pose proof (wrap64_le fd Hfd).
  destruct (Z.leb_spec (fd_manager.size m) (wrap64 fd)) as [H' | _];
    [unfold fd_manager.size in H'; lia |].
  rewrite Hc. simpl. reflexivity.
Qed.

(** X7. Once [get] has returned a context for a descriptor, every later
    [get] of that descriptor, with or without [auto_create], returns the same
    context under the read lock only and leaves the registry as it is; the
    contexts of the other descriptors were not touched by the first call. *)
Theorem get_then_get (st st' : fd_manager.fd_stat) (fd : Z)
    (auto_create auto_create' : bool) (m m' : fd_manager.FdManager)
    (c : fd_manager.FdCtx) (tr : list fd_manager.step) :
  0 <= fd ->
  fd_manager.get st fd auto_create m = Ret (Some c, m', tr) ->
  fd_manager.get st' fd auto_create' m'
    = Ret (Some c, m', [fd_manager.LockShared; fd_manager.UnlockShared]) /\
  forall i, i <> Z.to_nat fd -> (i < length (fd_manager.m_datas m))%nat ->
    fd_manager.m_datas m' !! i = fd_manager.m_datas m !! i.
Proof.
  intros Hfd Hget.
  assert (Hl : fd_manager.m_datas m' !! Z.to_nat fd = Some (Some c) /\
               forall i, i <> Z.to_nat fd ->
                 (i < length (fd_manager.m_datas m))%nat ->
                 fd_manager.m_datas m' !! i = fd_manager.m_datas m !! i).
  { revert Hget. unfold fd_manager.get.
    destruct (fd =? -1); [discriminate |].
    destruct (fd_manager.size m <=? wrap64 fd).
    - destruct (negb auto_create); [discriminate |].
      intros H. apply get_create_stores in H as (_ & _ & H & Hframe). auto.
    - destruct (fd_manager.m_datas m !! Z.to_nat fd) as [q |] eqn:Eq;
        [| discriminate].
      destruct (bool_decide (is_Some q) || negb auto_create).
      + intros [= -> <- _]. auto.
      + intros H. apply get_create_stores in H as (_ & _ & H & Hframe). auto. }
  destruct Hl as [Hl Hframe]. split; [| exact Hframe].
  now apply get_found.
Qed.

Lemma get_then_get_witness :
  (0 <= 70 /\
   fd_manager.get fd_manager.StatSocket 70 true fd_manager.FdManager_new
     = Ret (Some (fd_manager.FdCtx_new fd_manager.StatSocket 70), with70,
            [fd_manager.LockShared; fd_manager.UnlockShared;
             fd_manager.LockUnique; fd_manager.Resize 105;
             fd_manager.Store 70; fd_manager.UnlockUnique])) /\
  fd_manager.get fd_manager.StatFails 70 false with70
    = Ret (Some (fd_manager.FdCtx_new fd_manager.StatSocket 70), with70,
           [fd_manager.LockShared; fd_manager.UnlockShared]).
Proof.
  assert (H1 : 0 <= 70) by (vm_compute; congruence).
  assert (H2 : fd_manager.get fd_manager.StatSocket 70 true fd_manager.FdManager_new
     = Ret (Some (fd_manager.FdCtx_new fd_manager.StatSocket 70), with70,
            [fd_manager.LockShared; fd_manager.UnlockShared;
             fd_manager.LockUnique; fd_manager.Resize 105;
             fd_manager.Store 70; fd_manager.UnlockUnique]))
    by (vm_compute; reflexivity).
  split; [auto |].
  exact (proj1 (get_then_get fd_manager.StatSocket fd_manager.StatFails 70 true
                  false fd_manager.FdManager_new with70 _ _ H1 H2)).
Defined.

(** X8. After [del] of a descriptor a [get] without [auto_create] returns the
    null pointer; the lookups of every other descriptor give what they gave
    before, and [del] never changes the size of the array. *)
Theorem del_then_get (st : fd_manager.fd_stat) (fd : Z)
    (m : fd_manager.FdManager) :
  0 <= fd <= INT_MAX ->
  fd_manager.get st fd false (fd_manager.del fd m)
    = Ret (None, fd_manager.del fd m,
           [fd_manager.LockShared; fd_manager.UnlockShared]) /\
  fd_manager.size (fd_manager.del fd m) = fd_manager.size m /\
  forall fd', 0 <= fd' <= INT_MAX -> fd' <> fd ->
    fd_manager.m_datas (fd_manager.del fd m) !! Z.to_nat fd'
      = fd_manager.m_datas m !! Z.to_nat fd'.
Proof.
  intros Hfd. rewrite del_keeps_capacity.
  split; [| split; [reflexivity |]].
  - unfold fd_manager.get.
    destruct (Z.eqb_spec fd (-1)); [lia |].
    rewrite del_keeps_capacity.
    unfold fd_manager.del. rewrite wrap64_small by assumption.
    destruct (Z.leb_spec (fd_manager.size m) fd) as [Hle | Hgt];
      [reflexivity |].
    simpl. rewrite list_lookup_insert_eq
      by (unfold fd_manager.size in Hgt; lia).
    reflexivity.
  - intros fd' Hfd' Hne. unfold fd_manager.del.
    destruct (_ <=? _); [reflexivity |]. simpl.
    apply list_lookup_insert_ne. lia.
Qed.

Lemma del_then_get_witness :
  (0 <= 70 <= INT_MAX) /\
  fd_manager.get fd_manager.StatFails 70 false (fd_manager.del 70 with70)
    = Ret (None, fd_manager.del 70 with70,
           [fd_manager.LockShared; fd_manager.UnlockShared]).
Proof.
  assert (H1 : 0 <= 70 <= INT_MAX) by (split; vm_compute; congruence).
  split; [exact H1 |].
  exact (proj1 (del_then_get fd_manager.StatFails 70 with70 H1)).
Defined.

(** * fiber: [resume], [yield], [reset] and the end of [MainFunc] *)

Lemma set_state_same (f : fiber.Fiber) (v : fiber.State) :
  fiber.m_state f = v -> fiber.set_state v f = f.
Proof. destruct f. simpl. now intros ->. Qed.

(** X9. [resume] of a ready fiber makes it the running fiber of the thread,
    in state [RUNNING]; its [yield] then puts it back to [READY] and makes the
    fiber it was resumed from (the scheduler fiber or the thread's main
    fiber) the current one: the thread is as before the [resume], but for
    [t_fiber]. *)
Theorem resume_then_yield (h target : nat) (f : fiber.Fiber)
    (ts : fiber.thread_state) :
  fiber.fibers ts !! h = Some f ->
  fiber.m_state f = fiber.READY ->
  fiber.return_target f ts = Some target ->
  exists ts1,
    fiber.resume h ts = Ret ts1 /\
    fiber.t_fiber ts1 = Some h /\
    fiber.fibers ts1 !! h = Some (fiber.set_state fiber.RUNNING f) /\
    (forall h', h' <> h -> fiber.fibers ts1 !! h' = fiber.fibers ts !! h') /\
    fiber.yield h ts1 = Ret (fiber.SetThis (Some target) ts).
Proof.
  intros Hf Hst Ht.
  assert (Hlt : (h < length (fiber.fibers ts))%nat)
    by (eapply lookup_lt_Some; eassumption).
  unfold fiber.resume. rewrite Hf, Hst, Ht. simpl.
  eexists. split; [reflexivity |]. simpl.
  split; [reflexivity |].
  split; [now apply list_lookup_insert_eq |].
  split; [intros h' Hne; now apply list_lookup_insert_ne |].
  unfold fiber.yield. simpl. rewrite list_lookup_insert_eq by assumption.
  simpl.
  assert (Ht' : fiber.return_target (fiber.set_state fiber.RUNNING f)
                  (fiber.SetThis (Some h)
                     (fiber.set_fiber h (fiber.set_state fiber.RUNNING f) ts))
                = Some target) by exact Ht.
  rewrite Ht'. unfold fiber.SetThis, fiber.set_fiber. simpl.
  rewrite list_insert_insert_eq.
  assert (E : fiber.set_state fiber.READY (fiber.set_state fiber.RUNNING f) = f)
    by (destruct f; simpl in *; now subst).
  rewrite E, list_insert_id by assumption. reflexivity.
Qed.

Lemma resume_then_yield_witness :
  (fiber.fibers two_fibers !! 1%nat
     = Some (fiber.mkFiber 1 128000 fiber.READY (Some 128000) 128000
               (Some (UserCb 0)) true)) /\
  fiber.resume 1 two_fibers = Ret worker_running /\
  fiber.t_fiber worker_running = Some 1%nat /\
  fiber.yield 1 worker_running = Ret two_fibers.
Proof.
  assert (H1 : fiber.fibers two_fibers !! 1%nat
     = Some (fiber.mkFiber 1 128000 fiber.READY (Some 128000) 128000
               (Some (UserCb 0)) true)) by reflexivity.
  split; [exact H1 |].
  destruct (resume_then_yield 1 0 _ two_fibers H1 eq_refl eq_refl)
    as (ts1 & Hr & Ht & _ & _ & Hy).
  assert (E : ts1 = worker_running).
  { unfold worker_running. rewrite Hr. reflexivity. }
  subst ts1. auto.
Defined.

(** X10. When the callback of the running fiber returns, the fiber ends in
    state [TERM] with its callback cleared and control goes back to the fiber
    it was resumed from.  From then on [resume] fails its assertion and a
    further [yield] leaves the state [TERM]; [reset], which fails its
    assertion on a fiber that is not terminated, makes the fiber [READY] again
    with the new callback, the same stack and the same id. *)
Theorem terminated_fiber_needs_reset (h target : nat) (f : fiber.Fiber)
    (cb : option Callback) (ts : fiber.thread_state) :
  fiber.t_fiber ts = Some h ->
  fiber.fibers ts !! h = Some f ->
  fiber.m_state f = fiber.RUNNING ->
  fiber.return_target f ts = Some target ->
  is_Some (fiber.m_stack f) ->
  let done := fiber.mkFiber (fiber.m_id f) (fiber.m_stacksize f) fiber.TERM
                (fiber.m_stack f) (fiber.ss_size f) None
                (fiber.m_runInScheduler f) in
  let again := fiber.mkFiber (fiber.m_id f) (fiber.m_stacksize f) fiber.READY
                 (fiber.m_stack f) (fiber.m_stacksize f) cb
                 (fiber.m_runInScheduler f) in
  fiber.reset true h cb ts = AssertFail /\
  exists ts1,
    fiber.MainFunc_return ts = Ret ts1 /\
    fiber.t_fiber ts1 = Some target /\
    fiber.fibers ts1 !! h = Some done /\
    fiber.resume h ts1 = AssertFail /\
    fiber.yield h ts1 = Ret ts1 /\
    exists ts2,
      fiber.reset true h cb ts1 = Ret (Some ts2) /\
      fiber.fibers ts2 !! h = Some again /\
      exists ts3,
        fiber.resume h ts2 = Ret ts3 /\ fiber.t_fiber ts3 = Some h.
Proof.
  intros Hcur Hf Hst Ht Hstack done again.
  assert (Hlt : (h < length (fiber.fibers ts))%nat)
    by (eapply lookup_lt_Some; eassumption).
  split.
  { unfold fiber.reset. rewrite Hf, Hst.
    rewrite (bool_decide_eq_false_2 (fiber.RUNNING = fiber.TERM)) by discriminate.
    rewrite andb_false_r. reflexivity. }
  unfold fiber.return_target in Ht.
  assert (Hl : forall (g : fiber.Fiber) (l : list fiber.Fiber),
            (h < length l)%nat -> <[h := g]> l !! h = Some g)
    by (intros; now apply list_lookup_insert_eq).
  unfold fiber.MainFunc_return. rewrite Hcur, Hf. fold done.
  unfold fiber.yield at 1, fiber.return_target, fiber.SetThis, fiber.set_fiber.
  simpl. rewrite Hl by assumption. simpl. rewrite Ht.
  rewrite list_insert_insert_eq.
  eexists. split; [reflexivity |]. simpl.
  split; [reflexivity |].
  split; [now apply Hl |].
  split.
  { unfold fiber.resume. simpl. rewrite Hl by assumption. reflexivity. }
  split.
  { unfold fiber.yield, fiber.return_target, fiber.SetThis, fiber.set_fiber.
    simpl. rewrite Hl by assumption. simpl. rewrite Ht.
    now rewrite list_insert_insert_eq. }
  unfold fiber.reset, fiber.set_fiber. simpl. rewrite Hl by assumption.
  simpl. rewrite (bool_decide_eq_true_2 _ Hstack). simpl.
  rewrite list_insert_insert_eq.
  eexists. split; [reflexivity |]. simpl.
  split; [now apply Hl |].
  unfold fiber.resume, fiber.return_target, fiber.SetThis, fiber.set_fiber.
  simpl. rewrite Hl by assumption. simpl. rewrite Ht.
  eexists. split; reflexivity.
Qed.

Lemma terminated_fiber_needs_reset_witness :
  (fiber.t_fiber worker_running = Some 1%nat /\
   fiber.fibers worker_running !! 1%nat
     = Some (fiber.mkFiber 1 128000 fiber.RUNNING (Some 128000) 128000
               (Some (UserCb 0)) true)) /\
  exists ts1,
    fiber.MainFunc_return worker_running = Ret ts1 /\
    fiber.t_fiber ts1 = Some 0%nat /\
    fiber.resume 1 ts1 = AssertFail.
Proof.
  assert (H1 : fiber.t_fiber worker_running = Some 1%nat) by reflexivity.
  assert (H2 : fiber.fibers worker_running !! 1%nat
     = Some (fiber.mkFiber 1 128000 fiber.RUNNING (Some 128000) 128000
               (Some (UserCb 0)) true)) by reflexivity.
  split; [auto |].
  destruct (terminated_fiber_needs_reset 1 0 _ (Some (UserCb 1)) worker_running
              H1 H2 eq_refl eq_refl ltac:(eexists; reflexivity))
    as (_ & ts1 & Hm & Ht & _ & Hr & _).
  exists ts1. auto.
Defined.

(** * scheduler: the scan of the queue in [run] *)

Lemma scheduler_empty_app {A : Type} (l1 l2 : list A) :
  scheduler.empty (l1 ++ l2) = scheduler.empty l1 && scheduler.empty l2.
Proof. destruct l1; reflexivity. Qed.

Lemma take_skips (thread_id : Z) (l1 : list scheduler.ScheduleTask) :
  Forall (fun u => ~ eligible thread_id u) l1 ->
  forall rest r rest' tk,
    scheduler.take thread_id rest = Ret (r, rest', tk) ->
    scheduler.take thread_id (l1 ++ rest)
      = Ret (r, l1 ++ rest', negb (scheduler.empty l1) || tk).
Proof.
  induction 1 as [| u l1 Hu Hl IH]; intros rest r rest' tk Hrest.
  - simpl. exact Hrest.
  - simpl.
    assert (E : negb (scheduler.thread u =? -1)
                && negb (scheduler.thread u =? thread_id) = true).
    { unfold eligible in Hu. apply andb_true_iff.
      split; apply negb_true_iff; apply Z.eqb_neq; tauto. }
    rewrite E, (IH _ _ _ _ Hrest). reflexivity.
Qed.

(** X11. A worker thread takes the first task of the queue that is bound to
    no thread or to itself: the tasks before it, all bound to other threads,
    and the tasks after it stay queued in their order, the count of active
    threads goes up by one, and the thread asks for a tickle if it skipped a
    task.  When every task is bound to another thread it takes none, leaves
    the queue as it is, and asks for a tickle unless the queue is empty. *)
Theorem run_take_first_eligible (thread_id : Z) (s : scheduler.Scheduler) :
  Forall task_ok (scheduler.m_tasks s) ->
  (forall l1 t l2,
     scheduler.m_tasks s = l1 ++ t :: l2 ->
     Forall (fun u => ~ eligible thread_id u) l1 ->
     eligible thread_id t ->
     exists s' tickle_me,
       scheduler.run_take thread_id s = Ret (Some t, s', tickle_me) /\
       scheduler.m_tasks s' = l1 ++ l2 /\
       scheduler.m_activeThreadCount s'
         = wrap64 (scheduler.m_activeThreadCount s + 1) /\
       scheduler.m_stopping s' = scheduler.m_stopping s /\
       (l1 <> [] -> tickle_me = true)) /\
  (Forall (fun u => ~ eligible thread_id u) (scheduler.m_tasks s) ->
   scheduler.run_take thread_id s
     = Ret (None, s, negb (scheduler.empty (scheduler.m_tasks s)))).
Proof.
  intros Hok. split.
  - intros l1 t l2 Es Hl1 Ht.
    assert (Htake : scheduler.take thread_id (t :: l2)
              = Ret (Some t, l2, negb (scheduler.empty l2))).
    { simpl.
      assert (E : negb (scheduler.thread t =? -1)
                  && negb (scheduler.thread t =? thread_id) = false).
      { destruct Ht as [-> | ->]; [reflexivity |].
        rewrite Z.eqb_refl. apply andb_false_r. }
      rewrite E.
      assert (Hto : task_ok t).
      { rewrite Forall_forall in Hok. apply Hok. rewrite Es.
        apply elem_of_app. right. left. }
      assert (Ha : bool_decide (is_Some (scheduler.fiber t))
                   || bool_decide (is_Some (scheduler.cb t)) = true).
      { destruct Hto as [H | H]; rewrite (bool_decide_eq_true_2 _ H);
          [reflexivity | apply orb_true_r]. }
      rewrite Ha. reflexivity. }
    unfold scheduler.run_take.
    rewrite Es, (take_skips thread_id l1 Hl1 _ _ _ _ Htake). simpl.
    eexists _, _. split; [reflexivity |]. simpl.
    repeat split. intros Hne. destruct l1; [congruence | reflexivity].
  - intros Hall. unfold scheduler.run_take.
    pose proof (take_skips thread_id (scheduler.m_tasks s) Hall [] None [] false
                  eq_refl) as H.
    rewrite !app_nil_r in H. rewrite H. simpl. rewrite orb_false_r.
    destruct s; reflexivity.
Qed.

Lemma run_take_first_eligible_witness :
  Forall task_ok (scheduler.m_tasks mixed_queue) /\
  exists s',
    scheduler.run_take 4 mixed_queue
      = Ret (Some (scheduler.mkScheduleTask None (Some (UserCb 5)) (-1)), s', true)
    /\ scheduler.m_tasks s'
       = [scheduler.mkScheduleTask (Some 11%nat) None 9;
          scheduler.mkScheduleTask (Some 12%nat) None 4].
Proof.
  assert (H1 : Forall task_ok (scheduler.m_tasks mixed_queue)).
  { constructor; [left; eexists; reflexivity |].
    constructor; [right; eexists; reflexivity |].
    constructor; [left; eexists; reflexivity | constructor]. }
  split; [exact H1 |].
  destruct (proj1 (run_take_first_eligible 4 mixed_queue H1)
              [scheduler.mkScheduleTask (Some 11%nat) None 9]
              (scheduler.mkScheduleTask None (Some (UserCb 5)) (-1))
              [scheduler.mkScheduleTask (Some 12%nat) None 4]
              eq_refl)
    as (s' & tk & Hrun & Htasks & _ & _ & Htk).
  { constructor; [unfold eligible; simpl; lia | constructor]. }
  { left. reflexivity. }
  exists s'. rewrite Hrun, (Htk ltac:(discriminate)). auto.
Defined.

(** * ioscheduler: what the operations on events do *)

Lemma find_ctx_in (fd : Z) (m : ioscheduler.IOManager)
    (c : ioscheduler.FdContext) :
  0 <= fd -> ioscheduler.m_fdContexts m !! Z.to_nat fd = Some c ->
  ioscheduler.find_ctx fd m = Ret (Some c).
Proof.
  intros Hfd Hc. unfold ioscheduler.find_ctx.
  assert (Hlt : (Z.to_nat fd < length (ioscheduler.m_fdContexts m))%nat)
    by (eapply lookup_lt_Some; eassumption).
  destruct (Z.gtb_spec (Z.of_nat (length (ioscheduler.m_fdContexts m))) fd);
    [| lia].
  destruct (Z.ltb_spec fd 0); [lia |]. now rewrite Hc.
Qed.

Lemma find_ctx_out (fd : Z) (m : ioscheduler.IOManager) :
  Z.of_nat (length (ioscheduler.m_fdContexts m)) <= fd ->
  ioscheduler.find_ctx fd m = Ret None.
Proof.
  intros H. unfold ioscheduler.find_ctx.
  destruct (Z.gtb_spec (Z.of_nat (length (ioscheduler.m_fdContexts m))) fd);
    [lia | reflexivity].
Qed.

Lemma slot_getEventContext (event : Event) (c : ioscheduler.FdContext) :
  event = READ \/ event = WRITE ->
  ioscheduler.getEventContext event c = Ret (slot event c).
Proof. intros [-> | ->]; reflexivity. Qed.

Lemma slot_set_events (event v : Z) (c : ioscheduler.FdContext) :
  slot event (ioscheduler.set_events v c) = slot event c.
Proof. unfold slot. destruct (event =? READ); reflexivity. Qed.

Lemma slot_setEventContext (event : Z) (e : ioscheduler.EventContext)
    (c : ioscheduler.FdContext) :
  slot event (ioscheduler.setEventContext event e c) = e.
Proof.
  unfold slot, ioscheduler.setEventContext.
  destruct (event =? READ); reflexivity.
Qed.

Lemma events_setEventContext (event : Z) (e : ioscheduler.EventContext)
    (c : ioscheduler.FdContext) :
  ioscheduler.events (ioscheduler.setEventContext event e c)
    = ioscheduler.events c.
Proof.
  unfold ioscheduler.setEventContext. destruct (event =? READ); reflexivity.
Qed.

(** [scheduleLock] on the reactor touches the task queue and the tickle pipe
    only. *)
Lemma scheduleLock_frame (t : scheduler.ScheduleTask)
    (m : ioscheduler.IOManager) :
  ioscheduler.m_fdContexts (ioscheduler.scheduleLock t m)
    = ioscheduler.m_fdContexts m /\
  ioscheduler.m_pendingEventCount (ioscheduler.scheduleLock t m)
    = ioscheduler.m_pendingEventCount m /\
  ioscheduler.m_epfd (ioscheduler.scheduleLock t m) = ioscheduler.m_epfd m /\
  ioscheduler.base_TimerManager (ioscheduler.scheduleLock t m)
    = ioscheduler.base_TimerManager m /\
  scheduler.m_tasks (ioscheduler.base_Scheduler (ioscheduler.scheduleLock t m))
    = scheduler.m_tasks (ioscheduler.base_Scheduler m)
      ++ (if bool_decide (is_Some (scheduler.fiber t))
             || bool_decide (is_Some (scheduler.cb t))
          then [t] else []).
Proof.
  unfold ioscheduler.scheduleLock, scheduler.scheduleLock, ioscheduler.tickle.
  destruct (scheduler.empty _), (bool_decide _ || bool_decide _); simpl;
    try destruct (negb _); simpl; rewrite ?app_nil_r; auto.
Qed.

(** [triggerEvent] on a registered event whose slot has a scheduler. *)
Lemma triggerEvent_effect (i : nat) (event : Event)
    (m : ioscheduler.IOManager) (c : ioscheduler.FdContext) :
  ioscheduler.m_fdContexts m !! i = Some c ->
  event = READ \/ event = WRITE ->
  Z.land (ioscheduler.events c) event <> 0 ->
  is_Some (ioscheduler.scheduler (slot event c)) ->
  ioscheduler.triggerEvent i event m
    = Ret (ioscheduler.set_m_fdContexts
             (<[i := ioscheduler.setEventContext event ioscheduler.empty_ctx
                       (ioscheduler.set_events
                          (Z.land (ioscheduler.events c) (Z.lnot event)) c)]>
                (ioscheduler.m_fdContexts m))
             (ioscheduler.scheduleLock (task_of (slot event c)) m)).
Proof.
  intros Hc Hev Hbit [sc Hsc]. unfold ioscheduler.triggerEvent.
  rewrite Hc.
  destruct (Z.eqb_spec (Z.land (ioscheduler.events c) event) 0);
    [contradiction |].
  simpl. rewrite slot_getEventContext by assumption. simpl.
  rewrite slot_set_events, Hsc.
  destruct (scheduleLock_frame (task_of (slot event c)) m) as (E & _).
  fold (task_of (slot event c)). rewrite E. reflexivity.
Qed.

(** [cancelEvent] on a registered event the poller lets go. *)
Lemma cancelEvent_registered (fd : Z) (event : Event)
    (m : ioscheduler.IOManager) (c : ioscheduler.FdContext) :
  0 <= fd ->
  ioscheduler.m_fdContexts m !! Z.to_nat fd = Some c ->
  event = READ \/ event = WRITE ->
  Z.land (ioscheduler.events c) event <> 0 ->
  is_Some (ioscheduler.scheduler (slot event c)) ->
  is_Some (ioscheduler.fiber (slot event c))
    \/ is_Some (ioscheduler.cb (slot event c)) ->
  fd ∈ epoll.pollable (ioscheduler.m_epfd m) ->
  is_Some (epoll.interest (ioscheduler.m_epfd m) !! fd) ->
  exists m',
    ioscheduler.cancelEvent fd event m = Ret (true, m') /\
    scheduler.m_tasks (ioscheduler.base_Scheduler m')
      = scheduler.m_tasks (ioscheduler.base_Scheduler m)
        ++ [task_of (slot event c)] /\
    ioscheduler.m_fdContexts m'
      = <[Z.to_nat fd := ioscheduler.setEventContext event
                           ioscheduler.empty_ctx
                           (ioscheduler.set_events
                              (Z.land (ioscheduler.events c) (Z.lnot event))
                              c)]> (ioscheduler.m_fdContexts m) /\
    ioscheduler.m_pendingEventCount m'
      = wrap64 (ioscheduler.m_pendingEventCount m - 1) /\
    ioscheduler.base_TimerManager m' = ioscheduler.base_TimerManager m.
Proof.
  intros Hfd Hc Hev Hbit Hsched Hwait Hpoll [x Hint].
  unfold ioscheduler.cancelEvent. rewrite (find_ctx_in fd m c) by assumption.
  simpl.
  destruct (Z.eqb_spec (Z.land (ioscheduler.events c) event) 0);
    [contradiction |].
  set (new_events := Z.land (ioscheduler.events c) (Z.lnot event)).
  assert (Hep : exists ep,
            epoll.epoll_ctl
              (if negb (new_events =? 0) then epoll.EPOLL_CTL_MOD
               else epoll.EPOLL_CTL_DEL) fd (Z.lor epoll.EPOLLET new_events)
              (ioscheduler.m_epfd m) = Some ep).
  { unfold epoll.epoll_ctl. rewrite (bool_decide_eq_true_2 _ Hpoll), Hint.
    destruct (negb _); eauto. }
  destruct Hep as [ep Hep]. rewrite Hep.
  rewrite (triggerEvent_effect (Z.to_nat fd) event _ c) by assumption.
  simpl. eexists. split; [reflexivity |]. simpl.
  set (m1 := ioscheduler.set_m_pendingEventCount _ _).
  destruct (scheduleLock_frame (task_of (slot event c)) m1)
    as (E1 & E2 & _ & E4 & E5).
  rewrite E5, E2, E4. split; [| auto].
  assert (Ht : bool_decide (is_Some (scheduler.fiber (task_of (slot event c))))
               || bool_decide (is_Some (scheduler.cb (task_of (slot event c))))
               = true).
  { unfold task_of. apply orb_true_iff.
    destruct (ioscheduler.cb (slot event c)) as [f |] eqn:Ecb.
    - right. apply bool_decide_eq_true_2. simpl. eauto.
    - left. apply bool_decide_eq_true_2. simpl.
      destruct Hwait as [H | [y H]]; [exact H | discriminate]. }
  rewrite Ht. reflexivity.
Qed.

(** X12. [cancelEvent] on a registered event, when the poller accepts the
    change: it returns [true], puts the waiting fiber or function of the
    slot at the end of the task queue, clears the bit and the slot, and
    counts one pending event less; the other contexts and the timers are
    untouched. *)
Theorem cancelEvent_wakes (fd : Z) (event : Event)
    (m : ioscheduler.IOManager) (c : ioscheduler.FdContext) :
  0 <= fd ->
  ioscheduler.m_fdContexts m !! Z.to_nat fd = Some c ->
  event = READ \/ event = WRITE ->
  Z.land (ioscheduler.events c) event <> 0 ->
  is_Some (ioscheduler.scheduler (slot event c)) ->
  is_Some (ioscheduler.fiber (slot event c))
    \/ is_Some (ioscheduler.cb (slot event c)) ->
  fd ∈ epoll.pollable (ioscheduler.m_epfd m) ->
  is_Some (epoll.interest (ioscheduler.m_epfd m) !! fd) ->
  exists m',
    ioscheduler.cancelEvent fd event m = Ret (true, m') /\
    scheduler.m_tasks (ioscheduler.base_Scheduler m')
      = scheduler.m_tasks (ioscheduler.base_Scheduler m)
        ++ [task_of (slot event c)] /\
    ioscheduler.m_fdContexts m'
      = <[Z.to_nat fd := ioscheduler.setEventContext event
                           ioscheduler.empty_ctx
                           (ioscheduler.set_events
                              (Z.land (ioscheduler.events c) (Z.lnot event))
                              c)]> (ioscheduler.m_fdContexts m) /\
    ioscheduler.m_pendingEventCount m'
      = wrap64 (ioscheduler.m_pendingEventCount m - 1) /\
    ioscheduler.base_TimerManager m' = ioscheduler.base_TimerManager m.
Proof. exact (cancelEvent_registered fd event m c). Qed.

Lemma cancelEvent_wakes_witness :
  (ioscheduler.m_fdContexts reading3 !! Z.to_nat 3
     = Some (ioscheduler.mkFdContext
               (ioscheduler.mkEventContext (Some 0%nat) (Some 7%nat) None)
               ioscheduler.empty_ctx 3 READ)) /\
  exists m',
    ioscheduler.cancelEvent 3 READ reading3 = Ret (true, m') /\
    scheduler.m_tasks (ioscheduler.base_Scheduler m')
      = [scheduler.mkScheduleTask (Some 7%nat) None (-1)] /\
    ioscheduler.m_pendingEventCount m' = 0.
Proof.
  assert (H3 : ioscheduler.m_fdContexts reading3 !! Z.to_nat 3
     = Some (ioscheduler.mkFdContext
               (ioscheduler.mkEventContext (Some 0%nat) (Some 7%nat) None)
               ioscheduler.empty_ctx 3 READ)) by (vm_compute; reflexivity).
  split; [exact H3 |].
  destruct (cancelEvent_wakes 3 READ reading3 _
              ltac:(vm_compute; congruence) H3 (or_introl eq_refl)
              ltac:(vm_compute; congruence) ltac:(eexists; reflexivity)
              ltac:(left; eexists; reflexivity)
              ltac:(apply (bool_decide_unpack _); vm_compute; exact I)
              ltac:(eexists; vm_compute; reflexivity))
    as (m' & Hc & Ht & _ & Hp & _).
  exists m'. split; [exact Hc |]. split; [exact Ht | exact Hp].
Defined.

(** [addEvent] of an event that is not registered, when the poller accepts
    the change. *)
Lemma addEvent_registers (this_sched : nat) (this_fiber : nat * fiber.State)
    (fd : Z) (event : Event) (cb : option Callback)
    (m : ioscheduler.IOManager) (c : ioscheduler.FdContext)
    (ep : epoll.instance) :
  event = READ \/ event = WRITE ->
  0 <= fd ->
  ioscheduler.m_fdContexts m !! Z.to_nat fd = Some c ->
  Z.land (ioscheduler.events c) event = 0 ->
  slot event c = ioscheduler.empty_ctx ->
  is_Some cb \/ snd this_fiber = fiber.RUNNING ->
  epoll.epoll_ctl
    (if negb (ioscheduler.events c =? 0) then epoll.EPOLL_CTL_MOD
     else epoll.EPOLL_CTL_ADD) fd
    (Z.lor (Z.lor epoll.EPOLLET (ioscheduler.events c)) event)
    (ioscheduler.m_epfd m) = Some ep ->
  ioscheduler.addEvent this_sched this_fiber fd event cb m
    = Ret (0, ioscheduler.set_m_fdContexts
                (<[Z.to_nat fd :=
                     ioscheduler.setEventContext event
                       (waiter this_sched this_fiber cb)
                       (ioscheduler.set_events
                          (Z.lor (ioscheduler.events c) event) c)]>
                   (ioscheduler.m_fdContexts m))
                (ioscheduler.set_m_pendingEventCount
                   (wrap64 (ioscheduler.m_pendingEventCount m + 1))
                   (ioscheduler.set_m_epfd ep m))).
Proof.
  intros Hev Hfd Hc Hbit Hslot Hrun Hep.
  assert (Hlen : (Z.to_nat fd < length (ioscheduler.m_fdContexts m))%nat)
    by (eapply lookup_lt_Some; eassumption).
  unfold ioscheduler.addEvent.
  destruct (Z.gtb_spec (Z.of_nat (length (ioscheduler.m_fdContexts m))) fd)
    as [_ | H]; [| lia].
  simpl. destruct (Z.ltb_spec fd 0) as [H | _]; [lia |]. rewrite Hc.
  rewrite Hbit. simpl. rewrite Hep.
  rewrite slot_getEventContext by assumption. simpl.
  rewrite slot_set_events, Hslot. simpl.
  unfold waiter. destruct cb as [f |]; [reflexivity |].
  destruct Hrun as [[f Hf] | Hr]; [discriminate |].
  rewrite (bool_decide_eq_true_2 _ Hr). reflexivity.
Qed.

Lemma epoll_ctl_registered (o : epoll.op) (fd ev : Z) (e ep : epoll.instance) :
  o <> epoll.EPOLL_CTL_DEL ->
  epoll.epoll_ctl o fd ev e = Some ep ->
  fd ∈ epoll.pollable ep /\ epoll.interest ep !! fd = Some ev.
Proof.
  intros Ho. unfold epoll.epoll_ctl.
  destruct (bool_decide (fd ∈ epoll.pollable e)) eqn:Hp; [| discriminate].
  apply bool_decide_eq_true_1 in Hp.
  destruct o, (epoll.interest e !! fd); try discriminate; try congruence;
    intros [= <-]; simpl; rewrite lookup_insert_eq; auto.
Qed.

Lemma clear_after_set (event : Event) (e : ioscheduler.EventContext)
    (c : ioscheduler.FdContext) :
  Z.land (ioscheduler.events c) event = 0 ->
  slot event c = ioscheduler.empty_ctx ->
  ioscheduler.setEventContext event ioscheduler.empty_ctx
    (ioscheduler.set_events
       (Z.land (ioscheduler.events
                  (ioscheduler.setEventContext event e
                     (ioscheduler.set_events
                        (Z.lor (ioscheduler.events c) event) c)))
          (Z.lnot event))
       (ioscheduler.setEventContext event e
          (ioscheduler.set_events (Z.lor (ioscheduler.events c) event) c)))
  = c.
Proof.
  intros Hbit Hslot. rewrite events_setEventContext. simpl.
  rewrite land_lor_lnot by assumption.
  unfold slot, ioscheduler.setEventContext, ioscheduler.set_events in *.
  destruct c as [rd wr f ev]. simpl in *.
  destruct (event =? READ); simpl in *; congruence.
Qed.

(** X13. On a descriptor the poller can watch and whose entry in the interest
    list agrees with the mask, [addEvent] of an event that is not registered
    returns 0; a [cancelEvent] right after it returns [true], puts the caller
    (its fiber, or the function it gave) at the end of the task queue, and
    leaves the table of contexts and the pending count as they were before
    the [addEvent]. *)
Theorem addEvent_then_cancelEvent (this_sched : nat)
    (this_fiber : nat * fiber.State) (fd : Z) (event : Event)
    (cb : option Callback) (m : ioscheduler.IOManager)
    (c : ioscheduler.FdContext) :
  event = READ \/ event = WRITE ->
  0 <= fd ->
  ioscheduler.m_fdContexts m !! Z.to_nat fd = Some c ->
  Z.land (ioscheduler.events c) event = 0 ->
  slot event c = ioscheduler.empty_ctx ->
  0 <= ioscheduler.m_pendingEventCount m < 2 ^ 64 ->
  is_Some cb \/ snd this_fiber = fiber.RUNNING ->
  fd ∈ epoll.pollable (ioscheduler.m_epfd m) ->
  (ioscheduler.events c = 0 <->
   epoll.interest (ioscheduler.m_epfd m) !! fd = None) ->
  exists m1 m2,
    ioscheduler.addEvent this_sched this_fiber fd event cb m = Ret (0, m1) /\
    ioscheduler.cancelEvent fd event m1 = Ret (true, m2) /\
    scheduler.m_tasks (ioscheduler.base_Scheduler m2)
      = scheduler.m_tasks (ioscheduler.base_Scheduler m)
        ++ [task_of (waiter this_sched this_fiber cb)] /\
    ioscheduler.m_fdContexts m2 = ioscheduler.m_fdContexts m /\
    ioscheduler.m_pendingEventCount m2 = ioscheduler.m_pendingEventCount m.
Proof.
  intros Hev Hfd Hc Hbit Hslot Hcnt Hrun Hpoll Hagree.
  assert (Hlen : (Z.to_nat fd < length (ioscheduler.m_fdContexts m))%nat)
    by (eapply lookup_lt_Some; eassumption).
  assert (Hne : event <> 0) by (destruct Hev as [-> | ->]; discriminate).
  assert (Hep : exists ep,
    epoll.epoll_ctl
      (if negb (ioscheduler.events c =? 0) then epoll.EPOLL_CTL_MOD
       else epoll.EPOLL_CTL_ADD) fd
      (Z.lor (Z.lor epoll.EPOLLET (ioscheduler.events c)) event)
      (ioscheduler.m_epfd m) = Some ep).
  { unfold epoll.epoll_ctl. rewrite (bool_decide_eq_true_2 _ Hpoll).
    destruct (Z.eqb_spec (ioscheduler.events c) 0) as [E | E]; simpl.
    - rewrite (proj1 Hagree E). eauto.
    - destruct (epoll.interest (ioscheduler.m_epfd m) !! fd) eqn:Ei; [eauto |].
      exfalso. apply E. now apply Hagree. }
  destruct Hep as [ep Hep].
  pose proof (addEvent_registers this_sched this_fiber fd event cb m c ep
                Hev Hfd Hc Hbit Hslot Hrun Hep) as Hadd.
  apply epoll_ctl_registered in Hep as [Hpoll' Hint'];
    [| destruct (negb _); discriminate].
  set (c1 := ioscheduler.setEventContext event
               (waiter this_sched this_fiber cb)
               (ioscheduler.set_events (Z.lor (ioscheduler.events c) event) c)).
  assert (H1 : Z.land (ioscheduler.events c1) event <> 0).
  { unfold c1. rewrite events_setEventContext. simpl.
    rewrite land_lor_same by assumption. exact Hne. }
  assert (H2 : slot event c1 = waiter this_sched this_fiber cb)
    by (unfold c1; apply slot_setEventContext; assumption).
  assert (H3 : is_Some (ioscheduler.scheduler (slot event c1)))
    by (rewrite H2; unfold waiter; destruct cb; simpl; eauto).
  assert (H4 : is_Some (ioscheduler.fiber (slot event c1))
               \/ is_Some (ioscheduler.cb (slot event c1)))
    by (rewrite H2; unfold waiter; destruct cb; simpl; eauto).
  match type of Hadd with _ = Ret (0, ?m1) =>
    destruct (cancelEvent_registered fd event m1 c1 Hfd
                (list_lookup_insert_eq _ _ _ Hlen) Hev H1 H3 H4 Hpoll'
                (ex_intro _ _ Hint'))
      as (m2 & Hc2 & Ht & Htab & Hp & _)
  end.
  simpl in Ht, Htab, Hp.
  eexists _, m2. split; [exact Hadd |].
  split; [exact Hc2 |]. rewrite Ht, Htab, Hp, H2.
  split; [reflexivity |]. split.
  - rewrite list_insert_insert_eq. unfold c1.
    rewrite clear_after_set by assumption. now apply list_insert_id.
  - apply wrap64_succ_pred. assumption.
Qed.

Lemma addEvent_then_cancelEvent_witness :
  (ioscheduler.m_fdContexts reactor32 !! Z.to_nat 3
     = Some (ioscheduler.FdContext_new 3)
   /\ 3 ∈ epoll.pollable (ioscheduler.m_epfd reactor32)) /\
  exists m1 m2,
    ioscheduler.addEvent 0 (7%nat, fiber.RUNNING) 3 READ None reactor32
      = Ret (0, m1) /\
    ioscheduler.cancelEvent 3 READ m1 = Ret (true, m2) /\
    scheduler.m_tasks (ioscheduler.base_Scheduler m2)
      = [scheduler.mkScheduleTask (Some 7%nat) None (-1)] /\
    ioscheduler.m_fdContexts m2 = ioscheduler.m_fdContexts reactor32.
Proof.
  assert (H3 : ioscheduler.m_fdContexts reactor32 !! Z.to_nat 3
     = Some (ioscheduler.FdContext_new 3)) by (vm_compute; reflexivity).
  assert (H4 : 3 ∈ epoll.pollable (ioscheduler.m_epfd reactor32))
    by (apply (bool_decide_unpack _); vm_compute; exact I).
  split; [auto |].
  destruct (addEvent_then_cancelEvent 0 (7%nat, fiber.RUNNING) 3 READ None
              reactor32 _ (or_introl eq_refl) ltac:(vm_compute; congruence) H3
              eq_refl eq_refl ltac:(split; vm_compute; congruence)
              (or_intror eq_refl) H4
              ltac:(split; intros _; vm_compute; reflexivity))
    as (m1 & m2 & Ha & Hc & Ht & Htab & _).
  exists m1, m2. auto.
Defined.

(** X14. [delEvent], [cancelEvent] and [cancelAll] on a descriptor beyond the
    table of contexts, or on an event that is not registered (for
    [cancelAll]: on a context with no event registered), return [false] and
    leave the reactor as it is. *)
Theorem nothing_to_remove (fd : Z) (event : Event)
    (m : ioscheduler.IOManager) :
  0 <= fd ->
  (Z.of_nat (length (ioscheduler.m_fdContexts m)) <= fd \/
   exists c, ioscheduler.m_fdContexts m !! Z.to_nat fd = Some c /\
             Z.land (ioscheduler.events c) event = 0 /\
             (event = 0 -> ioscheduler.events c = 0)) ->
  ioscheduler.delEvent fd event m = Ret (false, m) /\
  ioscheduler.cancelEvent fd event m = Ret (false, m) /\
  (event = 0 -> ioscheduler.cancelAll fd m = Ret (false, m)) /\
  (Z.of_nat (length (ioscheduler.m_fdContexts m)) <= fd ->
   ioscheduler.cancelAll fd m = Ret (false, m)).
Proof.
  intros Hfd [Hout | (c & Hc & Hbit & Hnone)].
  - unfold ioscheduler.delEvent, ioscheduler.cancelEvent, ioscheduler.cancelAll.
    rewrite (find_ctx_out fd m Hout). auto.
  - unfold ioscheduler.delEvent, ioscheduler.cancelEvent, ioscheduler.cancelAll.
    rewrite (find_ctx_in fd m c Hfd Hc). simpl. rewrite Hbit. simpl.
    split; [reflexivity |]. split; [reflexivity |]. split.
    + intros E. rewrite (Hnone E). reflexivity.
    + intros Hout. apply lookup_lt_Some in Hc. lia.
Qed.

Lemma nothing_to_remove_witness :
  (0 <= 3 /\
   ioscheduler.m_fdContexts reading3 !! Z.to_nat 3
     = Some (ioscheduler.mkFdContext
               (ioscheduler.mkEventContext (Some 0%nat) (Some 7%nat) None)
               ioscheduler.empty_ctx 3 READ)) /\
  ioscheduler.delEvent 3 WRITE reading3 = Ret (false, reading3) /\
  ioscheduler.cancelEvent 3 WRITE reading3 = Ret (false, reading3).
Proof.
  assert (H0 : 0 <= 3) by (vm_compute; congruence).
  assert (H3 : ioscheduler.m_fdContexts reading3 !! Z.to_nat 3
     = Some (ioscheduler.mkFdContext
               (ioscheduler.mkEventContext (Some 0%nat) (Some 7%nat) None)
               ioscheduler.empty_ctx 3 READ)) by (vm_compute; reflexivity).
  split; [auto |].
  destruct (nothing_to_remove 3 WRITE reading3 H0) as (Hd & Hc & _).
  - right. eexists. split; [exact H3 |]. split; [reflexivity |].
    intros E. discriminate E.
  - auto.
Defined.

(** * ioscheduler: the count of pending events *)

Lemma wrap64_add_l (a d : Z) : wrap64 (wrap64 a + d) = wrap64 (a + d).
Proof. unfold wrap64. apply Zplus_mod_idemp_l. Qed.

Lemma total_app (l k : list ioscheduler.FdContext) :
  total (l ++ k) = total l + total k.
Proof. induction l as [| c l IH]; simpl; [reflexivity | rewrite IH; lia]. Qed.

Lemma total_insert (l : list ioscheduler.FdContext) (i : nat)
    (c c' : ioscheduler.FdContext) :
  l !! i = Some c ->
  total (<[i := c']> l) = total l - registered c + registered c'.
Proof.
  revert i. induction l as [| x l IH]; intros [| i] H; try discriminate.
  - injection H as ->. simpl. lia.
  - simpl in *. rewrite (IH i H). lia.
Qed.

Lemma total_fresh (l : list nat) :
  total (map (fun i => ioscheduler.FdContext_new (Z.of_nat i)) l) = 0.
Proof. induction l as [| x l IH]; simpl; [reflexivity | rewrite IH; reflexivity]. Qed.

Lemma ctx_ok_new (i : Z) : ctx_ok (ioscheduler.FdContext_new i).
Proof.
  split; [left; reflexivity |].
  intros event [-> | ->]; split; intros H; try reflexivity;
    exfalso; apply H; reflexivity.
Qed.

Ltac ctx_cases c Hc :=
  destruct c as [rd wr f ev]; destruct Hc as [Hm Hs];
  pose proof (Hs READ (or_introl eq_refl)) as [R0 R1];
  pose proof (Hs WRITE (or_intror eq_refl)) as [W0 W1];
  unfold slot in R0, R1, W0, W1; simpl in Hm, R0, R1, W0, W1; clear Hs;
  destruct Hm as [-> | [-> | [-> | ->]]].

Ltac ctx_solve :=
  split;
    [split;
       [unfold mask_ok; simpl; auto
       | intros e' [-> | ->]; unfold slot; simpl; split; intros H';
         first [ reflexivity | assumption | discriminate H'
               | exfalso; apply H'; reflexivity
               | match goal with
                 | R : _ -> ?x = ioscheduler.empty_ctx
                   |- ?x = ioscheduler.empty_ctx => apply R; reflexivity
                 end
               | match goal with R : _ -> is_Some _ |- _ =>
                   apply R; discriminate end ] ]
    | reflexivity ].

(** Setting the bit and the slot of an event keeps a context consistent and
    registers one event more. *)
Lemma ctx_ok_set (event : Event) (e : ioscheduler.EventContext)
    (c : ioscheduler.FdContext) :
  ctx_ok c ->
  event = READ \/ event = WRITE ->
  Z.land (ioscheduler.events c) event = 0 ->
  is_Some (ioscheduler.scheduler e) ->
  ctx_ok (ioscheduler.setEventContext event e
            (ioscheduler.set_events (Z.lor (ioscheduler.events c) event) c)) /\
  registered (ioscheduler.setEventContext event e
                (ioscheduler.set_events (Z.lor (ioscheduler.events c) event) c))
    = registered c + 1.
Proof.
  intros Hc Hev Hbit He. ctx_cases c Hc;
    destruct Hev as [-> | ->]; simpl in Hbit; try discriminate Hbit;
    unfold ioscheduler.setEventContext, ioscheduler.set_events; simpl;
    ctx_solve.
Qed.

(** Clearing the bit and the slot of a registered event keeps a context
    consistent and registers one event less. *)
Lemma ctx_ok_clear (event : Event) (c : ioscheduler.FdContext) :
  ctx_ok c ->
  event = READ \/ event = WRITE ->
  Z.land (ioscheduler.events c) event <> 0 ->
  ctx_ok (ioscheduler.setEventContext event ioscheduler.empty_ctx
            (ioscheduler.set_events
               (Z.land (ioscheduler.events c) (Z.lnot event)) c)) /\
  registered (ioscheduler.setEventContext event ioscheduler.empty_ctx
                (ioscheduler.set_events
                   (Z.land (ioscheduler.events c) (Z.lnot event)) c))
    = registered c + -1.
Proof.
  intros Hc Hev Hbit. ctx_cases c Hc;
    destruct Hev as [-> | ->]; simpl in Hbit;
    try (exfalso; apply Hbit; reflexivity);
    unfold ioscheduler.setEventContext, ioscheduler.set_events; simpl;
    ctx_solve.
Qed.

(** Replacing a context by a consistent one with [d] more events, and
    counting [d] more, keeps the reactor consistent. *)
Lemma reactor_ok_update (m m' : ioscheduler.IOManager) (i : nat)
    (c c' : ioscheduler.FdContext) (d : Z) :
  reactor_ok m ->
  ioscheduler.m_fdContexts m !! i = Some c ->
  ctx_ok c' /\ registered c' = registered c + d ->
  ioscheduler.m_fdContexts m' = <[i := c']> (ioscheduler.m_fdContexts m) ->
  ioscheduler.m_pendingEventCount m'
    = wrap64 (ioscheduler.m_pendingEventCount m + d) ->
  reactor_ok m'.
Proof.
  intros [Hall Hcnt] Hc [Hok Hreg] Htab Hp. split.
  - rewrite Htab. apply Forall_insert; assumption.
  - rewrite Hp, Htab, Hcnt, wrap64_add_l, (total_insert _ _ c c' Hc), Hreg.
    f_equal. lia.
Qed.

Lemma reactor_ok_contextResize (n : nat) (m : ioscheduler.IOManager) :
  (length (ioscheduler.m_fdContexts m) <= n)%nat ->
  reactor_ok m ->
  reactor_ok (ioscheduler.contextResize n m) /\
  length (ioscheduler.m_fdContexts (ioscheduler.contextResize n m)) = n /\
  ioscheduler.m_epfd (ioscheduler.contextResize n m) = ioscheduler.m_epfd m.
Proof.
  intros Hn [Hall Hcnt]. unfold ioscheduler.contextResize. simpl.
  rewrite firstn_all2 by assumption. repeat split.
  - apply Forall_app. split; [assumption |].
    apply Forall_forall. intros x Hx. apply list_elem_of_fmap in Hx as (j & -> & _).
    apply ctx_ok_new.
  - simpl. rewrite total_app, total_fresh, Z.add_0_r. exact Hcnt.
  - rewrite length_app, length_map, length_seq. lia.
Qed.

Lemma reactor_ok_lookup (m : ioscheduler.IOManager) (i : nat)
    (c : ioscheduler.FdContext) :
  reactor_ok m -> ioscheduler.m_fdContexts m !! i = Some c -> ctx_ok c.
Proof.
  intros [Hall _] Hc. rewrite Forall_forall in Hall. apply Hall.
  eapply list_elem_of_lookup_2. eassumption.
Qed.

(** X15. On a consistent reactor (masks made of the two event bits, empty
    slots for the events that are not registered, and a pending count equal
    to the number of registered events), [addEvent] of READ or WRITE, with a
    function or from a running fiber, on a descriptor inside the table, or
    of at least 2 beyond it, never fails an assertion nor reads outside the
    table: it returns 0 or -1, and the reactor it leaves is consistent. *)
Theorem addEvent_keeps_count (this_sched : nat)
    (this_fiber : nat * fiber.State) (fd : Z) (event : Event)
    (cb : option Callback) (m : ioscheduler.IOManager) :
  reactor_ok m ->
  event = READ \/ event = WRITE ->
  is_Some cb \/ snd this_fiber = fiber.RUNNING ->
  0 <= fd < Z.of_nat (length (ioscheduler.m_fdContexts m)) \/ 2 <= fd ->
  exists r m',
    ioscheduler.addEvent this_sched this_fiber fd event cb m = Ret (r, m') /\
    (r = 0 \/ r = -1) /\ reactor_ok m'.
Proof.
  intros Hok Hev Hrun Hfd.
  assert (H0 : exists m0,
    (if Z.of_nat (length (ioscheduler.m_fdContexts m)) >? fd then Ret m
     else n ← times_1_5 fd; Ret (ioscheduler.contextResize (Z.to_nat n) m))
      = Ret m0 /\ reactor_ok m0 /\
    0 <= fd < Z.of_nat (length (ioscheduler.m_fdContexts m0))).
  { destruct (Z.gtb_spec (Z.of_nat (length (ioscheduler.m_fdContexts m))) fd)
      as [Hin | Hout].
    - exists m. split; [reflexivity | split; [assumption | lia]].
    - assert (H2 : 2 <= fd) by lia. unfold times_1_5.
      destruct (Z.ltb_spec fd 0) as [| _]; [lia |]. simpl.
      eexists. split; [reflexivity |].
      assert (Hq : fd < 3 * fd ÷ 2).
      { rewrite Z.quot_div_nonneg by lia.
        assert (fd + 1 <= 3 * fd / 2) by (apply Z.div_le_lower_bound; lia).
        lia. }
      destruct (reactor_ok_contextResize (Z.to_nat (3 * fd ÷ 2)) m)
        as (Hr & Hl & _); [lia | assumption |].
      split; [exact Hr |]. rewrite Hl. lia. }
  destruct H0 as (m0 & E0 & Hok0 & Hfd0).
  unfold ioscheduler.addEvent. rewrite E0. simpl.
  destruct (Z.ltb_spec fd 0) as [| _]; [lia |].
  destruct (lookup_lt_is_Some_2 (ioscheduler.m_fdContexts m0) (Z.to_nat fd))
    as [c Hc]; [lia |].
  rewrite Hc.
  pose proof (reactor_ok_lookup m0 _ c Hok0 Hc) as Hcok.
  destruct (Z.eqb_spec (Z.land (ioscheduler.events c) event) 0) as [Hbit | Hbit];
    simpl; [| eauto 6].
  destruct (epoll.epoll_ctl _ fd _ (ioscheduler.m_epfd m0)) as [ep |];
    [| eauto 6].
  rewrite slot_getEventContext by assumption. simpl.
  rewrite slot_set_events.
  rewrite (proj1 (proj2 Hcok event Hev) Hbit). simpl.
  assert (He : exists e,
    match cb with
    | Some f => Ret (ioscheduler.mkEventContext (Some this_sched) None (Some f))
    | None =>
        _ ← assert (bool_decide (snd this_fiber = fiber.RUNNING));
        Ret (ioscheduler.mkEventContext (Some this_sched)
               (Some (fst this_fiber)) None)
    end = Ret e /\ is_Some (ioscheduler.scheduler e)).
  { destruct cb as [f |]; [simpl; eauto |].
    destruct Hrun as [[f Hf] | Hr]; [discriminate |].
    rewrite (bool_decide_eq_true_2 _ Hr). simpl. eauto. }
  destruct He as (e & -> & Hsc). simpl.
  eexists _, _. split; [reflexivity |]. split; [auto |].
  eapply (reactor_ok_update m0 _ (Z.to_nat fd) c _ 1 Hok0 Hc
            (ctx_ok_set event e c Hcok Hev Hbit Hsc)); reflexivity.
Qed.

Lemma reading3_ok : reactor_ok reading3.
Proof.
  split; [| vm_compute; reflexivity].
  assert (Hr : ctx_ok (ioscheduler.mkFdContext
             (ioscheduler.mkEventContext (Some 0%nat) (Some 7%nat) None)
             ioscheduler.empty_ctx 3 READ)).
  { split; [right; left; reflexivity |].
    intros e [-> | ->]; split; intros H; vm_compute in H |- *;
      first [ reflexivity | discriminate H
            | exfalso; apply H; reflexivity | solve [eauto] ]. }
  let l := eval vm_compute in (ioscheduler.m_fdContexts reading3) in
  change (Forall ctx_ok l).
  repeat (constructor; [first [exact Hr | exact (ctx_ok_new _)] |]).
  constructor.
Qed.

Lemma addEvent_keeps_count_witness :
  (reactor_ok reading3 /\
   0 <= 3 < Z.of_nat (length (ioscheduler.m_fdContexts reading3))) /\
  exists r m',
    ioscheduler.addEvent 0 (7%nat, fiber.RUNNING) 3 WRITE None reading3
      = Ret (r, m') /\
    (r = 0 \/ r = -1) /\ reactor_ok m'.
Proof.
  assert (H2 : 0 <= 3 < Z.of_nat (length (ioscheduler.m_fdContexts reading3)))
    by (vm_compute; split; congruence).
  split; [split; [exact reading3_ok | exact H2] |].
  exact (addEvent_keeps_count 0 (7%nat, fiber.RUNNING) 3 WRITE None reading3
           reading3_ok (or_intror eq_refl) (or_intror eq_refl) (or_introl H2)).
Defined.

Lemma reactor_ok_frame (m m' : ioscheduler.IOManager) :
  ioscheduler.m_fdContexts m' = ioscheduler.m_fdContexts m ->
  ioscheduler.m_pendingEventCount m' = ioscheduler.m_pendingEventCount m ->
  reactor_ok m -> reactor_ok m'.
Proof. intros E1 E2 [H1 H2]. split; rewrite ?E1, ?E2; assumption. Qed.

(** [triggerEvent] followed by the decrement of the count, on a consistent
    reactor. *)
Lemma triggerEvent_dec_ok (i : nat) (event : Event)
    (m : ioscheduler.IOManager) (c : ioscheduler.FdContext) :
  reactor_ok m ->
  ioscheduler.m_fdContexts m !! i = Some c ->
  event = READ \/ event = WRITE ->
  Z.land (ioscheduler.events c) event <> 0 ->
  exists m',
    ioscheduler.triggerEvent i event m = Ret m' /\
    reactor_ok (ioscheduler.dec_pending m') /\
    ioscheduler.m_fdContexts m'
      = <[i := ioscheduler.setEventContext event ioscheduler.empty_ctx
                 (ioscheduler.set_events
                    (Z.land (ioscheduler.events c) (Z.lnot event)) c)]>
          (ioscheduler.m_fdContexts m) /\
    ioscheduler.m_epfd m' = ioscheduler.m_epfd m.
Proof.
  intros Hok Hc Hev Hbit.
  pose proof (reactor_ok_lookup m i c Hok Hc) as Hcok.
  pose proof (proj2 (proj2 Hcok event Hev) Hbit) as Hsc.
  rewrite (triggerEvent_effect i event m c Hc Hev Hbit Hsc).
  destruct (scheduleLock_frame (task_of (slot event c)) m)
    as (E1 & E2 & E3 & _).
  eexists. split; [reflexivity |]. simpl. split; [| auto].
  eapply (reactor_ok_update m _ i c _ (-1) Hok Hc
            (ctx_ok_clear event c Hcok Hev Hbit)).
  - reflexivity.
  - simpl. rewrite E2. reflexivity.
Qed.

Lemma trigger_if_ok (i : nat) (event : Event)
    (m : ioscheduler.IOManager) (c : ioscheduler.FdContext) :
  reactor_ok m ->
  ioscheduler.m_fdContexts m !! i = Some c ->
  event = READ \/ event = WRITE ->
  exists m' c',
    ioscheduler.trigger_if i event m = Ret m' /\
    reactor_ok m' /\
    ioscheduler.m_fdContexts m' !! i = Some c' /\
    ioscheduler.events c' = Z.land (ioscheduler.events c) (Z.lnot event).
Proof.
  intros Hok Hc Hev. unfold ioscheduler.trigger_if. rewrite Hc.
  destruct (Z.eqb_spec (Z.land (ioscheduler.events c) event) 0) as [E | E];
    simpl.
  - exists m, c.
    split; [reflexivity | split; [assumption | split; [assumption |]]].
    destruct (reactor_ok_lookup m i c Hok Hc) as [Hm _].
    destruct Hm as [H | [H | [H | H]]]; rewrite H in E |- *;
      destruct Hev as [-> | ->]; try reflexivity; discriminate E.
  - destruct (triggerEvent_dec_ok i event m c Hok Hc Hev E)
      as (m' & -> & Hok' & Htab & _).
    simpl. eexists _, _. split; [reflexivity |]. split; [exact Hok' |].
    simpl. rewrite Htab. split.
    + apply list_lookup_insert_eq. eapply lookup_lt_Some. eassumption.
    + rewrite events_setEventContext. reflexivity.
Qed.

(** X16. On a consistent reactor, [delEvent], [cancelEvent] and [cancelAll]
    on a descriptor that is not negative and an event READ or WRITE never
    fail an assertion nor dereference a null scheduler: each of them returns,
    and the reactor it leaves is consistent, its pending count still the
    number of registered events. *)
Theorem removal_keeps_count (fd : Z) (event : Event)
    (m : ioscheduler.IOManager) :
  reactor_ok m ->
  0 <= fd ->
  event = READ \/ event = WRITE ->
  (exists r m', ioscheduler.delEvent fd event m = Ret (r, m')
                /\ reactor_ok m') /\
  (exists r m', ioscheduler.cancelEvent fd event m = Ret (r, m')
                /\ reactor_ok m') /\
  (exists r m', ioscheduler.cancelAll fd m = Ret (r, m')
                /\ reactor_ok m').
Proof.
  intros Hok Hfd Hev.
  destruct (Z_lt_le_dec fd (Z.of_nat (length (ioscheduler.m_fdContexts m))))
    as [Hin | Hout].
  2: { unfold ioscheduler.delEvent, ioscheduler.cancelEvent,
         ioscheduler.cancelAll.
       rewrite (find_ctx_out fd m Hout). simpl.
       split; [| split]; exists false, m; auto. }
  destruct (lookup_lt_is_Some_2 (ioscheduler.m_fdContexts m) (Z.to_nat fd))
    as [c Hc]; [lia |].
  pose proof (reactor_ok_lookup m _ c Hok Hc) as Hcok.
  unfold ioscheduler.delEvent, ioscheduler.cancelEvent, ioscheduler.cancelAll.
  rewrite (find_ctx_in fd m c Hfd Hc). simpl.
  split; [| split].
  - destruct (Z.eqb_spec (Z.land (ioscheduler.events c) event) 0) as [E | E];
      [eauto |].
    destruct (epoll.epoll_ctl _ fd _ (ioscheduler.m_epfd m)) as [ep |];
      [| eauto].
    rewrite slot_getEventContext by assumption. simpl.
    eexists _, _. split; [reflexivity |].
    eapply (reactor_ok_update m _ (Z.to_nat fd) c _ (-1) Hok Hc
              (ctx_ok_clear event c Hcok Hev E)); reflexivity.
  - destruct (Z.eqb_spec (Z.land (ioscheduler.events c) event) 0) as [E | E];
      [eauto |].
    destruct (epoll.epoll_ctl _ fd _ (ioscheduler.m_epfd m)) as [ep |];
      [| eauto].
    match goal with |- context [ioscheduler.triggerEvent _ _ ?m1] =>
      rewrite (triggerEvent_effect (Z.to_nat fd) event m1 c Hc Hev E
                 (proj2 (proj2 Hcok event Hev) E))
    end.
    simpl. eexists _, _. split; [reflexivity |].
    eapply (reactor_ok_update m _ (Z.to_nat fd) c _ (-1) Hok Hc
              (ctx_ok_clear event c Hcok Hev E)); [reflexivity |].
    simpl.
    match goal with |- context [ioscheduler.scheduleLock ?t ?m1] =>
      destruct (scheduleLock_frame t m1) as (_ & -> & _)
    end.
    reflexivity.
  - destruct (Z.eqb_spec (ioscheduler.events c) 0) as [E | E]; [eauto |].
    destruct (epoll.epoll_ctl _ fd _ (ioscheduler.m_epfd m)) as [ep |];
      [| eauto].
    assert (Hok1 : reactor_ok (ioscheduler.set_m_epfd ep m))
      by (revert Hok; apply reactor_ok_frame; reflexivity).
    destruct (trigger_if_ok (Z.to_nat fd) READ (ioscheduler.set_m_epfd ep m) c
                Hok1 Hc (or_introl eq_refl))
      as (m1 & c1 & -> & Hok2 & Hc1 & Ev1).
    simpl.
    destruct (trigger_if_ok (Z.to_nat fd) WRITE m1 c1 Hok2 Hc1
                (or_intror eq_refl))
      as (m2 & c2 & -> & Hok3 & Hc2 & Ev2).
    simpl. rewrite Hc2, Ev2, Ev1.
    destruct Hcok as [[H | [H | [H | H]]] _]; rewrite H; simpl; eauto.
Qed.

Lemma removal_keeps_count_witness :
  (reactor_ok reading3 /\ 0 <= 3) /\
  (exists r m', ioscheduler.delEvent 3 READ reading3 = Ret (r, m')
                /\ reactor_ok m') /\
  (exists r m', ioscheduler.cancelEvent 3 READ reading3 = Ret (r, m')
                /\ reactor_ok m') /\
  (exists r m', ioscheduler.cancelAll 3 reading3 = Ret (r, m')
                /\ reactor_ok m').
Proof.
  assert (H0 : 0 <= 3) by (vm_compute; congruence).
  split; [split; [exact reading3_ok | exact H0] |].
  exact (removal_keeps_count 3 READ reading3 reading3_ok H0
           (or_introl eq_refl)).
Defined.

(** * ioscheduler: cancelAll and the events the poller reports *)

Lemma scheduleLock_waited (e : ioscheduler.EventContext)
    (m : ioscheduler.IOManager) :
  waited e ->
  scheduler.m_tasks
    (ioscheduler.base_Scheduler (ioscheduler.scheduleLock (task_of e) m))
    = scheduler.m_tasks (ioscheduler.base_Scheduler m) ++ [task_of e].
Proof.
  intros Hw. destruct (scheduleLock_frame (task_of e) m) as (_ & _ & _ & _ & ->).
  f_equal. unfold task_of.
  destruct (ioscheduler.cb e) as [f |] eqn:Ecb; simpl.
  - reflexivity.
  - destruct Hw as [Hf | [f Hf]]; [| congruence].
    now rewrite (bool_decide_eq_true_2 _ Hf).
Qed.

(** [trigger_if] on a consistent context whose registered slots are waited
    in. *)
Lemma trigger_if_effect (i : nat) (event : Event)
    (m : ioscheduler.IOManager) (c : ioscheduler.FdContext) :
  ioscheduler.m_fdContexts m !! i = Some c ->
  event = READ \/ event = WRITE ->
  ctx_ok c ->
  (Z.land (ioscheduler.events c) event <> 0 -> waited (slot event c)) ->
  exists m',
    ioscheduler.trigger_if i event m = Ret m' /\
    scheduler.m_tasks (ioscheduler.base_Scheduler m')
      = scheduler.m_tasks (ioscheduler.base_Scheduler m) ++ woken event c /\
    ioscheduler.m_fdContexts m'
      = <[i := if Z.land (ioscheduler.events c) event =? 0 then c
               else ioscheduler.setEventContext event ioscheduler.empty_ctx
                      (ioscheduler.set_events
                         (Z.land (ioscheduler.events c) (Z.lnot event)) c)]>
          (ioscheduler.m_fdContexts m) /\
    ioscheduler.m_pendingEventCount m'
      = (if Z.land (ioscheduler.events c) event =? 0
         then ioscheduler.m_pendingEventCount m
         else wrap64 (ioscheduler.m_pendingEventCount m - 1)) /\
    ioscheduler.base_TimerManager m' = ioscheduler.base_TimerManager m /\
    ioscheduler.m_epfd m' = ioscheduler.m_epfd m.
Proof.
  intros Hc Hev Hcok Hw. unfold ioscheduler.trigger_if, woken. rewrite Hc.
  destruct (Z.eqb_spec (Z.land (ioscheduler.events c) event) 0) as [E | E];
    simpl.
  - exists m. rewrite app_nil_r, list_insert_id by assumption.
    repeat split; reflexivity.
  - rewrite (triggerEvent_effect i event m c Hc Hev E
               (proj2 (proj2 Hcok event Hev) E)).
    simpl. eexists. split; [reflexivity |]. simpl.
    rewrite (scheduleLock_waited _ m (Hw E)).
    destruct (scheduleLock_frame (task_of (slot event c)) m)
      as (_ & -> & -> & -> & _).
    repeat split; reflexivity.
Qed.

(** [cancelAll] on a context with an event registered, which the poller
    lets go. *)
Lemma cancelAll_registered (fd : Z) (m : ioscheduler.IOManager)
    (c : ioscheduler.FdContext) :
  0 <= fd ->
  ioscheduler.m_fdContexts m !! Z.to_nat fd = Some c ->
  ctx_ok c ->
  ioscheduler.events c <> 0 ->
  (forall event, event = READ \/ event = WRITE ->
     Z.land (ioscheduler.events c) event <> 0 -> waited (slot event c)) ->
  fd ∈ epoll.pollable (ioscheduler.m_epfd m) ->
  is_Some (epoll.interest (ioscheduler.m_epfd m) !! fd) ->
  exists m',
    ioscheduler.cancelAll fd m = Ret (true, m') /\
    scheduler.m_tasks (ioscheduler.base_Scheduler m')
      = scheduler.m_tasks (ioscheduler.base_Scheduler m)
        ++ woken READ c ++ woken WRITE c /\
    ioscheduler.m_fdContexts m'
      = <[Z.to_nat fd := ioscheduler.mkFdContext ioscheduler.empty_ctx
                           ioscheduler.empty_ctx (ioscheduler.fd c) NONE]>
          (ioscheduler.m_fdContexts m) /\
    ioscheduler.m_pendingEventCount m'
      = wrap64 (wrap64 (ioscheduler.m_pendingEventCount m) - registered c) /\
    epoll.interest (ioscheduler.m_epfd m') !! fd = None /\
    ioscheduler.base_TimerManager m' = ioscheduler.base_TimerManager m.
Proof.
  intros Hfd Hc Hcok Hne Hw Hpoll [x Hint].
  assert (Hlen : (Z.to_nat fd < length (ioscheduler.m_fdContexts m))%nat)
    by (eapply lookup_lt_Some; eassumption).
  unfold ioscheduler.cancelAll. rewrite (find_ctx_in fd m c Hfd Hc). simpl.
  destruct (Z.eqb_spec (ioscheduler.events c) 0) as [| _]; [contradiction |].
  unfold epoll.epoll_ctl. rewrite (bool_decide_eq_true_2 _ Hpoll), Hint.
  match goal with |- context [ioscheduler.set_m_epfd ?ep m] =>
    set (m0 := ioscheduler.set_m_epfd ep m) end.
  destruct (trigger_if_effect (Z.to_nat fd) READ m0 c Hc (or_introl eq_refl)
              Hcok (Hw READ (or_introl eq_refl)))
    as (m1 & -> & Ht1 & Htab1 & Hp1 & Htm1 & Hep1).
  simpl.
  set (c1 := if Z.land (ioscheduler.events c) READ =? 0 then c
             else ioscheduler.setEventContext READ ioscheduler.empty_ctx
                    (ioscheduler.set_events
                       (Z.land (ioscheduler.events c) (Z.lnot READ)) c)) in *.
  assert (Hc1 : ioscheduler.m_fdContexts m1 !! Z.to_nat fd = Some c1)
    by (rewrite Htab1; now apply list_lookup_insert_eq).
  assert (Hshape : ctx_ok c1 /\
            woken WRITE c1 = woken WRITE c /\
            (Z.land (ioscheduler.events c1) WRITE <> 0 ->
             waited (slot WRITE c1)) /\
            (if Z.land (ioscheduler.events c1) WRITE =? 0 then c1
             else ioscheduler.setEventContext WRITE ioscheduler.empty_ctx
                    (ioscheduler.set_events
                       (Z.land (ioscheduler.events c1) (Z.lnot WRITE)) c1))
              = ioscheduler.mkFdContext ioscheduler.empty_ctx
                  ioscheduler.empty_ctx (ioscheduler.fd c) NONE /\
            (if Z.land (ioscheduler.events c1) WRITE =? 0
             then (if Z.land (ioscheduler.events c) READ =? 0
                   then ioscheduler.m_pendingEventCount m
                   else wrap64 (ioscheduler.m_pendingEventCount m - 1))
             else wrap64
                    ((if Z.land (ioscheduler.events c) READ =? 0
                      then ioscheduler.m_pendingEventCount m
                      else wrap64 (ioscheduler.m_pendingEventCount m - 1)) - 1))
              = wrap64 (wrap64 (ioscheduler.m_pendingEventCount m)
                        - registered c)).
  { pose proof (Hw WRITE (or_intror eq_refl)) as HwW.
    assert (Hcnt : forall p, wrap64 (wrap64 (p - 1) - 1) = wrap64 (wrap64 p - 2)
                             /\ wrap64 (p - 1) = wrap64 (wrap64 p - 1)).
    { intros p. unfold wrap64. rewrite !Zminus_mod_idemp_l.
      split; f_equal; lia. }
    clear Hc1.
    destruct (Z.eqb_spec (Z.land (ioscheduler.events c) READ) 0) as [E | E].
    - subst c1. split; [assumption |]. split; [reflexivity |].
      split; [assumption |].
      clear Hc Hw HwW. ctx_cases c Hcok; simpl in E, Hne;
        try discriminate E; try contradiction.
      unfold registered, ioscheduler.setEventContext, ioscheduler.set_events.
      simpl. rewrite (R0 eq_refl). split; [reflexivity |]. apply Hcnt.
    - destruct (ctx_ok_clear READ c Hcok (or_introl eq_refl) E) as [Hok1 _].
      fold c1 in Hok1. split; [assumption |].
      clear Hc Hw Hok1. subst c1. ctx_cases c Hcok; simpl in E;
        try (exfalso; apply E; reflexivity);
        unfold woken, slot, registered, ioscheduler.setEventContext,
          ioscheduler.set_events in *; simpl in *.
      + split; [reflexivity |]. split; [intros H; contradiction |].
        rewrite (W0 eq_refl). split; [reflexivity |]. apply Hcnt.
      + split; [reflexivity |]. split; [intros _; apply HwW; discriminate |].
        split; [reflexivity |]. apply Hcnt. }
  destruct Hshape as (Hok1 & Hwk & Hw1 & Hfinal & Hcount).
  destruct (trigger_if_effect (Z.to_nat fd) WRITE m1 c1 Hc1 (or_intror eq_refl)
              Hok1 Hw1)
    as (m2 & -> & Ht2 & Htab2 & Hp2 & Htm2 & Hep2).
  simpl. rewrite Htab2, Hfinal, list_lookup_insert_eq
    by (rewrite Htab1, length_insert; exact Hlen).
  simpl. eexists. split; [reflexivity |].
  rewrite Ht2, Ht1, Hwk, <- app_assoc.
  split; [reflexivity |]. split.
  - rewrite Htab2, Hfinal, Htab1, list_insert_insert_eq. reflexivity.
  - split; [rewrite Hp2, Hp1; exact Hcount |]. split.
    + rewrite Hep2, Hep1. simpl. apply lookup_delete_eq.
    + rewrite Htm2, Htm1. reflexivity.
Qed.

(** X17. [cancelAll] on a consistent context with an event registered, whose
    registered slots are waited in, when the poller accepts the removal: it
    returns [true], queues the waiter of READ and then the waiter of WRITE
    (those that are registered), leaves the context with no event and two
    empty slots, and takes the registered events off the pending count. *)
Theorem cancelAll_wakes (fd : Z) (m : ioscheduler.IOManager)
    (c : ioscheduler.FdContext) :
  0 <= fd ->
  ioscheduler.m_fdContexts m !! Z.to_nat fd = Some c ->
  ctx_ok c ->
  ioscheduler.events c <> 0 ->
  (forall event, event = READ \/ event = WRITE ->
     Z.land (ioscheduler.events c) event <> 0 -> waited (slot event c)) ->
  fd ∈ epoll.pollable (ioscheduler.m_epfd m) ->
  is_Some (epoll.interest (ioscheduler.m_epfd m) !! fd) ->
  exists m',
    ioscheduler.cancelAll fd m = Ret (true, m') /\
    scheduler.m_tasks (ioscheduler.base_Scheduler m')
      = scheduler.m_tasks (ioscheduler.base_Scheduler m)
        ++ woken READ c ++ woken WRITE c /\
    ioscheduler.m_fdContexts m'
      = <[Z.to_nat fd := ioscheduler.mkFdContext ioscheduler.empty_ctx
                           ioscheduler.empty_ctx (ioscheduler.fd c) NONE]>
          (ioscheduler.m_fdContexts m) /\
    ioscheduler.m_pendingEventCount m'
      = wrap64 (wrap64 (ioscheduler.m_pendingEventCount m) - registered c) /\
    epoll.interest (ioscheduler.m_epfd m') !! fd = None /\
    ioscheduler.base_TimerManager m' = ioscheduler.base_TimerManager m.
Proof. exact (cancelAll_registered fd m c). Qed.

Lemma cancelAll_wakes_witness :
  (ioscheduler.m_fdContexts both3 !! Z.to_nat 3
     = Some (ioscheduler.mkFdContext
               (ioscheduler.mkEventContext (Some 0%nat) (Some 7%nat) None)
               (ioscheduler.mkEventContext (Some 0%nat) None (Some (UserCb 8)))
               3 5)
   /\ 3 ∈ epoll.pollable (ioscheduler.m_epfd both3)) /\
  exists m',
    ioscheduler.cancelAll 3 both3 = Ret (true, m') /\
    scheduler.m_tasks (ioscheduler.base_Scheduler m')
      = [scheduler.mkScheduleTask (Some 7%nat) None (-1);
         scheduler.mkScheduleTask None (Some (UserCb 8)) (-1)] /\
    ioscheduler.m_pendingEventCount m' = 0.
Proof.
  set (c := ioscheduler.mkFdContext
               (ioscheduler.mkEventContext (Some 0%nat) (Some 7%nat) None)
               (ioscheduler.mkEventContext (Some 0%nat) None (Some (UserCb 8)))
               3 5).
  assert (H0 : 0 <= 3) by (vm_compute; congruence).
  assert (H1 : ioscheduler.m_fdContexts both3 !! Z.to_nat 3 = Some c)
    by (vm_compute; reflexivity).
  assert (H2 : ctx_ok c).
  { split; [right; right; right; reflexivity |].
    intros e [-> | ->]; split; intros H; vm_compute in H |- *;
      first [ discriminate H | solve [eauto] ]. }
  assert (H3 : ioscheduler.events c <> 0) by (vm_compute; congruence).
  assert (H4 : forall event, event = READ \/ event = WRITE ->
            Z.land (ioscheduler.events c) event <> 0 -> waited (slot event c)).
  { intros e [-> | ->] _; [left | right]; vm_compute; eauto. }
  assert (H5 : 3 ∈ epoll.pollable (ioscheduler.m_epfd both3))
    by (apply (bool_decide_unpack _); vm_compute; exact I).
  assert (H6 : is_Some (epoll.interest (ioscheduler.m_epfd both3) !! 3))
    by (apply (bool_decide_unpack _); vm_compute; exact I).
  split; [split; [exact H1 | exact H5] |].
  destruct (cancelAll_wakes 3 both3 c H0 H1 H2 H3 H4 H5 H6)
    as (m' & Ha & Hb & _ & Hc & _).
  exists m'. split; [exact Ha |]. split; [exact Hb | exact Hc].
Defined.

(** The two guarded [triggerEvent] calls that end the loop body of [idle]. *)
Lemma trigger_when (b : bool) (i : nat) (event : Event)
    (m : ioscheduler.IOManager) (c : ioscheduler.FdContext) :
  reactor_ok m ->
  ioscheduler.m_fdContexts m !! i = Some c ->
  event = READ \/ event = WRITE ->
  (b = true -> Z.land (ioscheduler.events c) event <> 0) ->
  exists m' c',
    (if b then m' ← ioscheduler.triggerEvent i event m;
               Ret (ioscheduler.dec_pending m')
     else Ret m) = Ret m' /\
    reactor_ok m' /\
    ioscheduler.m_fdContexts m' !! i = Some c' /\
    ioscheduler.events c'
      = (if b then Z.land (ioscheduler.events c) (Z.lnot event)
         else ioscheduler.events c).
Proof.
  intros Hok Hc Hev Hb. destruct b.
  - destruct (triggerEvent_dec_ok i event m c Hok Hc Hev (Hb eq_refl))
      as (m' & -> & Hok' & Htab & _).
    simpl. eexists _, _. split; [reflexivity |]. split; [exact Hok' |].
    simpl. rewrite Htab. split.
    + apply list_lookup_insert_eq. eapply lookup_lt_Some. eassumption.
    + rewrite events_setEventContext. reflexivity.
  - exists m, c. auto.
Qed.

(** X18. The body of the loop of [idle] over the ready events, on a
    consistent reactor, for a context of which the poller reports
    [EPOLLIN] only if READ is registered and [EPOLLOUT] only if WRITE is
    (error and hang-up bits as it likes): no assertion of [triggerEvent]
    fails, and the reactor it leaves is consistent, its pending count still
    the number of registered events. *)
Theorem idle_event_keeps_count (i : nat) (revents : Z)
    (m : ioscheduler.IOManager) (c : ioscheduler.FdContext) :
  reactor_ok m ->
  ioscheduler.m_fdContexts m !! i = Some c ->
  (Z.land revents epoll.EPOLLIN <> 0 ->
   Z.land (ioscheduler.events c) READ <> 0) ->
  (Z.land revents epoll.EPOLLOUT <> 0 ->
   Z.land (ioscheduler.events c) WRITE <> 0) ->
  exists m', ioscheduler.idle_event i revents m = Ret m' /\ reactor_ok m'.
Proof.
  intros Hok Hc Hin Hout. unfold ioscheduler.idle_event. rewrite Hc.
  pose proof (reactor_ok_lookup m i c Hok Hc) as Hcok.
  set (ev := if negb (Z.land revents (Z.lor epoll.EPOLLERR epoll.EPOLLHUP) =? 0)
             then Z.lor revents
                    (Z.land (Z.lor epoll.EPOLLIN epoll.EPOLLOUT)
                       (ioscheduler.events c))
             else revents).
  assert (Hev : (Z.land ev epoll.EPOLLIN <> 0 ->
                 Z.land (ioscheduler.events c) READ <> 0) /\
                (Z.land ev epoll.EPOLLOUT <> 0 ->
                 Z.land (ioscheduler.events c) WRITE <> 0)).
  { subst ev. destruct (negb _); [| auto].
    unfold epoll.EPOLLIN, epoll.EPOLLOUT in *.
    destruct Hcok as [[E | [E | [E | E]]] _]; rewrite E in *;
      split; intros H; rewrite Z.land_lor_distr_l in H; simpl in H;
      first [ discriminate
            | rewrite Z.lor_0_r in H; auto ]. }
  clearbody ev. destruct Hev as [Hr Hw].
  set (real0 := if negb (Z.land ev epoll.EPOLLIN =? 0) then Z.lor NONE READ
                else NONE).
  set (real_events := if negb (Z.land ev epoll.EPOLLOUT =? 0)
                      then Z.lor real0 WRITE else real0).
  assert (Hreal : (negb (Z.land real_events READ =? 0) = true ->
                   Z.land (ioscheduler.events c) READ <> 0) /\
                  (negb (Z.land real_events WRITE =? 0) = true ->
                   Z.land (ioscheduler.events c) WRITE <> 0)).
  { subst real_events real0.
    destruct (Z.eqb_spec (Z.land ev epoll.EPOLLIN) 0),
             (Z.eqb_spec (Z.land ev epoll.EPOLLOUT) 0); simpl;
      split; intros H; first [discriminate H | auto]. }
  clearbody real_events. clear real0. destruct Hreal as [HR HW].
  destruct (Z.land (ioscheduler.events c) real_events =? NONE); [eauto |].
  destruct (epoll.epoll_ctl _ _ _ (ioscheduler.m_epfd m)) as [ep |];
    [| eauto].
  assert (Hok0 : reactor_ok (ioscheduler.set_m_epfd ep m))
    by (revert Hok; apply reactor_ok_frame; reflexivity).
  destruct (trigger_when (negb (Z.land real_events READ =? 0)) i READ
              (ioscheduler.set_m_epfd ep m) c Hok0 Hc (or_introl eq_refl) HR)
    as (m1 & c1 & -> & Hok1 & Hc1 & Ev1).
  simpl.
  destruct (trigger_when (negb (Z.land real_events WRITE =? 0)) i WRITE
              m1 c1 Hok1 Hc1 (or_intror eq_refl))
    as (m2 & c2 & E2 & Hok2 & _).
  { intros Hb. specialize (HW Hb). rewrite Ev1.
    destruct (negb (Z.land real_events READ =? 0)); [| exact HW].
    destruct Hcok as [[E | [E | [E | E]]] _]; rewrite E in *;
      first [ discriminate | exfalso; apply HW; reflexivity ]. }
  exists m2. split; [exact E2 | exact Hok2].
Qed.

Lemma idle_event_keeps_count_witness :
  (reactor_ok reading3 /\
   ioscheduler.m_fdContexts reading3 !! 3%nat
     = Some (ioscheduler.mkFdContext
               (ioscheduler.mkEventContext (Some 0%nat) (Some 7%nat) None)
               ioscheduler.empty_ctx 3 READ)) /\
  exists m',
    ioscheduler.idle_event 3 (Z.lor epoll.EPOLLIN epoll.EPOLLHUP) reading3
      = Ret m' /\ reactor_ok m'.
Proof.
  assert (H1 : ioscheduler.m_fdContexts reading3 !! 3%nat
     = Some (ioscheduler.mkFdContext
               (ioscheduler.mkEventContext (Some 0%nat) (Some 7%nat) None)
               ioscheduler.empty_ctx 3 READ)) by (vm_compute; reflexivity).
  split; [split; [exact reading3_ok | exact H1] |].
  apply (idle_event_keeps_count 3 (Z.lor epoll.EPOLLIN epoll.EPOLLHUP)
           reading3 _ reading3_ok H1).
  - intros _. vm_compute. congruence.
  - intros H. exfalso. apply H. reflexivity.
Defined.

(** * timer: cancelling a timer the set refused *)

Lemma set_find_ext (os : list Timer) (x x' : nat) (s : list nat) :
  m_next (timer_at os x) = m_next (timer_at os x') ->
  set_find os x s = set_find os x' s.
Proof.
  intros E. induction s as [| y s IH]; simpl; [reflexivity |].
  unfold less, Comparator in *. rewrite E, IH. reflexivity.
Qed.

(** X19. When a timer of the set is due at the very instant a new timer is
    armed for, [addTimer] leaves the set as it is (the new timer is not a
    member), and [cancel] on the new timer returns [true] and erases the
    other timer from the set: that timer keeps its callback, is not
    cancelled, and will never fire. *)
Theorem cancel_erases_equal_deadline (ms : Z) (cb : Callback)
    (recurring : bool) (now : Z) (a : nat) (tm : TimerManager) :
  set_ok tm -> handles_ok tm ->
  a ∈ m_timers tm ->
  m_next (timer_at (objs tm) a) = now + milliseconds ms ->
  exists b tm1 at_front tm2,
    addTimer ms (Some cb) recurring now tm = (b, tm1, at_front) /\
    b <> a /\ m_timers tm1 = m_timers tm /\
    Timer_cancel b tm1 = (true, tm2) /\
    (a ∉ m_timers tm2) /\
    timer_at (objs tm2) a = timer_at (objs tm) a /\
    length (m_timers tm2) = pred (length (m_timers tm)).
Proof.
  intros Hok Hv Ha Hd.
  assert (Hlt : forall y, y ∈ m_timers tm -> (y < length (objs tm))%nat)
    by (unfold handles_ok in Hv; rewrite Forall_forall in Hv; exact Hv).
  unfold addTimer, addTimer_ptr. simpl.
  set (b := length (objs tm)).
  set (os := objs tm ++ [Timer_new ms (Some cb) recurring now]).
  assert (Hold : forall y, y ∈ m_timers tm -> timer_at os y = timer_at (objs tm) y).
  { intros y Hy. unfold os, timer_at. now rewrite lookup_app_l by auto. }
  assert (Hnew : timer_at os b = Timer_new ms (Some cb) recurring now).
  { unfold os, timer_at, b. rewrite lookup_app_r by lia.
    now rewrite Nat.sub_diag. }
  assert (Hs : StronglySorted (fun x y => less os x y = true) (m_timers tm)).
  { apply (sorted_ext (objs tm)); [| exact Hok].
    intros y Hy. now rewrite Hold. }
  assert (Heq : m_next (timer_at os b) = m_next (timer_at os a))
    by (rewrite Hnew, Hold, Hd by assumption; reflexivity).
  destruct (set_insert_equal_deadline os b a (m_timers tm) Hs Ha Heq)
    as [Hset _].
  destruct (set_insert os b (m_timers tm)) as [s [it ins]] eqn:Ei.
  simpl in Hset. subst s.
  assert (Hba : b <> a) by (specialize (Hlt a Ha); unfold b; lia).
  set (os' := <[b := set_m_cb None (Timer_new ms (Some cb) recurring now)]> os).
  assert (Hb : (b < length os)%nat)
    by (unfold os, b; rewrite length_app; simpl; lia).
  assert (Hs' : StronglySorted (fun x y => less os' x y = true) (m_timers tm)).
  { apply (sorted_ext os); [| exact Hs]. intros y Hy. unfold os'.
    rewrite timer_at_insert_ne; [reflexivity |].
    specialize (Hlt y Hy). unfold b. lia. }
  assert (Heq' : m_next (timer_at os' b) = m_next (timer_at os' a)).
  { unfold os'. rewrite timer_at_insert_eq by exact Hb.
    rewrite timer_at_insert_ne by exact Hba.
    rewrite <- Heq, Hnew. reflexivity. }
  destruct (set_find_member os' a (m_timers tm) Hs' Ha) as (i & Hf & Hi).
  eexists _, _, _, _. split; [reflexivity |].
  split; [exact Hba |]. split; [reflexivity |].
  unfold Timer_cancel. simpl. rewrite Hnew. simpl. fold os'.
  rewrite (set_find_ext os' b a _ Heq'), Hf.
  split; [reflexivity |]. simpl.
  split; [now apply (set_find_erase os' a) |]. split.
  - unfold os'. rewrite timer_at_insert_ne by exact Hba. now apply Hold.
  - rewrite length_delete by eauto. lia.
Qed.

Lemma cancel_erases_equal_deadline_witness :
  (set_ok three_timers /\ handles_ok three_timers /\
   1%nat ∈ m_timers three_timers) /\
  exists b tm1 at_front tm2,
    addTimer 5 (Some (UserCb 9)) false 0 three_timers = (b, tm1, at_front) /\
    b <> 1%nat /\ m_timers tm1 = m_timers three_timers /\
    Timer_cancel b tm1 = (true, tm2) /\
    (1%nat ∉ m_timers tm2) /\
    timer_at (objs tm2) 1 = timer_at (objs three_timers) 1 /\
    length (m_timers tm2) = pred (length (m_timers three_timers)).
Proof.
  assert (H1 : set_ok three_timers) by (repeat constructor).
  assert (H2 : handles_ok three_timers) by (repeat constructor).
  assert (H3 : 1%nat ∈ m_timers three_timers)
    by (simpl; apply elem_of_cons; right; apply elem_of_cons; now left).
  split; [auto |].
  exact (cancel_erases_equal_deadline 5 (UserCb 9) false 0 1 three_timers
           H1 H2 H3 eq_refl).
Defined.

(** * fd_manager, hook: contexts are never closed *)

Lemma never_closed_resize (n : nat) (l : list (option fd_manager.FdCtx))
    (i : nat) (c : fd_manager.FdCtx) :
  fd_manager.resize n None l !! i = Some (Some c) -> l !! i = Some (Some c).
Proof.
  unfold fd_manager.resize. intros H.
  apply lookup_app_Some in H as [H | [_ H]].
  - apply lookup_take_Some in H as [H _]. exact H.
  - apply lookup_replicate in H as [H _]. discriminate H.
Qed.

Lemma never_closed_store (l : list (option fd_manager.FdCtx)) (j : nat)
    (c : fd_manager.FdCtx) :
  fd_manager.m_isClosed c = false ->
  never_closed (fd_manager.mkFdManager l) ->
  never_closed (fd_manager.mkFdManager (<[j := Some c]> l)).
Proof.
  intros Hc Hn i c' H. simpl in H.
  apply list_lookup_insert_Some in H as [(-> & E & _) | (_ & H)].
  - injection E as <-. exact Hc.
  - exact (Hn i c' H).
Qed.

Lemma FdCtx_new_open (st : fd_manager.fd_stat) (fd : Z) :
  fd_manager.m_isClosed (fd_manager.FdCtx_new st fd) = false.
Proof. destruct st; reflexivity. Qed.

Lemma get_create_open (st : fd_manager.fd_stat) (fd : Z)
    (m m' : fd_manager.FdManager) (o : option fd_manager.FdCtx)
    (tr : list fd_manager.step) :
  never_closed m ->
  fd_manager.get_create st fd m = Ret (o, m', tr) ->
  never_closed m' /\ forall c, o = Some c -> fd_manager.m_isClosed c = false.
Proof.
  intros Hn. unfold fd_manager.get_create.
  destruct (fd_manager.size m <=? wrap64 fd).
  - unfold times_1_5. destruct (fd <? 0); [discriminate |]. simpl.
    destruct (_ && _); [| discriminate]. intros [= <- <- _]. split.
    + apply never_closed_store; [apply FdCtx_new_open |].
      intros i c H. simpl in H. apply never_closed_resize in H.
      exact (Hn i c H).
    + intros c [= <-]. apply FdCtx_new_open.
  - simpl. destruct (_ && _); [| discriminate]. intros [= <- <- _]. split.
    + apply never_closed_store; [apply FdCtx_new_open |].
      destruct m. exact Hn.
    + intros c [= <-]. apply FdCtx_new_open.
Qed.

Lemma get_open (st : fd_manager.fd_stat) (fd : Z) (auto_create : bool)
    (m m' : fd_manager.FdManager) (o : option fd_manager.FdCtx)
    (tr : list fd_manager.step) :
  never_closed m ->
  fd_manager.get st fd auto_create m = Ret (o, m', tr) ->
  never_closed m' /\ forall c, o = Some c -> fd_manager.m_isClosed c = false.
Proof.
  intros Hn. unfold fd_manager.get.
  destruct (fd =? -1).
  { intros [= <- <- _]. split; [exact Hn | discriminate]. }
  destruct (fd_manager.size m <=? wrap64 fd).
  { destruct auto_create; simpl; [now apply get_create_open |].
    intros [= <- <- _]. split; [exact Hn | discriminate]. }
  destruct (fd_manager.m_datas m !! Z.to_nat fd) as [p |] eqn:Ep;
    [| discriminate].
  destruct (bool_decide (is_Some p) || negb auto_create);
    [| now apply get_create_open].
  intros [= <- <- _]. split; [exact Hn |].
  intros c ->. exact (Hn _ c Ep).
Qed.

Lemma del_open (fd : Z) (m : fd_manager.FdManager) :
  never_closed m -> never_closed (fd_manager.del fd m).
Proof.
  intros Hn. unfold fd_manager.del.
  destruct (fd_manager.size m <=? wrap64 fd); [exact Hn |].
  intros i c H. simpl in H.
  apply list_lookup_insert_Some in H as [(_ & E & _) | (_ & H)];
    [discriminate E | exact (Hn i c H)].
Qed.

Lemma FdManager_new_open : never_closed fd_manager.FdManager_new.
Proof.
  intros i c H. unfold fd_manager.FdManager_new in H.
  cbn [fd_manager.m_datas] in H.
  apply lookup_replicate in H as [H _]. discriminate H.
Qed.

(** X20. Nothing marks a context closed: the registry starts without a
    closed context, and [get] and [del] keep it so; the context [get]
    returns is not closed, and the setters of a context leave the mark
    alone. *)
Theorem closed_is_never_set (st : fd_manager.fd_stat) (fd : Z)
    (auto_create : bool) (m m' : fd_manager.FdManager)
    (o : option fd_manager.FdCtx) (tr : list fd_manager.step) :
  never_closed m ->
  fd_manager.get st fd auto_create m = Ret (o, m', tr) ->
  never_closed m' /\
  (forall c, o = Some c ->
     fd_manager.m_isClosed c = false /\
     (forall type v, fd_manager.m_isClosed (fd_manager.setTimeout type v c)
                     = false) /\
     (forall v, fd_manager.m_isClosed (fd_manager.setUserNonblock v c) = false) /\
     (forall v, fd_manager.m_isClosed (fd_manager.setSysNonblock v c) = false)) /\
  never_closed (fd_manager.del fd m') /\
  never_closed fd_manager.FdManager_new.
Proof.
  intros Hn Hg. destruct (get_open st fd auto_create m m' o tr Hn Hg)
    as [Hn' Ho].
  split; [exact Hn' |]. split; [| split].
  - intros c Hc. specialize (Ho c Hc). split; [exact Ho |]. split; [| split].
    + intros type v. unfold fd_manager.setTimeout.
      destruct (type =? fd_manager.SO_RCVTIMEO); exact Ho.
    + intros v. exact Ho.
    + intros v. exact Ho.
  - now apply del_open.
  - exact FdManager_new_open.
Qed.

Lemma closed_is_never_set_witness :
  exists o m' tr,
    fd_manager.get fd_manager.StatSocket 70 true fd_manager.FdManager_new
      = Ret (o, m', tr) /\
    never_closed m' /\
    (forall c, o = Some c -> fd_manager.m_isClosed c = false).
Proof.
  eexists _, _, _. split; [vm_compute; reflexivity |].
  destruct (closed_is_never_set fd_manager.StatSocket 70 true
              fd_manager.FdManager_new _ _ _ FdManager_new_open
              ltac:(vm_compute; reflexivity)) as (H1 & H2 & _).
  split; [exact H1 |]. intros c Hc. exact (proj1 (H2 c Hc)).
Defined.

(** X21. With no context marked closed, [do_io] never returns before the
    original function has answered: when the environment has no answer to
    give, no run of [do_io] returns a value (the exit with [EBADF] is out of
    reach). *)
Theorem do_io_calls_original (this_sched self : nat)
    (resumes : list (hook.World -> hook.World)) (fd event timeout_so : Z)
    (w : hook.World) :
  never_closed (hook.FdMgr w) ->
  forall r w',
    hook.do_io this_sched self resumes [] fd event timeout_so w <> Ret (r, w').
Proof.
  intros Hn r w'. unfold hook.do_io.
  destruct (hook.t_hook_enable w); simpl; [| discriminate].
  destruct (fd_manager.get fd_manager.StatFails fd false (hook.FdMgr w))
    as [[[o m'] tr] | | |] eqn:Eg; simpl; try discriminate.
  destruct o as [c |]; [| discriminate].
  destruct (get_open _ _ _ _ _ _ _ Hn Eg) as [_ Ho].
  rewrite (Ho c eq_refl).
  destruct (negb (fd_manager.m_isSocket c) || fd_manager.m_userNonblock c);
    [discriminate |].
  destruct resumes; simpl; discriminate.
Qed.

Lemma do_io_calls_original_witness :
  never_closed (hook.FdMgr before_recv3) /\
  forall r w',
    hook.do_io 0 7 [] [] 3 READ fd_manager.SO_RCVTIMEO before_recv3
      <> Ret (r, w').
Proof.
  assert (H : never_closed (hook.FdMgr before_recv3)).
  { apply never_closed_store; [reflexivity |]. exact FdManager_new_open. }
  split; [exact H |].
  exact (do_io_calls_original 0 7 [] 3 READ fd_manager.SO_RCVTIMEO
           before_recv3 H).
Defined.

(** * hook: the calls [do_io] passes through, and the interrupted ones *)

Lemma get_stored (st : fd_manager.fd_stat) (fd : Z)
    (m : fd_manager.FdManager) (p : option fd_manager.FdCtx) :
  0 <= fd ->
  fd_manager.m_datas m !! Z.to_nat fd = Some p ->
  fd_manager.get st fd false m
    = Ret (p, m, [fd_manager.LockShared; fd_manager.UnlockShared]).
Proof.
  intros Hfd Hp. unfold fd_manager.get.
  destruct (Z.eqb_spec fd (-1)); [lia |].
  assert (Hlt : (Z.to_nat fd < length (fd_manager.m_datas m))%nat)
    by (eapply lookup_lt_Some; eassumption).
  assert (Hw : wrap64 fd <= fd)
    by (unfold wrap64; apply Z.mod_le; [lia | reflexivity]).
  unfold fd_manager.size.
  destruct (Z.leb_spec (Z.of_nat (length (fd_manager.m_datas m))) (wrap64 fd));
    [lia |].
  rewrite Hp. simpl. now rewrite orb_true_r.
Qed.

(** The ways of [do_io] to the plain call of the original function. *)
Lemma do_io_original (this_sched self : nat)
    (resumes : list (hook.World -> hook.World)) (r : hook.raw_result)
    (calls : list hook.raw_result) (fd event timeout_so : Z)
    (w : hook.World) :
  hook.t_hook_enable w = false \/
  fd = -1 \/
  fd_manager.size (hook.FdMgr w) <= wrap64 fd \/
  (0 <= fd /\
   fd_manager.m_datas (hook.FdMgr w) !! Z.to_nat fd = Some None) \/
  (exists c,
     0 <= fd /\
     fd_manager.m_datas (hook.FdMgr w) !! Z.to_nat fd = Some (Some c) /\
     fd_manager.m_isClosed c = false /\
     (fd_manager.m_isSocket c = false \/
      fd_manager.m_userNonblock c = true)) ->
  hook.do_io this_sched self resumes (r :: calls) fd event timeout_so w
    = Ret (hook.ret r, hook.set_errno (hook.err r) w).
Proof.
  intros H. unfold hook.do_io.
  destruct (hook.t_hook_enable w) eqn:En; simpl; [| reflexivity].
  destruct H as [H | [-> | [H | [[Hfd H] | (c & Hfd & H & Hcl & Hp)]]]].
  - discriminate H.
  - reflexivity.
  - unfold fd_manager.get.
    destruct (fd =? -1); [reflexivity |].
    destruct (Z.leb_spec (fd_manager.size (hook.FdMgr w)) (wrap64 fd));
      [reflexivity | lia].
  - rewrite (get_stored _ fd _ None Hfd H). reflexivity.
  - rewrite (get_stored _ fd _ (Some c) Hfd H). simpl. rewrite Hcl.
    destruct Hp as [-> | ->]; simpl; [reflexivity |].
    now rewrite orb_true_r.
Qed.

(** X22. [do_io] hands the call to the original function, once, and returns
    its answer with its [errno], whatever the answer ([EAGAIN] included),
    leaving the reactor, the registry and the witnesses alone, when the hook
    is off, when the registry has no context for the descriptor (-1, beyond
    the table, or an empty entry), and when the context is not a socket or
    was set non-blocking by the user. *)
Theorem do_io_passes_through (this_sched self : nat)
    (resumes : list (hook.World -> hook.World)) (r : hook.raw_result)
    (calls : list hook.raw_result) (fd event timeout_so : Z)
    (w : hook.World) :
  hook.t_hook_enable w = false \/
  fd = -1 \/
  fd_manager.size (hook.FdMgr w) <= wrap64 fd \/
  (0 <= fd /\
   fd_manager.m_datas (hook.FdMgr w) !! Z.to_nat fd = Some None) \/
  (exists c,
     0 <= fd /\
     fd_manager.m_datas (hook.FdMgr w) !! Z.to_nat fd = Some (Some c) /\
     fd_manager.m_isClosed c = false /\
     (fd_manager.m_isSocket c = false \/
      fd_manager.m_userNonblock c = true)) ->
  hook.do_io this_sched self resumes (r :: calls) fd event timeout_so w
    = Ret (hook.ret r, hook.set_errno (hook.err r) w).
Proof. exact (do_io_original this_sched self resumes r calls fd event timeout_so w). Qed.

Lemma do_io_passes_through_witness :
  (exists c,
     0 <= 3 /\
     fd_manager.m_datas (hook.FdMgr user_nonblock3) !! Z.to_nat 3
       = Some (Some c) /\
     fd_manager.m_isClosed c = false /\
     (fd_manager.m_isSocket c = false \/
      fd_manager.m_userNonblock c = true)) /\
  hook.do_io 0 7 [] [hook.mk_raw (-1) EAGAIN] 3 READ fd_manager.SO_RCVTIMEO
    user_nonblock3
    = Ret (-1, hook.set_errno EAGAIN user_nonblock3).
Proof.
  assert (H : exists c,
     0 <= 3 /\
     fd_manager.m_datas (hook.FdMgr user_nonblock3) !! Z.to_nat 3
       = Some (Some c) /\
     fd_manager.m_isClosed c = false /\
     (fd_manager.m_isSocket c = false \/
      fd_manager.m_userNonblock c = true)).
  { eexists. split; [vm_compute; congruence |].
    split; [vm_compute; reflexivity |]. split; [reflexivity |].
    right. reflexivity. }
  split; [exact H |].
  exact (do_io_passes_through 0 7 [] (hook.mk_raw (-1) EAGAIN) [] 3 READ
           fd_manager.SO_RCVTIMEO user_nonblock3
           (or_intror (or_intror (or_intror (or_intror H))))).
Defined.

Lemma while_EINTR_interrupted (k : nat) (r : hook.raw_result)
    (rest : list hook.raw_result) :
  final r ->
  forall w, hook.errno w = EINTR ->
    hook.while_EINTR (interrupted k ++ r :: rest) (-1) w
      = Ret (hook.ret r, hook.set_errno (hook.err r) w, rest).
Proof.
  intros Hr. induction k as [| k IH]; intros w Hw; simpl; rewrite Hw; simpl.
  - apply while_EINTR_exit. simpl.
    destruct (Z.eqb_spec (hook.ret r) (-1)) as [E1 | E1]; [| reflexivity].
    destruct (Z.eqb_spec (hook.err r) EINTR) as [E2 | E2]; [| reflexivity].
    exfalso. apply Hr. auto.
  - rewrite IH by reflexivity. reflexivity.
Qed.

Lemma do_io_retry_interrupted (this_sched self : nat)
    (resumes : list (hook.World -> hook.World)) (k : nat)
    (r : hook.raw_result) (rest : list hook.raw_result)
    (fd event timeout : Z) (tinfo : nat) (w : hook.World) :
  final r ->
  hook.do_io_retry this_sched self resumes (interrupted k ++ r :: rest)
    fd event timeout tinfo w
  = Ret (hook.ret r, hook.release tinfo (hook.set_errno (hook.err r) w)).
Proof.
  intros Hr.
  assert (Hexit : forall w0,
            (hook.ret r =? -1) && (hook.errno (hook.set_errno (hook.err r) w0)
                                   =? EINTR) = false /\
            (hook.ret r =? -1) && (hook.errno (hook.set_errno (hook.err r) w0)
                                   =? EAGAIN) = false).
  { intros w0. simpl.
    destruct (Z.eqb_spec (hook.ret r) (-1)) as [E1 | E1]; [| auto].
    destruct (Z.eqb_spec (hook.err r) EINTR) as [E2 | E2];
      [exfalso; apply Hr; auto |].
    destruct (Z.eqb_spec (hook.err r) EAGAIN) as [E3 | E3];
      [exfalso; apply Hr; auto | auto]. }
  pose proof (proj2 (Hexit w)) as Hagain. simpl in Hagain.
  destruct k as [| k].
  - destruct resumes; simpl;
      rewrite (while_EINTR_exit _ _ _ (proj1 (Hexit w))); simpl;
      rewrite Hagain; reflexivity.
  - destruct resumes; simpl;
      rewrite (while_EINTR_interrupted k r rest Hr) by reflexivity; simpl;
      rewrite Hagain; reflexivity.
Qed.

(** X23. On a socket the library waits for, calls the original function
    answers with -1 and [EINTR] are made again, however many there are: the
    first answer that is neither an interruption nor [EAGAIN] is the result
    of [do_io], with its [errno]; no timer is armed, no event registered, and
    the witness of the call is released. *)
Theorem do_io_retries_interrupted (this_sched self : nat)
    (resumes : list (hook.World -> hook.World)) (k : nat)
    (r : hook.raw_result) (rest : list hook.raw_result)
    (fd event timeout_so : Z) (w : hook.World) (c : fd_manager.FdCtx) :
  hook.t_hook_enable w = true ->
  0 <= fd ->
  fd_manager.m_datas (hook.FdMgr w) !! Z.to_nat fd = Some (Some c) ->
  fd_manager.m_isClosed c = false ->
  fd_manager.m_isSocket c = true ->
  fd_manager.m_userNonblock c = false ->
  final r ->
  exists w',
    hook.do_io this_sched self resumes (interrupted k ++ r :: rest) fd event
      timeout_so w = Ret (hook.ret r, w') /\
    hook.errno w' = hook.err r /\
    hook.iom w' = hook.iom w /\
    hook.FdMgr w' = hook.FdMgr w /\
    hook.lock (length (hook.tinfos w)) w' = None.
Proof.
  intros Hen Hfd Hc Hcl Hso Hnb Hr.
  destruct (do_io_reaches_retry this_sched self resumes
              (interrupted k ++ r :: rest) fd event timeout_so w c
              Hen Hfd Hc Hcl Hso Hnb) as [_ ->].
  rewrite do_io_retry_interrupted by assumption.
  eexists. split; [reflexivity |]. simpl. repeat split.
  unfold hook.lock, hook.release, hook.new_tinfo. simpl.
  rewrite list_lookup_insert_eq by (rewrite length_app; simpl; lia).
  reflexivity.
Qed.

Lemma do_io_retries_interrupted_witness :
  (hook.t_hook_enable before_recv3 = true /\
   final (hook.mk_raw 12 0)) /\
  exists w',
    hook.do_io 0 7 []
      (interrupted 2 ++ [hook.mk_raw 12 0]) 3 READ fd_manager.SO_RCVTIMEO
      before_recv3 = Ret (12, w') /\
    hook.errno w' = 0 /\
    hook.iom w' = hook.iom before_recv3.
Proof.
  assert (Hf : final (hook.mk_raw 12 0)).
  { intros [H _]. discriminate H. }
  split; [split; [reflexivity | exact Hf] |].
  destruct (do_io_retries_interrupted 0 7 [] 2 (hook.mk_raw 12 0) [] 3 READ
              fd_manager.SO_RCVTIMEO before_recv3 _ eq_refl
              ltac:(vm_compute; congruence) eq_refl eq_refl eq_refl eq_refl Hf)
    as (w' & H1 & H2 & H3 & _).
  exists w'. auto.
Defined.

(** * hook: [do_io] woken by its event *)

Lemma Timer_cancel_clears (h : nat) (tm : TimerManager) :
  m_cb (timer_at (objs (snd (Timer_cancel h tm))) h) = None.
Proof.
  unfold Timer_cancel.
  destruct (m_cb (timer_at (objs tm) h)) as [f |] eqn:E; simpl; [| exact E].
  destruct (decide (h < length (objs tm))%nat) as [Hlt | Hge].
  - rewrite timer_at_insert_eq by exact Hlt. reflexivity.
  - unfold timer_at in E. rewrite lookup_ge_None_2 in E by lia.
    discriminate E.
Qed.

Lemma lock_release (tinfo : nat) (w : hook.World) :
  hook.lock tinfo (hook.release tinfo w) = None.
Proof.
  unfold hook.lock, hook.release. simpl.
  destruct (decide (tinfo < length (hook.tinfos w))%nat) as [Hlt | Hge].
  - now rewrite list_lookup_insert_eq.
  - rewrite lookup_ge_None_2; [reflexivity |]. rewrite length_insert. lia.
Qed.

(** X24. A hooked call on a socket whose first answer is [EAGAIN]: once the
    event is registered, the fiber waits; when it is resumed and its witness
    does not say [ETIMEDOUT], [do_io] cancels the timer it armed (if the
    socket has a timeout), calls the original function again and returns the
    answer, with its [errno]; the witness is released. *)
Theorem do_io_woken (this_sched self : nat) (resume : hook.World -> hook.World)
    (rs : list (hook.World -> hook.World)) (r : hook.raw_result)
    (rest : list hook.raw_result) (fd event timeout_so : Z) (w : hook.World)
    (c : fd_manager.FdCtx) (m : ioscheduler.IOManager) :
  hook.t_hook_enable w = true ->
  0 <= fd ->
  fd_manager.m_datas (hook.FdMgr w) !! Z.to_nat fd = Some (Some c) ->
  fd_manager.m_isClosed c = false ->
  fd_manager.m_isSocket c = true ->
  fd_manager.m_userNonblock c = false ->
  let tinfo := length (hook.tinfos w) in
  let armed := hook.arm_timer (fd_manager.getTimeout timeout_so c) tinfo fd
                 event (hook.set_errno EAGAIN (snd (hook.new_tinfo w))) in
  ioscheduler.addEvent this_sched (self, fiber.RUNNING) fd event None
    (hook.iom (snd armed)) = Ret (0, m) ->
  (exists t, hook.lock tinfo (resume (hook.set_iom m (snd armed))) = Some t /\
             hook.cancelled t <> ETIMEDOUT) ->
  final r ->
  exists w',
    hook.do_io this_sched self (resume :: rs)
      (hook.mk_raw (-1) EAGAIN :: r :: rest) fd event timeout_so w
      = Ret (hook.ret r, w') /\
    hook.errno w' = hook.err r /\
    hook.lock tinfo w' = None /\
    (forall h, fst armed = Some h ->
       m_cb (timer_at (objs (ioscheduler.base_TimerManager (hook.iom w'))) h)
         = None).
Proof.
  intros Hen Hfd Hc Hcl Hso Hnb tinfo armed Hadd (t & Ht & Hnt) Hr.
  destruct (do_io_reaches_retry this_sched self (resume :: rs)
              (hook.mk_raw (-1) EAGAIN :: r :: rest) fd event timeout_so w c
              Hen Hfd Hc Hcl Hso Hnb) as [_ ->].
  rewrite do_io_retry_step by reflexivity. fold tinfo.
  cbv zeta. fold armed.
  destruct armed as [timer w2] eqn:Earm. simpl in Hadd, Ht |- *.
  rewrite Hadd. simpl.
  rewrite lock_cancel_if_armed, Ht.
  destruct (Z.eqb_spec (hook.cancelled t) ETIMEDOUT) as [E | _];
    [contradiction |].
  rewrite (do_io_retry_interrupted this_sched self rs 0 r rest fd event
             _ tinfo _ Hr).
  eexists. split; [reflexivity |]. split; [reflexivity |].
  split; [apply lock_release |].
  intros h [= ->]. simpl. unfold ioscheduler.Timer_cancel.
  pose proof (Timer_cancel_clears h
                (ioscheduler.base_TimerManager
                   (hook.iom (resume (hook.set_iom m w2))))) as Hcl'.
  destruct (Timer_cancel h _) as [b tm']. exact Hcl'.
Qed.

Lemma do_io_woken_witness :
  (hook.t_hook_enable before_recv3 = true /\ final (hook.mk_raw 12 0)) /\
  exists w',
    hook.do_io 0 7 [fun w => w]
      [hook.mk_raw (-1) EAGAIN; hook.mk_raw 12 0] 3 READ
      fd_manager.SO_RCVTIMEO before_recv3
      = Ret (12, w') /\
    hook.errno w' = 0 /\
    hook.lock 0 w' = None.
Proof.
  assert (Hf : final (hook.mk_raw 12 0)).
  { intros [H _]. discriminate H. }
  split; [split; [reflexivity | exact Hf] |].
  destruct (do_io_woken 0 7 (fun w => w) [] (hook.mk_raw 12 0) [] 3 READ
              fd_manager.SO_RCVTIMEO before_recv3 _ registered3 eq_refl
              ltac:(vm_compute; congruence) eq_refl eq_refl eq_refl eq_refl
              ltac:(vm_compute; reflexivity)
              ltac:(eexists; split;
                    [vm_compute; reflexivity | vm_compute; congruence])
              Hf)
    as (w' & H1 & H2 & H3 & _).
  exists w'. auto.
Defined.

(** * hook: [do_io] on an event somebody else waits for *)

Lemma addEvent_taken (this_sched : nat) (this_fiber : nat * fiber.State)
    (fd : Z) (event : Event) (cb : option Callback)
    (m : ioscheduler.IOManager) (c : ioscheduler.FdContext) :
  0 <= fd ->
  ioscheduler.m_fdContexts m !! Z.to_nat fd = Some c ->
  Z.land (ioscheduler.events c) event <> 0 ->
  ioscheduler.addEvent this_sched this_fiber fd event cb m = Ret (-1, m).
Proof.
  intros Hfd Hc Hdup. unfold ioscheduler.addEvent.
  assert (Hlen : Z.of_nat (length (ioscheduler.m_fdContexts m)) > fd).
  { apply lookup_lt_Some in Hc. lia. }
  destruct (Z.gtb_spec (Z.of_nat (length (ioscheduler.m_fdContexts m))) fd)
    as [_ | H]; [| lia].
  simpl. destruct (Z.ltb_spec fd 0); [lia |]. rewrite Hc.
  destruct (Z.eqb_spec (Z.land (ioscheduler.events c) event) 0);
    [contradiction | reflexivity].
Qed.

Lemma tickle_events (m : ioscheduler.IOManager) :
  ioscheduler.m_fdContexts (ioscheduler.tickle m) = ioscheduler.m_fdContexts m
  /\ ioscheduler.m_pendingEventCount (ioscheduler.tickle m)
     = ioscheduler.m_pendingEventCount m.
Proof. unfold ioscheduler.tickle. now destruct (negb _). Qed.

(** Arming the timer of a call leaves the contexts and the pending count of
    the reactor alone. *)
Lemma arm_timer_events (timeout : Z) (tinfo : nat) (fd event : Z)
    (w : hook.World) :
  ioscheduler.m_fdContexts (hook.iom (snd (hook.arm_timer timeout tinfo fd event w)))
    = ioscheduler.m_fdContexts (hook.iom w) /\
  ioscheduler.m_pendingEventCount
    (hook.iom (snd (hook.arm_timer timeout tinfo fd event w)))
    = ioscheduler.m_pendingEventCount (hook.iom w).
Proof.
  unfold hook.arm_timer. destruct (negb _); [| auto].
  unfold ioscheduler.addConditionTimer.
  destruct (addConditionTimer _ _ _ _ _ _) as [[h tm] at_front]. simpl.
  destruct at_front; [| auto].
  destruct (tickle_events (ioscheduler.set_TimerManager tm (hook.iom w)))
    as [-> ->]. auto.
Qed.

(** X25. A hooked call on a socket whose first answer is [EAGAIN], for an
    event that is already registered on the descriptor (another fiber waits
    for it): [do_io] returns -1 at once, without waiting; the contexts and
    the pending count of the reactor are as before, the timer it armed (if
    the socket has a timeout) is cancelled, and the witness is released. *)
Theorem do_io_event_taken (this_sched self : nat)
    (resumes : list (hook.World -> hook.World))
    (rest : list hook.raw_result) (fd event timeout_so : Z) (w : hook.World)
    (c : fd_manager.FdCtx) (fc : ioscheduler.FdContext) :
  hook.t_hook_enable w = true ->
  0 <= fd ->
  fd_manager.m_datas (hook.FdMgr w) !! Z.to_nat fd = Some (Some c) ->
  fd_manager.m_isClosed c = false ->
  fd_manager.m_isSocket c = true ->
  fd_manager.m_userNonblock c = false ->
  ioscheduler.m_fdContexts (hook.iom w) !! Z.to_nat fd = Some fc ->
  Z.land (ioscheduler.events fc) event <> 0 ->
  let tinfo := length (hook.tinfos w) in
  let armed := hook.arm_timer (fd_manager.getTimeout timeout_so c) tinfo fd
                 event (hook.set_errno EAGAIN (snd (hook.new_tinfo w))) in
  exists w',
    hook.do_io this_sched self resumes (hook.mk_raw (-1) EAGAIN :: rest)
      fd event timeout_so w = Ret (-1, w') /\
    ioscheduler.m_fdContexts (hook.iom w')
      = ioscheduler.m_fdContexts (hook.iom w) /\
    ioscheduler.m_pendingEventCount (hook.iom w')
      = ioscheduler.m_pendingEventCount (hook.iom w) /\
    hook.lock tinfo w' = None /\
    (forall h, fst armed = Some h ->
       m_cb (timer_at (objs (ioscheduler.base_TimerManager (hook.iom w'))) h)
         = None).
Proof.
  intros Hen Hfd Hc Hcl Hso Hnb Hfc Hbit tinfo armed.
  destruct (do_io_reaches_retry this_sched self resumes
              (hook.mk_raw (-1) EAGAIN :: rest) fd event timeout_so w c
              Hen Hfd Hc Hcl Hso Hnb) as [_ ->].
  rewrite do_io_retry_step by reflexivity. fold tinfo.
  cbv zeta. fold armed.
  destruct (arm_timer_events (fd_manager.getTimeout timeout_so c) tinfo fd
              event (hook.set_errno EAGAIN (snd (hook.new_tinfo w))))
    as [Htab Hcnt].
  fold armed in Htab, Hcnt. simpl in Htab, Hcnt.
  destruct armed as [timer w2] eqn:Earm. simpl in Htab, Hcnt |- *.
  rewrite (addEvent_taken this_sched (self, fiber.RUNNING) fd event None
             (hook.iom w2) fc Hfd) by (rewrite ?Htab; assumption).
  simpl. eexists. split; [reflexivity |].
  assert (Hset : hook.set_iom (hook.iom w2) w2 = w2) by (destruct w2; reflexivity).
  rewrite Hset.
  destruct timer as [h |]; simpl.
  - unfold ioscheduler.Timer_cancel.
    pose proof (Timer_cancel_clears h
                  (ioscheduler.base_TimerManager (hook.iom w2))) as Hcl'.
    destruct (Timer_cancel h _) as [b tm']. simpl in *.
    split; [exact Htab |]. split; [exact Hcnt |].
    split; [apply lock_release |]. intros h' [= <-]. exact Hcl'.
  - split; [exact Htab |]. split; [exact Hcnt |].
    split; [apply lock_release |]. intros h' H. discriminate H.
Qed.

Lemma do_io_event_taken_witness :
  (hook.t_hook_enable busy_recv3 = true /\
   ioscheduler.m_fdContexts (hook.iom busy_recv3) !! Z.to_nat 3
     = Some (ioscheduler.mkFdContext
               (ioscheduler.mkEventContext (Some 0%nat) (Some 7%nat) None)
               ioscheduler.empty_ctx 3 READ)) /\
  exists w',
    hook.do_io 0 8 [] [hook.mk_raw (-1) EAGAIN] 3 READ fd_manager.SO_RCVTIMEO
      busy_recv3 = Ret (-1, w') /\
    ioscheduler.m_fdContexts (hook.iom w')
      = ioscheduler.m_fdContexts (hook.iom busy_recv3) /\
    hook.lock 0 w' = None.
Proof.
  assert (H1 : ioscheduler.m_fdContexts (hook.iom busy_recv3) !! Z.to_nat 3
     = Some (ioscheduler.mkFdContext
               (ioscheduler.mkEventContext (Some 0%nat) (Some 7%nat) None)
               ioscheduler.empty_ctx 3 READ)) by (vm_compute; reflexivity).
  split; [split; [reflexivity | exact H1] |].
  destruct (do_io_event_taken 0 8 [] [] 3 READ fd_manager.SO_RCVTIMEO
              busy_recv3 _ _ eq_refl ltac:(vm_compute; congruence) eq_refl
              eq_refl eq_refl eq_refl H1 ltac:(vm_compute; congruence))
    as (w' & Ha & Hb & _ & Hc & _).
  exists w'. auto.
Defined.

(** * hook: [setsockopt], [fcntl], [close] and [socket] *)

Lemma lookup_update_ctx (fd : Z) (c c' : fd_manager.FdCtx) (w : hook.World) :
  fd_manager.m_datas (hook.FdMgr w) !! Z.to_nat fd = Some (Some c) ->
  fd_manager.m_datas (hook.FdMgr (hook.update_ctx fd c' w)) !! Z.to_nat fd
    = Some (Some c').
Proof.
  intros H. simpl. apply list_lookup_insert_eq.
  eapply lookup_lt_Some. eassumption.
Qed.

Lemma timeval_ms_small (tv_sec tv_usec : Z) :
  0 <= tv_sec -> 0 <= tv_usec ->
  tv_sec * 1000 + tv_usec / 1000 < 2 ^ 63 ->
  hook.timeval_ms tv_sec tv_usec = Ret (tv_sec * 1000 + tv_usec / 1000).
Proof.
  intros Hs Hu Hlt. unfold hook.timeval_ms.
  rewrite Z.quot_div_nonneg by lia.
  assert (0 <= tv_usec / 1000) by (apply Z.div_pos; lia).
  destruct (Z.leb_spec (- 2 ^ 63) (tv_sec * 1000)); [| lia].
  destruct (Z.ltb_spec (tv_sec * 1000) (2 ^ 63)); [| lia].
  destruct (Z.leb_spec (- 2 ^ 63) (tv_sec * 1000 + tv_usec / 1000)); [| lia].
  destruct (Z.ltb_spec (tv_sec * 1000 + tv_usec / 1000) (2 ^ 63)); [| lia].
  simpl. f_equal. unfold wrap64. apply Z.mod_small. lia.
Qed.

(** X26. A hooked [setsockopt] of [SO_RCVTIMEO] or [SO_SNDTIMEO] at the
    socket level, on a descriptor that has a context: the context's timeout
    of that kind becomes [tv_sec * 1000 + tv_usec / 1000] milliseconds (what
    is below a millisecond is dropped, and a zero [timeval] gives 0, not no
    timeout), the other timeout stays, and the answer is the original
    function's.  A later [do_io] with that kind of timeout on the socket
    waits with this very timeout. *)
Theorem setsockopt_sets_timeout (r : hook.raw_result)
    (calls : list hook.raw_result) (sockfd optname tv_sec tv_usec : Z)
    (w : hook.World) (c : fd_manager.FdCtx) :
  hook.t_hook_enable w = true ->
  0 <= sockfd ->
  fd_manager.m_datas (hook.FdMgr w) !! Z.to_nat sockfd = Some (Some c) ->
  optname = fd_manager.SO_RCVTIMEO \/ optname = fd_manager.SO_SNDTIMEO ->
  0 <= tv_sec -> 0 <= tv_usec ->
  tv_sec * 1000 + tv_usec / 1000 < 2 ^ 63 ->
  let ms := tv_sec * 1000 + tv_usec / 1000 in
  let c' := fd_manager.setTimeout optname ms c in
  let w' := hook.set_errno (hook.err r) (hook.update_ctx sockfd c' w) in
  hook.setsockopt (r :: calls) sockfd hook.SOL_SOCKET optname tv_sec tv_usec w
    = Ret (hook.ret r, w') /\
  fd_manager.getTimeout optname c' = ms /\
  (forall other,
     other = fd_manager.SO_RCVTIMEO \/ other = fd_manager.SO_SNDTIMEO ->
     other <> optname ->
     fd_manager.getTimeout other c' = fd_manager.getTimeout other c) /\
  (fd_manager.m_isClosed c = false ->
   fd_manager.m_isSocket c = true ->
   fd_manager.m_userNonblock c = false ->
   forall this_sched self resumes calls' event,
     hook.do_io this_sched self resumes calls' sockfd event optname w'
     = hook.do_io_retry this_sched self resumes calls' sockfd event ms
         (length (hook.tinfos w)) (snd (hook.new_tinfo w'))).
Proof.
  intros Hen Hfd Hc Hopt Hs Hu Hlt ms c' w'.
  assert (Hflags : fd_manager.m_isClosed c' = fd_manager.m_isClosed c /\
                   fd_manager.m_isSocket c' = fd_manager.m_isSocket c /\
                   fd_manager.m_userNonblock c' = fd_manager.m_userNonblock c /\
                   fd_manager.getTimeout optname c' = ms).
  { unfold c', fd_manager.setTimeout, fd_manager.getTimeout.
    destruct (optname =? fd_manager.SO_RCVTIMEO); simpl; auto. }
  destruct Hflags as (F1 & F2 & F3 & F4).
  split; [| split; [exact F4 | split]].
  - unfold hook.setsockopt. rewrite Hen. simpl.
    assert (Ho : (optname =? fd_manager.SO_RCVTIMEO)
                 || (optname =? fd_manager.SO_SNDTIMEO) = true)
      by (destruct Hopt as [-> | ->]; reflexivity).
    rewrite Ho, (get_stored _ sockfd _ (Some c) Hfd Hc). simpl.
    rewrite (timeval_ms_small tv_sec tv_usec Hs Hu Hlt). reflexivity.
  - intros other Hother Hne. unfold c', fd_manager.setTimeout,
      fd_manager.getTimeout.
    destruct Hopt as [-> | ->], Hother as [-> | ->]; try contradiction;
      reflexivity.
  - intros Hcl Hso Hnb this_sched self resumes calls' event.
    destruct (do_io_reaches_retry this_sched self resumes calls' sockfd event
                optname w' c') as [_ E].
    + exact Hen.
    + exact Hfd.
    + unfold w'. apply (lookup_update_ctx sockfd c c' w Hc).
    + now rewrite F1.
    + now rewrite F2.
    + now rewrite F3.
    + rewrite E, F4. reflexivity.
Qed.

Lemma setsockopt_sets_timeout_witness :
  (hook.t_hook_enable before_recv3 = true /\ 0 <= 3) /\
  hook.setsockopt [hook.mk_raw 0 0] 3 hook.SOL_SOCKET fd_manager.SO_RCVTIMEO
    0 999 before_recv3
    = Ret (0, hook.set_errno 0
                (hook.update_ctx 3
                   (fd_manager.setTimeout fd_manager.SO_RCVTIMEO 0
                      (fd_manager.setTimeout fd_manager.SO_RCVTIMEO 50
                         (fd_manager.FdCtx_new fd_manager.StatSocket 3)))
                   before_recv3)).
Proof.
  assert (H0 : 0 <= 3) by (vm_compute; congruence).
  split; [split; [reflexivity | exact H0] |].
  exact (proj1 (setsockopt_sets_timeout (hook.mk_raw 0 0) [] 3
                  fd_manager.SO_RCVTIMEO 0 999 before_recv3 _ eq_refl H0
                  eq_refl (or_introl eq_refl)
                  ltac:(vm_compute; congruence) ltac:(vm_compute; congruence)
                  eq_refl)).
Defined.

(** X27. [fcntl] on a socket the library keeps non-blocking: [F_SETFL]
    records whether the user asked for [O_NONBLOCK] and hands the flags to
    the original function with [O_NONBLOCK] set in any case; [F_GETFL] then
    answers the original function's flags with [O_NONBLOCK] as the user set
    it (a failure -1 of the original function comes back as -2049 when the
    user did not ask for [O_NONBLOCK]); and once the user asked for it, a
    hooked call on the socket goes straight to the original function. *)
Theorem fcntl_user_nonblock (r : hook.raw_result)
    (calls : list hook.raw_result) (fd arg : Z) (w : hook.World)
    (c : fd_manager.FdCtx) :
  0 <= fd ->
  fd_manager.m_datas (hook.FdMgr w) !! Z.to_nat fd = Some (Some c) ->
  fd_manager.m_isClosed c = false ->
  fd_manager.m_isSocket c = true ->
  fd_manager.m_sysNonblock c = true ->
  let asked := negb (Z.land arg hook.O_NONBLOCK =? 0) in
  let w1 := hook.update_ctx fd (fd_manager.setUserNonblock asked c) w in
  hook.fcntl_F_SETFL (r :: calls) fd arg w
    = Ret (Z.lor arg hook.O_NONBLOCK, hook.ret r,
           hook.set_errno (hook.err r) w1) /\
  (forall r' calls',
     hook.fcntl_F_GETFL (r' :: calls') fd (hook.set_errno (hook.err r) w1)
     = Ret (if asked then Z.lor (hook.ret r') hook.O_NONBLOCK
            else Z.land (hook.ret r') (Z.lnot hook.O_NONBLOCK),
            hook.set_errno (hook.err r') w1)) /\
  (asked = false ->
   forall e calls',
     hook.fcntl_F_GETFL (hook.mk_raw (-1) e :: calls') fd
       (hook.set_errno (hook.err r) w1)
     = Ret (-2049, hook.set_errno e w1)) /\
  (asked = true ->
   forall this_sched self resumes r' calls' event timeout_so,
     hook.do_io this_sched self resumes (r' :: calls') fd event timeout_so
       (hook.set_errno (hook.err r) w1)
     = Ret (hook.ret r', hook.set_errno (hook.err r') w1)).
Proof.
  intros Hfd Hc Hcl Hso Hsys asked w1.
  assert (Hc1 : fd_manager.m_datas (hook.FdMgr (hook.set_errno (hook.err r) w1))
                  !! Z.to_nat fd
                = Some (Some (fd_manager.setUserNonblock asked c)))
    by (apply (lookup_update_ctx fd c _ w Hc)).
  assert (Hget : forall r' calls',
     hook.fcntl_F_GETFL (r' :: calls') fd (hook.set_errno (hook.err r) w1)
     = Ret (if asked then Z.lor (hook.ret r') hook.O_NONBLOCK
            else Z.land (hook.ret r') (Z.lnot hook.O_NONBLOCK),
            hook.set_errno (hook.err r') w1)).
  { intros r' calls'. unfold hook.fcntl_F_GETFL, hook.original. simpl.
    pose proof (get_stored fd_manager.StatFails fd _ _ Hfd Hc1) as Hg.
    simpl in Hg. rewrite Hg. simpl. rewrite Hcl, Hso. simpl.
    destruct asked; reflexivity. }
  split; [| split; [exact Hget | split]].
  - unfold hook.fcntl_F_SETFL.
    rewrite (get_stored _ fd _ (Some c) Hfd Hc). simpl.
    rewrite Hcl, Hso, Hsys. reflexivity.
  - intros Ha e calls'. rewrite Hget, Ha. reflexivity.
  - intros Ha this_sched self resumes r' calls' event timeout_so.
    rewrite (do_io_original this_sched self resumes r' calls' fd event
               timeout_so (hook.set_errno (hook.err r) w1)); [reflexivity |].
    right. right. right. right.
    exists (fd_manager.setUserNonblock asked c).
    split; [exact Hfd |]. split; [exact Hc1 |]. split; [exact Hcl |].
    right. rewrite Ha. reflexivity.
Qed.

Lemma fcntl_user_nonblock_witness :
  (0 <= 3 /\
   fd_manager.m_datas (hook.FdMgr before_recv3) !! Z.to_nat 3
     = Some (Some (fd_manager.setTimeout fd_manager.SO_RCVTIMEO 50
                     (fd_manager.FdCtx_new fd_manager.StatSocket 3)))) /\
  exists w1,
    hook.fcntl_F_SETFL [hook.mk_raw 0 0] 3 hook.O_NONBLOCK before_recv3
      = Ret (hook.O_NONBLOCK, 0, w1) /\
    hook.fcntl_F_GETFL [hook.mk_raw 2 0] 3 w1 = Ret (2050, w1).
Proof.
  assert (H0 : 0 <= 3) by (vm_compute; congruence).
  assert (H1 : fd_manager.m_datas (hook.FdMgr before_recv3) !! Z.to_nat 3
     = Some (Some (fd_manager.setTimeout fd_manager.SO_RCVTIMEO 50
                     (fd_manager.FdCtx_new fd_manager.StatSocket 3))))
    by (vm_compute; reflexivity).
  split; [split; [exact H0 | exact H1] |].
  destruct (fcntl_user_nonblock (hook.mk_raw 0 0) [] 3 hook.O_NONBLOCK
              before_recv3 _ H0 H1 eq_refl eq_refl eq_refl)
    as (Hs & Hg & _).
  eexists. split; [exact Hs |]. exact (Hg (hook.mk_raw 2 0) []).
Defined.

Lemma del_stored (fd : Z) (m : fd_manager.FdManager)
    (p : option fd_manager.FdCtx) :
  0 <= fd ->
  fd_manager.m_datas m !! Z.to_nat fd = Some p ->
  fd_manager.m_datas (fd_manager.del fd m) !! Z.to_nat fd = Some None.
Proof.
  intros Hfd Hp.
  assert (Hlt : (Z.to_nat fd < length (fd_manager.m_datas m))%nat)
    by (eapply lookup_lt_Some; eassumption).
  assert (Hw : wrap64 fd <= fd)
    by (unfold wrap64; apply Z.mod_le; [lia | reflexivity]).
  unfold fd_manager.del, fd_manager.size.
  destruct (Z.leb_spec (Z.of_nat (length (fd_manager.m_datas m))) (wrap64 fd));
    [lia |].
  simpl. now apply list_lookup_insert_eq.
Qed.

(** X28. A hooked [close] of a descriptor that has a context and registered
    events, in a thread with a reactor: the waiters of READ and of WRITE are
    put on the task queue, the events and slots of the descriptor are
    cleared, its context leaves the registry, and the answer is the original
    function's; a later hooked call on the descriptor goes straight to the
    original function. *)
Theorem close_wakes_and_forgets (r : hook.raw_result)
    (calls : list hook.raw_result) (fd : Z) (w : hook.World)
    (c : fd_manager.FdCtx) (fc : ioscheduler.FdContext) :
  hook.t_hook_enable w = true ->
  0 <= fd ->
  fd_manager.m_datas (hook.FdMgr w) !! Z.to_nat fd = Some (Some c) ->
  ioscheduler.m_fdContexts (hook.iom w) !! Z.to_nat fd = Some fc ->
  ctx_ok fc ->
  ioscheduler.events fc <> 0 ->
  (forall event, event = READ \/ event = WRITE ->
     Z.land (ioscheduler.events fc) event <> 0 -> waited (slot event fc)) ->
  fd ∈ epoll.pollable (ioscheduler.m_epfd (hook.iom w)) ->
  is_Some (epoll.interest (ioscheduler.m_epfd (hook.iom w)) !! fd) ->
  exists w',
    hook.close (r :: calls) fd w = Ret (hook.ret r, w') /\
    hook.errno w' = hook.err r /\
    scheduler.m_tasks (ioscheduler.base_Scheduler (hook.iom w'))
      = scheduler.m_tasks (ioscheduler.base_Scheduler (hook.iom w))
        ++ woken READ fc ++ woken WRITE fc /\
    ioscheduler.m_fdContexts (hook.iom w') !! Z.to_nat fd
      = Some (ioscheduler.mkFdContext ioscheduler.empty_ctx
                ioscheduler.empty_ctx (ioscheduler.fd fc) NONE) /\
    fd_manager.m_datas (hook.FdMgr w') !! Z.to_nat fd = Some None /\
    (forall this_sched self resumes r' calls' event timeout_so,
       hook.do_io this_sched self resumes (r' :: calls') fd event timeout_so w'
       = Ret (hook.ret r', hook.set_errno (hook.err r') w')).
Proof.
  intros Hen Hfd Hc Hfc Hok Hne Hw Hpoll Hint.
  destruct (cancelAll_registered fd (hook.iom w) fc Hfd Hfc Hok Hne Hw Hpoll
              Hint) as (m' & Hca & Ht & Htab & _).
  assert (Hdel : fd_manager.m_datas (fd_manager.del fd (hook.FdMgr w))
                   !! Z.to_nat fd = Some None)
    by (eapply del_stored; eassumption).
  eexists. split; [| split; [| split; [| split; [| split]]]].
  - unfold hook.close. rewrite Hen. simpl.
    rewrite (get_stored _ fd _ (Some c) Hfd Hc). simpl.
    rewrite Hca. reflexivity.
  - reflexivity.
  - exact Ht.
  - simpl. rewrite Htab. apply list_lookup_insert_eq.
    eapply lookup_lt_Some. eassumption.
  - exact Hdel.
  - intros. apply do_io_original. right. right. right. left.
    split; [exact Hfd | exact Hdel].
Qed.

Lemma close_wakes_and_forgets_witness :
  (hook.t_hook_enable busy_recv3 = true /\
   ioscheduler.m_fdContexts (hook.iom busy_recv3) !! Z.to_nat 3
     = Some (ioscheduler.mkFdContext
               (ioscheduler.mkEventContext (Some 0%nat) (Some 7%nat) None)
               ioscheduler.empty_ctx 3 READ)) /\
  exists w',
    hook.close [hook.mk_raw 0 0] 3 busy_recv3 = Ret (0, w') /\
    scheduler.m_tasks (ioscheduler.base_Scheduler (hook.iom w'))
      = [scheduler.mkScheduleTask (Some 7%nat) None (-1)] /\
    fd_manager.m_datas (hook.FdMgr w') !! Z.to_nat 3 = Some None.
Proof.
  set (fc := ioscheduler.mkFdContext
               (ioscheduler.mkEventContext (Some 0%nat) (Some 7%nat) None)
               ioscheduler.empty_ctx 3 READ).
  assert (H0 : 0 <= 3) by (vm_compute; congruence).
  assert (H1 : ioscheduler.m_fdContexts (hook.iom busy_recv3) !! Z.to_nat 3
               = Some fc) by (vm_compute; reflexivity).
  assert (H2 : ctx_ok fc).
  { split; [right; left; reflexivity |].
    intros e [-> | ->]; split; intros H; vm_compute in H |- *;
      first [ reflexivity | discriminate H
            | exfalso; apply H; reflexivity | solve [eauto] ]. }
  assert (H3 : ioscheduler.events fc <> 0) by (vm_compute; congruence).
  assert (H4 : forall event, event = READ \/ event = WRITE ->
            Z.land (ioscheduler.events fc) event <> 0 -> waited (slot event fc)).
  { intros e [-> | ->] H; [left; vm_compute; eauto |].
    exfalso. apply H. reflexivity. }
  assert (H5 : 3 ∈ epoll.pollable (ioscheduler.m_epfd (hook.iom busy_recv3)))
    by (apply (bool_decide_unpack _); vm_compute; exact I).
  assert (H6 : is_Some (epoll.interest
                          (ioscheduler.m_epfd (hook.iom busy_recv3)) !! 3))
    by (apply (bool_decide_unpack _); vm_compute; exact I).
  split; [split; [reflexivity | exact H1] |].
  destruct (close_wakes_and_forgets (hook.mk_raw 0 0) [] 3 busy_recv3 _ fc
              eq_refl H0 ltac:(vm_compute; reflexivity) H1 H2 H3 H4 H5 H6)
    as (w' & Ha & _ & Hb & _ & Hc & _).
  exists w'. auto.
Defined.

(** [get] with [auto_create] where no context is stored. *)
Lemma get_builds (st : fd_manager.fd_stat) (fd : Z)
    (m : fd_manager.FdManager) :
  0 <= fd <= INT_MAX ->
  fd_manager.m_datas m !! Z.to_nat fd = Some None \/
  (fd_manager.size m <= fd /\ 2 <= fd) ->
  exists m' tr,
    fd_manager.get st fd true m
      = Ret (Some (fd_manager.FdCtx_new st fd), m', tr) /\
    fd_manager.m_datas m' !! Z.to_nat fd
      = Some (Some (fd_manager.FdCtx_new st fd)).
Proof.
  intros Hfd H.
  assert (Hc : exists p m' tr, fd_manager.get st fd true m = Ret (p, m', tr) /\
                 fd_manager.get_create st fd m = Ret (p, m', tr)).
  { unfold fd_manager.get. destruct (Z.eqb_spec fd (-1)); [lia |].
    rewrite (wrap64_small fd Hfd).
    assert (Hcre : exists p m' tr,
              fd_manager.get_create st fd m = Ret (p, m', tr)).
    { unfold fd_manager.get_create. rewrite (wrap64_small fd Hfd).
      destruct (Z.leb_spec (fd_manager.size m) fd) as [Hle | Hgt].
      - unfold times_1_5. destruct (Z.ltb_spec fd 0); [lia |]. simpl.
        rewrite length_resize.
        assert (Hq : fd < 3 * fd ÷ 2).
        { destruct H as [H | [_ H2]].
          - apply lookup_lt_Some in H. unfold fd_manager.size in Hle. lia.
          - rewrite Z.quot_div_nonneg by lia.
            assert (fd + 1 <= 3 * fd / 2)
              by (apply Z.div_le_lower_bound; lia).
            lia. }
        destruct (Z.leb_spec 0 fd); [| lia].
        destruct (Z.ltb_spec fd (Z.of_nat (Z.to_nat (3 * fd ÷ 2)))); [| lia].
        simpl. eauto.
      - simpl. unfold fd_manager.size in Hgt.
        destruct (Z.leb_spec 0 fd); [| lia].
        destruct (Z.ltb_spec fd (Z.of_nat (length (fd_manager.m_datas m))));
          [| lia].
        simpl. eauto. }
    destruct Hcre as (p & m' & tr & Hcre).
    exists p, m', tr.
    destruct (Z.leb_spec (fd_manager.size m) fd) as [Hle | Hgt];
      [simpl; auto |].
    destruct H as [H | [H _]]; [| lia].
    rewrite H. simpl. auto. }
  destruct Hc as (p & m' & tr & Hg & Hcre).
  apply get_create_stores in Hcre as (_ & -> & Hl & _).
  eauto.
Qed.

(** X29. A hooked [socket] that the original function answers with a
    descriptor for which the registry holds no context: the registry gets a
    context for it, built from what [fstat] says, with no timeout and not
    non-blocking for the user; the reactor is untouched.  When [fstat] says
    it is a socket, a hooked call on it that would block waits with no
    timeout, that is, without arming a timer. *)
Theorem socket_registers (st : fd_manager.fd_stat) (r : hook.raw_result)
    (calls : list hook.raw_result) (w : hook.World) :
  hook.t_hook_enable w = true ->
  0 <= hook.ret r <= INT_MAX ->
  fd_manager.m_datas (hook.FdMgr w) !! Z.to_nat (hook.ret r) = Some None \/
  (fd_manager.size (hook.FdMgr w) <= hook.ret r /\ 2 <= hook.ret r) ->
  exists w',
    hook.socket st (r :: calls) w = Ret (hook.ret r, w') /\
    fd_manager.m_datas (hook.FdMgr w') !! Z.to_nat (hook.ret r)
      = Some (Some (fd_manager.FdCtx_new st (hook.ret r))) /\
    hook.errno w' = hook.err r /\
    hook.iom w' = hook.iom w /\
    (st = fd_manager.StatSocket ->
     forall this_sched self resumes calls' event timeout_so,
       hook.do_io this_sched self resumes calls' (hook.ret r) event timeout_so
         w'
       = hook.do_io_retry this_sched self resumes calls' (hook.ret r) event
           UINT64_MAX (length (hook.tinfos w)) (snd (hook.new_tinfo w')) /\
       hook.arm_timer UINT64_MAX (length (hook.tinfos w)) (hook.ret r) event
         (hook.set_errno EAGAIN (snd (hook.new_tinfo w')))
       = (None, hook.set_errno EAGAIN (snd (hook.new_tinfo w')))).
Proof.
  intros Hen Hfd H.
  destruct (get_builds st (hook.ret r) (hook.FdMgr w) Hfd H)
    as (m' & tr & Hg & Hl).
  exists (hook.set_FdMgr m' (hook.set_errno (hook.err r) w)).
  split; [| split; [exact Hl | split; [reflexivity | split; [reflexivity |]]]].
  - unfold hook.socket, hook.original. rewrite Hen. simpl.
    destruct (Z.eqb_spec (hook.ret r) (-1)); [lia |].
    rewrite Hg. reflexivity.
  - intros -> this_sched self resumes calls' event timeout_so.
    split; [| reflexivity].
    destruct (do_io_reaches_retry this_sched self resumes calls' (hook.ret r)
                event timeout_so
                (hook.set_FdMgr m' (hook.set_errno (hook.err r) w))
                (fd_manager.FdCtx_new fd_manager.StatSocket (hook.ret r)))
      as [_ E]; try reflexivity; try assumption; [lia |].
    rewrite E. f_equal.
    unfold fd_manager.getTimeout. destruct (_ =? _); reflexivity.
Qed.

Lemma socket_registers_witness :
  (hook.t_hook_enable before_recv3 = true /\ 0 <= 5 <= INT_MAX) /\
  exists w',
    hook.socket fd_manager.StatSocket [hook.mk_raw 5 0] before_recv3
      = Ret (5, w') /\
    fd_manager.m_datas (hook.FdMgr w') !! Z.to_nat 5
      = Some (Some (fd_manager.FdCtx_new fd_manager.StatSocket 5)).
Proof.
  assert (H0 : 0 <= 5 <= INT_MAX) by (vm_compute; split; congruence).
  split; [split; [reflexivity | exact H0] |].
  assert (H1 : fd_manager.m_datas (hook.FdMgr before_recv3)
                 !! Z.to_nat (hook.ret (hook.mk_raw 5 0)) = Some None)
    by (vm_compute; reflexivity).
  destruct (socket_registers fd_manager.StatSocket (hook.mk_raw 5 0) []
              before_recv3 eq_refl H0 (or_introl H1))
    as (w' & Ha & Hb & _).
  exists w'. auto.
Defined.

(** * hook: [connect_with_timeout] *)

(** X30. A hooked [connect] on a descriptor for which the registry holds no
    context (-1, beyond the table, or an empty entry) returns -1 with
    [EBADF] and never calls the original function, where a hooked read or
    write on the same descriptor calls it and returns its answer.  On a
    descriptor whose context is not closed, an answer of the original
    function that is 0, or is not -1 with [EINPROGRESS], is returned as it
    is, with nothing armed or registered. *)
Theorem connect_when_it_does_not_wait (this_sched self : nat)
    (resumes : list (hook.World -> hook.World))
    (calls : list hook.raw_result) (errs : list (hook.raw_result * Z))
    (fd timeout_ms : Z) (w : hook.World) :
  hook.t_hook_enable w = true ->
  (fd = -1 \/
   fd_manager.size (hook.FdMgr w) <= wrap64 fd \/
   (0 <= fd /\
    fd_manager.m_datas (hook.FdMgr w) !! Z.to_nat fd = Some None) ->
   hook.connect_with_timeout this_sched self resumes calls errs fd timeout_ms w
     = Ret (-1, hook.set_errno EBADF w) /\
   forall r calls' event timeout_so,
     hook.do_io this_sched self resumes (r :: calls') fd event timeout_so w
       = Ret (hook.ret r, hook.set_errno (hook.err r) w)) /\
  (forall c r calls',
     0 <= fd ->
     fd_manager.m_datas (hook.FdMgr w) !! Z.to_nat fd = Some (Some c) ->
     fd_manager.m_isClosed c = false ->
     calls = r :: calls' ->
     hook.ret r = 0 \/ hook.ret r <> -1 \/ hook.err r <> hook.EINPROGRESS ->
     hook.connect_with_timeout this_sched self resumes calls errs fd
       timeout_ms w
     = Ret (hook.ret r, hook.set_errno (hook.err r) w)).
Proof.
  intros Hen. split.
  - intros H. split.
    + unfold hook.connect_with_timeout. rewrite Hen. simpl.
      destruct H as [-> | [H | [Hfd H]]].
      * reflexivity.
      * unfold fd_manager.get. destruct (fd =? -1); [reflexivity |].
        destruct (Z.leb_spec (fd_manager.size (hook.FdMgr w)) (wrap64 fd));
          [reflexivity | lia].
      * rewrite (get_stored _ fd _ None Hfd H). reflexivity.
    + intros r calls' event timeout_so. apply do_io_original.
      right. destruct H as [H | [H | H]]; auto.
  - intros c r calls' Hfd Hc Hcl -> Hr.
    unfold hook.connect_with_timeout. rewrite Hen. simpl.
    rewrite (get_stored _ fd _ (Some c) Hfd Hc). simpl. rewrite Hcl.
    destruct (fd_manager.m_isSocket c); simpl; [| reflexivity].
    destruct (fd_manager.m_userNonblock c); simpl; [reflexivity |].
    destruct (Z.eqb_spec (hook.ret r) 0) as [E0 | Hn0];
      [rewrite E0; reflexivity |].
    destruct (Z.eqb_spec (hook.ret r) (-1)) as [Hm1 | Hm1]; simpl;
      [| reflexivity].
    destruct (Z.eqb_spec (hook.err r) hook.EINPROGRESS) as [He | He]; simpl;
      [| reflexivity].
    exfalso. destruct Hr as [Hr | [Hr | Hr]]; auto.
Qed.

Lemma connect_when_it_does_not_wait_witness :
  hook.t_hook_enable before_recv3 = true /\
  hook.connect_with_timeout 0 7 [] [] [] 5 UINT64_MAX before_recv3
    = Ret (-1, hook.set_errno EBADF before_recv3) /\
  hook.connect_with_timeout 0 7 [] [hook.mk_raw 0 0] [] 3 UINT64_MAX
    before_recv3
    = Ret (0, hook.set_errno 0 before_recv3).
Proof.
  destruct (connect_when_it_does_not_wait 0 7 [] [] [] 5 UINT64_MAX
              before_recv3 eq_refl) as [H1 _].
  destruct (connect_when_it_does_not_wait 0 7 [] [hook.mk_raw 0 0] [] 3
              UINT64_MAX before_recv3 eq_refl) as [_ H2].
  split; [reflexivity |]. split.
  - apply H1. right. right. split; [vm_compute; congruence |].
    vm_compute. reflexivity.
  - apply (H2 (fd_manager.setTimeout fd_manager.SO_RCVTIMEO 50
                 (fd_manager.FdCtx_new fd_manager.StatSocket 3))
              (hook.mk_raw 0 0) []);
      [vm_compute; congruence | vm_compute; reflexivity | reflexivity
      | reflexivity | left; reflexivity].
Defined.
